(** * Slipless-Bare: the HTTP facade over the Solana SDK

    A shallow embedding of [src/index.js].  The file holds two variants of
    the server, one after the other; the first (lines 1-390) is embedded in
    module [V1], the second (lines 391-652) in module [V2].

    The SDK (@solana/web3.js, @solana/spl-token, @coral-xyz/anchor) and the
    JavaScript runtime are external: every call into them is an event
    answered by a host, which either returns a value or throws.  The code of
    the repository is everything between those calls. *)

From Stdlib Require Import ZArith Lia List String Bool Ascii.
From Stdlib Require Import Floats.SpecFloat.
Import ListNotations.
Open Scope string_scope.
Open Scope list_scope.
Open Scope Z_scope.

Set Implicit Arguments.

(* ================================================================== *)
(** * JavaScript values *)

(** A JavaScript number is an IEEE 754 binary64 value. *)
Definition number : Type := spec_float.
Definition prec : Z := 53.
Definition emax : Z := 1024.

Definition NaN : number := S754_nan.

(** The number nearest to an integer ([Number(z)] on a BigInt, and integer
    literals). *)
Definition Number_of_Z (z : Z) : number := binary_normalize prec emax z 0 false.

(** [x * y] and [x / y] on numbers. *)
Definition js_mul (x y : number) : number := SFmul prec emax x y.
Definition js_div (x y : number) : number := SFdiv prec emax x y.

(** [Math.pow(b, n)] and [b ** n] for a literal natural exponent, by
    repeated multiplication. *)
Fixpoint Math_pow (b : number) (n : nat) : number :=
  match n with
  | O => Number_of_Z 1
  | S k => js_mul b (Math_pow b k)
  end.

(** The integer a number denotes, when it denotes one. *)
Definition number_to_Z (x : number) : option Z :=
  match x with
  | S754_zero _ => Some 0
  | S754_finite s m e =>
      let sign z := if s then - z else z in
      if 0 <=? e then Some (sign (Zpos m * 2 ^ e))
      else if Zpos m mod 2 ^ (- e) =? 0 then Some (sign (Zpos m / 2 ^ (- e)))
      else None
  | _ => None
  end.

(** The canonical binary64 representation of a positive integer below
    2^53: the mantissa is shifted left until it has 53 bits. *)
Definition canonical (p : positive) : number :=
  let d := Zpos (digits2_pos p) in
  S754_finite false (Z.to_pos (Zpos p * 2 ^ (prec - d))) (d - prec).

(** Values that travel in request bodies, query strings and responses. *)
#[warnings="-register-all"] Inductive JsValue : Type :=
| JUndefined
| JNull
| JBool (b : bool)
| JNum (x : number)
| JStr (s : string)
| JArr (items : list JsValue)
| JObj (props : list (string * JsValue)).

(** Property read [o.k] on a value that has properties: a missing property
    reads as [undefined], and so do the properties the code asks of a
    primitive or an array.  [undefined] and [null] have no properties:
    reading one throws, which the code can do only where it destructures a
    request body (see [destructure]). *)
Fixpoint lookup_prop (k : string) (props : list (string * JsValue)) : JsValue :=
  match props with
  | [] => JUndefined
  | (k', v) :: rest => if String.eqb k k' then v else lookup_prop k rest
  end.

Definition get_prop (k : string) (o : JsValue) : JsValue :=
  match o with
  | JObj props => lookup_prop k props
  | _ => JUndefined
  end.

(** [undefined] and [null], the two values that cannot be destructured. *)
Definition nullish (v : JsValue) : bool :=
  match v with
  | JUndefined | JNull => true
  | _ => false
  end.

Definition has_prop (k : string) (o : JsValue) : bool :=
  match o with
  | JObj props => existsb (fun kv => String.eqb k (fst kv)) props
  | _ => false
  end.

Definition prop_names (o : JsValue) : list string :=
  match o with
  | JObj props => map fst props
  | _ => []
  end.

(** A value that is [undefined], [null] or present, as the SDK's typings
    have it for optional fields. *)
Inductive Nullable (A : Type) : Type :=
| Undefined
| Null
| Present (a : A).
Arguments Undefined {A}.
Arguments Null {A}.

(** [x !== null] *)
Definition strict_not_null {A} (x : Nullable A) : bool :=
  match x with
  | Null => false
  | _ => true
  end.

(** Thrown values are [Error] objects; the routes read their [message]. *)
Record Error : Type := new_Error { message : string }.

Inductive Outcome (A : Type) : Type :=
| Returned (a : A)
| Thrown (e : Error).
Arguments Thrown {A} e.

(** Objects are truthy. *)
Definition truthy_object {A : Type} (_ : A) : bool := true.

(** Strings are truthy unless empty; an unset environment variable is
    [undefined]. *)
Definition truthy_env (v : option string) : bool :=
  match v with
  | Some s => negb (String.eqb s "")
  | None => false
  end.

(* ================================================================== *)
(** * The SDK: data *)

(** A public key is identified by its base-58 text; [toString] and
    [toBase58] print it. *)
Record PublicKey : Type := mkPublicKey { toBase58 : string }.
Definition toString (pk : PublicKey) : string := toBase58 pk.

Record Keypair : Type := mkKeypair {
  kp_publicKey : PublicKey;
  kp_secretKey : list Z
}.

(** Constants exported by the SDK. *)
Definition TOKEN_2022_PROGRAM_ID : PublicKey :=
  mkPublicKey "TokenzQdBNbLqP5VEhdkAS6EPFLC1PHnBqCXEpPxuEb".
Definition SystemProgram_programId : PublicKey :=
  mkPublicKey "11111111111111111111111111111111".

Inductive ExtensionType : Type := ExtensionType_TransferHook.

(** Seeds of a program-derived address: [Buffer.from(text)] and
    [key.toBuffer()]. *)
Inductive Seed : Type :=
| Buffer_from (text : string)
| toBuffer (key : PublicKey).

Record Connection : Type := mkConnection {
  conn_endpoint : string;
  conn_commitment : string;
  conn_maxSupportedTransactionVersion : option nat
}.

(** [new Wallet(keypair)] *)
Record Wallet : Type := mkWallet {
  wallet_payer : Keypair;
  wallet_publicKey : PublicKey
}.
Definition new_Wallet (kp : Keypair) : Wallet :=
  {| wallet_payer := kp; wallet_publicKey := kp_publicKey kp |}.

(** [new AnchorProvider(connection, wallet, { commitment })] *)
Record AnchorProvider : Type := new_AnchorProvider {
  provider_connection : Connection;
  provider_wallet : Wallet;
  provider_commitment : string
}.

(** [new Program(idl, programId, provider)] *)
Record Program : Type := new_Program {
  programId : PublicKey;
  provider : AnchorProvider
}.

Record AccountMeta : Type := mkAccountMeta {
  pubkey : PublicKey;
  isSigner : bool;
  isWritable : bool
}.

(** An instruction object, with its [keys] array. *)
Record TransactionInstruction : Type := mkInstruction {
  ix_programId : PublicKey;
  keys : list AccountMeta;
  data : list Z
}.

(** [instruction.keys.push(meta)] *)
Definition keys_push (ix : TransactionInstruction) (meta : AccountMeta)
  : TransactionInstruction :=
  {| ix_programId := ix_programId ix; keys := keys ix ++ [meta]; data := data ix |}.

(** [new Transaction().add(ix, ...)] *)
Record Transaction : Type := mkTransaction {
  instructions : list TransactionInstruction
}.
Definition new_Transaction : Transaction := {| instructions := [] |}.
Definition Transaction_add (tx : Transaction) (ixs : list TransactionInstruction)
  : Transaction :=
  {| instructions := instructions tx ++ ixs |}.

(** A token account as [getAccount] and
    [getOrCreateAssociatedTokenAccount] return it; [amount] is a BigInt. *)
Record Account : Type := mkAccount {
  address : PublicKey;
  acc_mint : PublicKey;
  acc_owner : PublicKey;
  acc_amount : Z
}.

(** A mint as [getMint] returns it, seen through the two properties the
    code reads. *)
Record Mint : Type := mkMint {
  mint_decimals : number;
  mint_transferHookProgramId : Nullable PublicKey
}.

(** An element of [getTokenAccountsByOwner(...).value]. *)
Record TokenAccountEntry : Type := mkTokenAccountEntry {
  entry_pubkey : PublicKey
}.

(** [TransactionError] is an object or a string. *)
Inductive TransactionError : Type :=
| ErrObject (repr : JsValue)
| ErrString (s : string).

Record ConfirmedSignatureInfo : Type := mkSigInfo {
  signature : string;
  blockTime : Nullable number;
  err : Nullable TransactionError
}.

Record TransactionResponse : Type := mkTransactionResponse {
  tx_slot : Z
}.

(** Truthiness of [sigInfo.err]. *)
Definition truthy_err (e : Nullable TransactionError) : bool :=
  match e with
  | Present (ErrObject _) => true
  | Present (ErrString s) => negb (String.eqb s "")
  | _ => false
  end.

(** [ToNumber] on [sigInfo.blockTime]. *)
Definition ToNumber_blockTime (t : Nullable number) : number :=
  match t with
  | Present x => x
  | Null => S754_zero false
  | Undefined => NaN
  end.

(* ================================================================== *)
(** * The SDK: calls *)

(** Every entry point of the SDK and of the runtime that the code calls,
    with the arguments the code passes, indexed by the type of the value
    the call returns.  Empty option objects ([{}]) are left out;
    [findProgramAddressSync] returns the address, the first component of
    the pair the code destructures; [getTokenAccountsByOwner] returns the
    [value] array the code iterates over. *)
Inductive Call : Type -> Type :=
| New_PublicKey (value : JsValue) : Call PublicKey
| Keypair_generate : Call Keypair
| Keypair_fromSecretKey (secret : JsValue) : Call Keypair
| JSON_parse (text : string) : Call JsValue
| New_Connection (endpoint commitment : string)
    (maxSupportedTransactionVersion : option nat) : Call Connection
| getMintLen (extensions : list ExtensionType) : Call nat
| getMinimumBalanceForRentExemption (c : Connection) (dataLength : nat)
  : Call number
| sendAndConfirm (p : AnchorProvider) (tx : Transaction)
    (signers : list Keypair) : Call string
| findProgramAddressSync (seeds : list Seed) (program : PublicKey)
  : Call PublicKey
| methods_initializeExtraAccountMetaList_rpc (p : Program)
    (payer mint extraAccountMetaList systemProgram : PublicKey) : Call string
| methods_issueBadge_rpc (p : Program)
    (authority user tokenBadge systemProgram : PublicKey) : Call string
| getOrCreateAssociatedTokenAccount (c : Connection) (payer : Keypair)
    (mint owner : PublicKey) (allowOwnerOffCurve : bool)
    (commitment : string) (program : PublicKey) : Call Account
| createTransferCheckedWithTransferHookInstruction (c : Connection)
    (source mint destination owner : PublicKey) (amount : number)
    (decimals : nat) (multiSigners : list Keypair) (commitment : string)
    (program : PublicKey) : Call TransactionInstruction
| transfer (c : Connection) (payer : Keypair)
    (source destination owner : PublicKey) (amount : number)
    (multiSigners : list Keypair) (program : PublicKey) : Call string
| getTokenAccountsByOwner (c : Connection) (owner program : PublicKey)
  : Call (list TokenAccountEntry)
| getAccount (c : Connection) (account : PublicKey) (commitment : string)
    (program : PublicKey) : Call Account
| getMint (c : Connection) (mint : PublicKey) (commitment : string)
    (program : PublicKey) : Call Mint
| getSignaturesForAddress (c : Connection) (account : PublicKey) (limit : nat)
  : Call (list ConfirmedSignatureInfo)
| getTransaction (c : Connection) (sig commitment : string)
    (maxSupportedTransactionVersion : option nat)
  : Call (option TransactionResponse)
| getBalance (c : Connection) (account : PublicKey) : Call number.

(** One call together with what it answered. *)
Inductive Event : Type :=
| Ev {X : Type} (c : Call X) (r : Outcome X).

(** The error an event ended with, if it threw. *)
Definition thrown_by (ev : Event) : option Error :=
  match ev with
  | Ev _ (Thrown e) => Some e
  | Ev _ (Returned _) => None
  end.

(** [process.env], as far as the code reads it. *)
Record Env : Type := mkEnv {
  RPC_URL : option string;
  SERVER_WALLET_SECRET_KEY : option string
}.

(** What surrounds the code: the SDK and runtime answering calls over a
    world [W] (the cluster, the clock, the random source), the environment,
    the SDK's pure instruction builders, and the two things the sources do
    not contain: the program address of
    [./idl/slipless_hook.json], already turned into the module constant
    [TRANSFER_HOOK_PROGRAM_ID], the engine's [ToNumber] on strings,
    arrays and objects, and the [TypeError] the engine throws when
    [undefined] or [null] is destructured. *)
Record Host (W : Type) : Type := mkHost {
  exec : forall X : Type, Call X -> W -> Outcome X * W;
  env : Env;
  TRANSFER_HOOK_PROGRAM_ID : PublicKey;
  ToNumber_nonprimitive : JsValue -> number;
  TypeError_destructure : JsValue -> Error;
  (* the SDK's synchronous instruction builders *)
  SystemProgram_createAccount :
    forall (fromPubkey newAccountPubkey : PublicKey) (space : nat)
           (lamports : number) (programId : PublicKey), TransactionInstruction;
  createInitializeTransferHookInstruction :
    forall (mint authority transferHookProgramId programId : PublicKey),
      TransactionInstruction;
  createInitializeMintInstruction :
    forall (mint : PublicKey) (decimals : nat) (mintAuthority : PublicKey)
           (freezeAuthority : option PublicKey) (programId : PublicKey),
      TransactionInstruction
}.

(** [ToNumber], applied by [*] to its operands. *)
Definition ToNumber {W} (h : Host W) (v : JsValue) : number :=
  match v with
  | JUndefined => NaN
  | JNull => S754_zero false
  | JBool true => Number_of_Z 1
  | JBool false => S754_zero false
  | JNum x => x
  | other => ToNumber_nonprimitive h other
  end.

(* ================================================================== *)
(** * Running code against the host *)

(** The service object: the two fields the constructor assigns. *)
Record SolanaService : Type := mkSolanaService {
  connection : Connection;
  program : Program
}.

(** The state a request can see: the module variable [solanaService]
    ([undefined] when the constructor threw) and the world behind the SDK. *)
Record State (W : Type) : Type := mkState {
  solanaService : option SolanaService;
  world : W
}.

(** The result of running a piece of code: how it ended, the state it left
    and the calls it made, oldest first. *)
Record Run (W A : Type) : Type := mkRun {
  outcome : Outcome A;
  final : State W;
  emitted : list Event
}.

Definition M (W A : Type) : Type := State W -> Run W A.

Definition ret {W A} (a : A) : M W A :=
  fun st => {| outcome := Returned a; final := st; emitted := [] |}.

(** [throw e] *)
Definition throw {W A} (e : Error) : M W A :=
  fun st => {| outcome := Thrown e; final := st; emitted := [] |}.

(** Sequencing; [await] is sequencing too. *)
Definition bind {W A B} (m : M W A) (k : A -> M W B) : M W B :=
  fun st =>
    match m st with
    | mkRun (Returned a) s t =>
        match k a s with
        | mkRun o s' t' => mkRun o s' (t ++ t')
        end
    | mkRun (Thrown e) s t => mkRun (Thrown e) s t
    end.

(** [try { m } catch (e) { handler e }] *)
Definition try_catch {W A} (m : M W A) (handler : Error -> M W A) : M W A :=
  fun st =>
    match m st with
    | mkRun (Returned a) s t => mkRun (Returned a) s t
    | mkRun (Thrown e) s t =>
        match handler e s with
        | mkRun o s' t' => mkRun o s' (t ++ t')
        end
    end.

(** A call into the SDK: the host answers it and moves the world. *)
Definition call {W X} (h : Host W) (c : Call X) : M W X :=
  fun st =>
    let (r, w) := exec h c (world st) in
    {| outcome := r;
       final := {| solanaService := solanaService st; world := w |};
       emitted := [Ev c r] |}.

(** [const { a, b } = v]: the value is checked to be neither [undefined]
    nor [null], which throws a [TypeError], before its properties are read. *)
Definition destructure {W} (h : Host W) (v : JsValue) : M W JsValue :=
  if nullish v then throw (TypeError_destructure h v) else ret v.

(** Reading and assigning the module variable [solanaService]. *)
Definition read_solanaService {W} : M W (option SolanaService) :=
  fun st => {| outcome := Returned (solanaService st); final := st; emitted := [] |}.

Definition assign_solanaService {W} (s : SolanaService) : M W unit :=
  fun st =>
    {| outcome := Returned tt;
       final := {| solanaService := Some s; world := world st |};
       emitted := [] |}.

(** [for (const x of xs) { acc = body x acc }]: the loops of the code push
    onto a local array, which is the accumulator. *)
Fixpoint for_of {W A B} (xs : list A) (body : A -> B -> M W B) (acc : B) : M W B :=
  match xs with
  | [] => ret acc
  | x :: rest => bind (body x acc) (for_of rest body)
  end.

Declare Scope js_scope.
Delimit Scope js_scope with js.
Notation "x <- m ;; k" := (bind m (fun x => k))
  (at level 61, m at next level, right associativity) : js_scope.
Notation "m ;;; k" := (bind m (fun _ => k))
  (at level 61, right associativity) : js_scope.
Open Scope js_scope.

(* ================================================================== *)
(** * HTTP *)

Inductive Method : Type := GET | HEAD | POST | PUT | DELETE | PATCH | OPTIONS.

(** A request as a handler sees it: [req.path] is the path without the
    query string, [req.body] what [bodyParser.json()] left there
    ([undefined] when it parsed nothing and leaves the property unset) and
    [req.query] the parsed query string, which the framework always sets
    to an object: its properties. *)
Record Request : Type := mkRequest {
  req_method : Method;
  req_path : string;
  req_body : JsValue;
  req_query : list (string * JsValue)
}.

(** A JSON response: the status and the value handed to [res.json]. *)
Record Response : Type := mkResponse {
  status : nat;
  body : JsValue
}.

(** [res.json(v)] and [res.status(n).json(v)] *)
Definition res_json (v : JsValue) : Response := {| status := 200; body := v |}.
Definition res_status_json (n : nat) (v : JsValue) : Response :=
  {| status := n; body := v |}.

(** What the application sends back: the JSON response of a handler, or
    the text of a [res.status(n).send(text)]. *)
Inductive Reply : Type :=
| Json (res : Response)
| Text (code : nat) (text : string).

Definition res_status_send (n : nat) (text : string) : Reply := Text n text.

Definition Method_eqb (a b : Method) : bool :=
  match a, b with
  | GET, GET | HEAD, HEAD | POST, POST | PUT, PUT | DELETE, DELETE
  | PATCH, PATCH | OPTIONS, OPTIONS => true
  | _, _ => false
  end.

(** ** Routing, as [express()] does it with its default settings

    A route registered with [app.get] or [app.post] under a literal path
    serves the requests of its method, and [app.get] those of HEAD as
    well (the handler runs alike; the body it hands to [res.json] is not
    sent); the path is compared without regard to the case of ASCII
    letters (no [case sensitive routing]) and a single trailing slash is
    allowed (no [strict routing]). *)
Definition lower (c : ascii) : ascii :=
  let n := N_of_ascii c in
  if (65 <=? n)%N && (n <=? 90)%N then ascii_of_N (n + 32) else c.

Fixpoint lowercase (s : string) : string :=
  match s with
  | EmptyString => EmptyString
  | String c rest => String (lower c) (lowercase rest)
  end.

Definition path_matches (registered requested : string) : bool :=
  String.eqb (lowercase requested) (lowercase registered)
  || String.eqb (lowercase requested) (lowercase registered ++ "/").

Definition method_serves (registered requested : Method) : bool :=
  Method_eqb requested registered
  || (Method_eqb registered GET && Method_eqb requested HEAD).

(* ================================================================== *)
(** * The first variant of the server (lines 1-390) *)

Module V1.
Section Server.
Context {W : Type}.
Variable h : Host W.

(** [process.env.RPC_URL || 'https://api.devnet.solana.com'] *)
Definition RPC_ENDPOINT : string :=
  match RPC_URL (env h) with
  | Some url => if String.eqb url "" then "https://api.devnet.solana.com" else url
  | None => "https://api.devnet.solana.com"
  end.

(** The constructor.  Its [catch] logs and re-throws.  ([console.log] and
    [console.error] are left out here and below: they touch nothing the
    responses depend on.) *)
Definition constructor : M W SolanaService :=
  try_catch
    (connection <- call h (New_Connection RPC_ENDPOINT "confirmed" (Some 0%nat)) ;;
     if negb (truthy_env (SERVER_WALLET_SECRET_KEY (env h))) then
       throw (new_Error "SERVER_WALLET_SECRET_KEY environment variable is not set.")
     else
       secret <- call h (JSON_parse
                   (match SERVER_WALLET_SECRET_KEY (env h) with
                    | Some s => s
                    | None => ""
                    end)) ;;
       serverKeypair <- call h (Keypair_fromSecretKey secret) ;;
       let wallet := new_Wallet serverKeypair in
       ret {| connection := connection;
              program := new_Program (TRANSFER_HOOK_PROGRAM_ID h)
                           (new_AnchorProvider connection wallet "confirmed") |})
    (fun error => throw error).

Definition createTokenMint (this : SolanaService) : M W string :=
  mintKeypair <- call h Keypair_generate ;;
  let extensions := [ExtensionType_TransferHook] in
  mintLen <- call h (getMintLen extensions) ;;
  lamports <- call h (getMinimumBalanceForRentExemption (connection this) mintLen) ;;
  let wallet := provider_wallet (provider (program this)) in
  let transaction :=
    Transaction_add new_Transaction
      [ SystemProgram_createAccount h
          (wallet_publicKey wallet) (kp_publicKey mintKeypair)
          mintLen lamports TOKEN_2022_PROGRAM_ID;
        createInitializeTransferHookInstruction h
          (kp_publicKey mintKeypair) (wallet_publicKey wallet)
          (programId (program this)) TOKEN_2022_PROGRAM_ID;
        createInitializeMintInstruction h
          (kp_publicKey mintKeypair) 9 (wallet_publicKey wallet)
          None TOKEN_2022_PROGRAM_ID ] in
  call h (sendAndConfirm (provider (program this)) transaction [mintKeypair]) ;;;
  extraAccountMetaListPDA <-
    call h (findProgramAddressSync
              [Buffer_from "extra-account-metas"; toBuffer (kp_publicKey mintKeypair)]
              (programId (program this))) ;;
  call h (methods_initializeExtraAccountMetaList_rpc (program this)
            (wallet_publicKey wallet) (kp_publicKey mintKeypair)
            extraAccountMetaListPDA SystemProgram_programId) ;;;
  ret (toString (kp_publicKey mintKeypair)).

Definition issueBadge (this : SolanaService) (mintAddress recipientAddress : JsValue)
  : M W unit :=
  keys <-
    try_catch
      (mint <- call h (New_PublicKey mintAddress) ;;
       recipient <- call h (New_PublicKey recipientAddress) ;;
       ret (mint, recipient))
      (fun e => throw (new_Error ("Invalid public key input: " ++ message e))) ;;
  let recipient := snd keys in
  tokenBadgePDA <-
    call h (findProgramAddressSync
              [Buffer_from "token-badge"; toBuffer recipient]
              (programId (program this))) ;;
  call h (methods_issueBadge_rpc (program this)
            (wallet_publicKey (provider_wallet (provider (program this))))
            recipient tokenBadgePDA SystemProgram_programId) ;;;
  ret tt.

Definition transferTokens (this : SolanaService)
    (mintAddress recipientAddress amount : JsValue) : M W unit :=
  mint <- call h (New_PublicKey mintAddress) ;;
  recipient <- call h (New_PublicKey recipientAddress) ;;
  let wallet := provider_wallet (provider (program this)) in
  let authority := wallet_publicKey wallet in
  sourceATA <-
    call h (getOrCreateAssociatedTokenAccount (connection this) (wallet_payer wallet)
              mint authority false "confirmed" TOKEN_2022_PROGRAM_ID) ;;
  destinationATA <-
    call h (getOrCreateAssociatedTokenAccount (connection this) (wallet_payer wallet)
              mint recipient false "confirmed" TOKEN_2022_PROGRAM_ID) ;;
  extraAccountMetaListPDA <-
    call h (findProgramAddressSync
              [Buffer_from "extra-account-metas"; toBuffer mint]
              (programId (program this))) ;;
  transferInstruction <-
    call h (createTransferCheckedWithTransferHookInstruction (connection this)
              (address sourceATA) mint (address destinationATA) authority
              (js_mul (ToNumber h amount) (Math_pow (Number_of_Z 10) 9))
              9 [] "confirmed" TOKEN_2022_PROGRAM_ID) ;;
  let transferInstruction :=
    keys_push transferInstruction
      {| pubkey := TRANSFER_HOOK_PROGRAM_ID h; isSigner := false; isWritable := false |} in
  let transferInstruction :=
    keys_push transferInstruction
      {| pubkey := extraAccountMetaListPDA; isSigner := false; isWritable := false |} in
  let transaction := Transaction_add new_Transaction [transferInstruction] in
  call h (sendAndConfirm (provider (program this)) transaction [wallet_payer wallet]) ;;;
  ret tt.

(** The object pushed onto [balances]. *)
Definition balance_entry (accountInfo : Account) (mintInfo : Mint) : JsValue :=
  JObj [ ("mint", JStr (toString (acc_mint accountInfo)));
         ("amount", JNum (Number_of_Z (acc_amount accountInfo)));
         ("decimals", JNum (mint_decimals mintInfo));
         ("isTransferHookEnabled",
            JBool (strict_not_null (mint_transferHookProgramId mintInfo)));
         ("symbol", JStr "") ].

Definition getTokenBalances (this : SolanaService) (ownerAddress : JsValue)
  : M W (list JsValue) :=
  ownerPublicKey <- call h (New_PublicKey ownerAddress) ;;
  tokenAccounts <-
    call h (getTokenAccountsByOwner (connection this) ownerPublicKey
              TOKEN_2022_PROGRAM_ID) ;;
  for_of tokenAccounts
    (fun account balances =>
       accountInfo <- call h (getAccount (connection this) (entry_pubkey account)
                                "confirmed" TOKEN_2022_PROGRAM_ID) ;;
       mintInfo <- call h (getMint (connection this) (acc_mint accountInfo)
                             "confirmed" TOKEN_2022_PROGRAM_ID) ;;
       ret (balances ++ [balance_entry accountInfo mintInfo]))
    [].

(** The object pushed onto [transactions]. *)
Definition transaction_entry (sigInfo : ConfirmedSignatureInfo) : JsValue :=
  JObj [ ("signature", JStr (signature sigInfo));
         ("timestamp",
            JNum (js_mul (ToNumber_blockTime (blockTime sigInfo)) (Number_of_Z 1000)));
         ("status", JStr (if truthy_err (err sigInfo) then "failed" else "confirmed"));
         ("type", JStr "Unknown");
         ("description", JStr "") ].

(** [limit = 10] when the caller passes no second argument. *)
Definition default_limit : nat := 10.

(** The guard [!this.connection] tests an object the constructor has
    assigned; like the guard of [getServerWalletBalance] it is kept as
    written. *)
Definition getTransactions (this : SolanaService) (publicKey : JsValue)
    (limit : option nat) : M W (list JsValue) :=
  let limit := match limit with Some n => n | None => default_limit end in
  if negb (truthy_object (connection this)) then
    throw (new_Error "Solana connection not available.")
  else
    try_catch
      (pubKey <- call h (New_PublicKey publicKey) ;;
       signatures <- call h (getSignaturesForAddress (connection this) pubKey limit) ;;
       for_of signatures
         (fun sigInfo transactions =>
            tx <- call h (getTransaction (connection this) (signature sigInfo)
                            "confirmed" (Some 0%nat)) ;;
            match tx with
            | Some _ => ret (transactions ++ [transaction_entry sigInfo])
            | None => ret transactions
            end)
         [])
      (fun error => throw error).

Definition getServerWalletBalance (this : SolanaService) : M W number :=
  try_catch
    (if negb (truthy_object (program this))
        || negb (truthy_object (provider (program this)))
        || negb (truthy_object (provider_wallet (provider (program this))))
        || negb (truthy_object (wallet_publicKey (provider_wallet (provider (program this)))))
     then throw (new_Error "Server wallet public key not available.")
     else
       lamports <- call h (getBalance (connection this)
                             (wallet_publicKey (provider_wallet (provider (program this))))) ;;
       ret (js_div lamports (Math_pow (Number_of_Z 10) 9)))
    (fun error => throw error).

(** Module initialisation: [solanaService] is assigned if the constructor
    returns, and stays [undefined] if it throws. *)
Definition init : M W unit :=
  try_catch
    (s <- constructor ;; assign_solanaService s)
    (fun e => ret tt).

(** ** Routes

    A handler is the function given to [app.post] or [app.get].  What it
    throws outside its [try], or after it, leaves the handler: the promise
    the [async] function returned is rejected.  The [cors] middleware and
    [app.listen] are not part of the embedding. *)

Definition not_initialized : JsValue :=
  JObj [("success", JBool false); ("error", JStr "Backend service not initialized.")].

Definition failure (error : Error) : JsValue :=
  JObj [("success", JBool false); ("error", JStr (message error))].

Definition Handler : Type := Request -> M W Response.

Definition create_token : Handler := fun req =>
  s <- read_solanaService ;;
  match s with
  | None => ret (res_status_json 500 not_initialized)
  | Some solanaService =>
      try_catch
        (mintAddress <- createTokenMint solanaService ;;
         ret (res_json (JObj [("success", JBool true); ("mintAddress", JStr mintAddress)])))
        (fun error => ret (res_status_json 500 (failure error)))
  end.

Definition issue_badge : Handler := fun req =>
  s <- read_solanaService ;;
  match s with
  | None => ret (res_status_json 500 not_initialized)
  | Some solanaService =>
      body <- destructure h (req_body req) ;;
      let mintAddress := get_prop "mintAddress" body in
      let recipientAddress := get_prop "recipientAddress" body in
      try_catch
        (issueBadge solanaService mintAddress recipientAddress ;;;
         ret (res_json (JObj [("success", JBool true)])))
        (fun error => ret (res_status_json 500 (failure error)))
  end.

Definition transfer_route : Handler := fun req =>
  s <- read_solanaService ;;
  match s with
  | None => ret (res_status_json 500 not_initialized)
  | Some solanaService =>
      body <- destructure h (req_body req) ;;
      let mintAddress := get_prop "mintAddress" body in
      let recipientAddress := get_prop "recipientAddress" body in
      let amount := get_prop "amount" body in
      try_catch
        (transferTokens solanaService mintAddress recipientAddress amount ;;;
         ret (res_json (JObj [("success", JBool true)])))
        (fun error => ret (res_status_json 500 (failure error)))
  end.

Definition token_balances : Handler := fun req =>
  s <- read_solanaService ;;
  match s with
  | None => ret (res_status_json 500 not_initialized)
  | Some solanaService =>
      let ownerAddress := lookup_prop "ownerAddress" (req_query req) in
      try_catch
        (balances <- getTokenBalances solanaService ownerAddress ;;
         ret (res_json (JObj [("success", JBool true); ("balances", JArr balances)])))
        (fun error => ret (res_status_json 500 (failure error)))
  end.

Definition transactions_route : Handler := fun req =>
  s <- read_solanaService ;;
  match s with
  | None => ret (res_status_json 500 not_initialized)
  | Some solanaService =>
      let publicKey := lookup_prop "publicKey" (req_query req) in
      try_catch
        (transactions <- getTransactions solanaService publicKey None ;;
         ret (res_json (JObj [("success", JBool true); ("transactions", JArr transactions)])))
        (fun error => ret (res_status_json 500 (failure error)))
  end.

Definition server_wallet_transactions : Handler := fun req =>
  s <- read_solanaService ;;
  match s with
  | None => ret (res_status_json 500 not_initialized)
  | Some solanaService =>
      try_catch
        (transactions <-
           getTransactions solanaService
             (JStr (toString (wallet_publicKey
                                (provider_wallet (provider (program solanaService))))))
             None ;;
         ret (res_json (JObj [("success", JBool true); ("transactions", JArr transactions)])))
        (fun error => ret (res_status_json 500 (failure error)))
  end.

Definition health : Handler := fun req =>
  ret (res_json (JObj [("status", JStr "OK")])).

Definition wallet_status : Handler := fun req =>
  s <- read_solanaService ;;
  match s with
  | None =>
      ret (res_status_json 500
             (JObj [("connected", JBool false);
                    ("error", JStr "Backend service not initialized.")]))
  | Some solanaService =>
      try_catch
        (if truthy_env (SERVER_WALLET_SECRET_KEY (env h)) then
           secret <- call h (JSON_parse
                       (match SERVER_WALLET_SECRET_KEY (env h) with
                        | Some s => s
                        | None => ""
                        end)) ;;
           keypair <- call h (Keypair_fromSecretKey secret) ;;
           balance <- getServerWalletBalance solanaService ;;
           ret (res_json (JObj [("connected", JBool true);
                                ("publicKey", JStr (toString (kp_publicKey keypair)));
                                ("balance", JNum balance)]))
         else
           ret (res_json (JObj [("connected", JBool false);
                                ("message", JStr "SERVER_WALLET_SECRET_KEY not set.")])))
        (fun error =>
           ret (res_status_json 500
                  (JObj [("connected", JBool false); ("error", JStr (message error))])))
  end.

Definition program_info : Handler := fun req =>
  s <- read_solanaService ;;
  match s with
  | None =>
      ret (res_status_json 500 (JObj [("error", JStr "Backend service not initialized.")]))
  | Some _ =>
      try_catch
        (ret (res_json (JObj [("rpcEndpoint", JStr RPC_ENDPOINT);
                              ("transferHookProgramId",
                                 JStr (toString (TRANSFER_HOOK_PROGRAM_ID h)))])))
        (fun error => ret (res_status_json 500 (JObj [("error", JStr (message error))])))
  end.

(** The routes in the order [app.post] and [app.get] register them. *)
Definition routes : list (Method * string * Handler) :=
  [ (POST, "/api/create-token", create_token);
    (POST, "/api/issue-badge", issue_badge);
    (POST, "/api/transfer", transfer_route);
    (GET, "/api/token-balances", token_balances);
    (GET, "/api/transactions", transactions_route);
    (GET, "/api/server-wallet-transactions", server_wallet_transactions);
    (GET, "/api/health", health);
    (GET, "/api/wallet-status", wallet_status);
    (GET, "/api/program-info", program_info) ].

(** The first registered route that serves the request's method and
    path; no handler calls [next], so no later one runs. *)
Fixpoint dispatch (table : list (Method * string * Handler)) (m : Method) (p : string)
  : option Handler :=
  match table with
  | [] => None
  | (m', p', handler) :: rest =>
      if method_serves m' m && path_matches p' p then Some handler
      else dispatch rest m p
  end.

(** Running the handler of a request; [None] when no route of the
    application matches and the framework answers on its own.  The run
    throws what the handler lets escape. *)
Definition handle (req : Request) : M W (option Response) :=
  match dispatch routes (req_method req) (req_path req) with
  | Some handler => res <- handler req ;; ret (Some res)
  | None => ret None
  end.

(** The error-handling middleware, registered last (lines 387-390): it
    logs the error and answers with a text. *)
Definition error_middleware (err : Error) (req : Request) : Reply :=
  res_status_send 500 "Something broke!".

(** The application: the reply to a request is its handler's response,
    and the error-handling middleware's when the framework hands it the
    error the handler let escape. *)
Definition app (req : Request) : M W (option Reply) :=
  try_catch
    (res <- handle req ;; ret (option_map Json res))
    (fun err => ret (Some (error_middleware err req))).

(** Serving requests one after the other. *)
Fixpoint serve (reqs : list Request) (st : State W) : State W :=
  match reqs with
  | [] => st
  | req :: rest => serve rest (final (handle req st))
  end.

End Server.
End V1.

(* ================================================================== *)
(** * The second variant of the server (lines 391-652) *)

Module V2.
Section Server.
Context {W : Type}.
Variable h : Host W.

Definition transferTokens (this : SolanaService)
    (mintAddress recipientAddress amount : JsValue) : M W unit :=
  mint <- call h (New_PublicKey mintAddress) ;;
  recipient <- call h (New_PublicKey recipientAddress) ;;
  let wallet := provider_wallet (provider (program this)) in
  let authority := wallet_publicKey wallet in
  sourceATA <-
    call h (getOrCreateAssociatedTokenAccount (connection this) (wallet_payer wallet)
              mint authority false "confirmed" TOKEN_2022_PROGRAM_ID) ;;
  destinationATA <-
    call h (getOrCreateAssociatedTokenAccount (connection this) (wallet_payer wallet)
              mint recipient false "confirmed" TOKEN_2022_PROGRAM_ID) ;;
  call h (transfer (connection this) (wallet_payer wallet)
            (address sourceATA) (address destinationATA) authority
            (js_mul (ToNumber h amount) (Math_pow (Number_of_Z 10) 9))
            [] TOKEN_2022_PROGRAM_ID) ;;;
  ret tt.

Definition getTokenBalances (this : SolanaService) (ownerAddress : JsValue)
  : M W (list JsValue) :=
  ownerPublicKey <- call h (New_PublicKey ownerAddress) ;;
  tokenAccounts <-
    call h (getTokenAccountsByOwner (connection this) ownerPublicKey
              TOKEN_2022_PROGRAM_ID) ;;
  for_of tokenAccounts
    (fun account balances =>
       accountInfo <- call h (getAccount (connection this) (entry_pubkey account)
                                "confirmed" TOKEN_2022_PROGRAM_ID) ;;
       mintInfo <- call h (getMint (connection this) (acc_mint accountInfo)
                             "confirmed" TOKEN_2022_PROGRAM_ID) ;;
       ret (balances ++
              [JObj [ ("mint", JStr (toString (acc_mint accountInfo)));
                      ("amount", JNum (Number_of_Z (acc_amount accountInfo)));
                      ("decimals", JNum (mint_decimals mintInfo));
                      ("isTransferHookEnabled",
                         JBool (strict_not_null (mint_transferHookProgramId mintInfo)));
                      ("symbol", JStr "") ]]))
    [].

(** [process.env.RPC_URL || 'https://api.devnet.solana.com'] *)
Definition RPC_ENDPOINT : string :=
  match RPC_URL (env h) with
  | Some url => if String.eqb url "" then "https://api.devnet.solana.com" else url
  | None => "https://api.devnet.solana.com"
  end.

(** The constructor: no guard and no [try]; [JSON.parse] of an unset
    variable is given the text of [undefined]. *)
Definition constructor : M W SolanaService :=
  connection <- call h (New_Connection RPC_ENDPOINT "confirmed" None) ;;
  secret <- call h (JSON_parse
              (match SERVER_WALLET_SECRET_KEY (env h) with
               | Some s => s
               | None => "undefined"
               end)) ;;
  serverKeypair <- call h (Keypair_fromSecretKey secret) ;;
  let wallet := new_Wallet serverKeypair in
  let provider := new_AnchorProvider connection wallet "confirmed" in
  ret {| connection := connection;
         program := new_Program (TRANSFER_HOOK_PROGRAM_ID h) provider |}.

Definition createTokenMint (this : SolanaService) : M W string :=
  mintKeypair <- call h Keypair_generate ;;
  let extensions := [ExtensionType_TransferHook] in
  mintLen <- call h (getMintLen extensions) ;;
  lamports <- call h (getMinimumBalanceForRentExemption (connection this) mintLen) ;;
  let wallet := provider_wallet (provider (program this)) in
  let transaction :=
    Transaction_add new_Transaction
      [ SystemProgram_createAccount h
          (wallet_publicKey wallet) (kp_publicKey mintKeypair)
          mintLen lamports TOKEN_2022_PROGRAM_ID;
        createInitializeMintInstruction h
          (kp_publicKey mintKeypair) 9 (wallet_publicKey wallet)
          None TOKEN_2022_PROGRAM_ID ] in
  call h (sendAndConfirm (provider (program this)) transaction [mintKeypair]) ;;;
  ret (toString (kp_publicKey mintKeypair)).

Definition issueBadge (this : SolanaService) (mintAddress recipientAddress : JsValue)
  : M W unit :=
  mint <- call h (New_PublicKey mintAddress) ;;
  recipient <- call h (New_PublicKey recipientAddress) ;;
  tokenBadgePDA <-
    call h (findProgramAddressSync
              [Buffer_from "token-badge"; toBuffer recipient]
              (programId (program this))) ;;
  call h (methods_issueBadge_rpc (program this)
            (wallet_publicKey (provider_wallet (provider (program this))))
            recipient tokenBadgePDA SystemProgram_programId) ;;;
  ret tt.

Definition getTransactions (this : SolanaService) (publicKey : JsValue)
    (limit : option nat) : M W (list JsValue) :=
  let limit := match limit with Some n => n | None => 10%nat end in
  pubKey <- call h (New_PublicKey publicKey) ;;
  signatures <- call h (getSignaturesForAddress (connection this) pubKey limit) ;;
  for_of signatures
    (fun sigInfo transactions =>
       tx <- call h (getTransaction (connection this) (signature sigInfo)
                       "confirmed" None) ;;
       match tx with
       | Some _ =>
           ret (transactions ++
                  [JObj [ ("signature", JStr (signature sigInfo));
                          ("timestamp",
                             JNum (js_mul (ToNumber_blockTime (blockTime sigInfo))
                                     (Number_of_Z 1000)));
                          ("status",
                             JStr (if truthy_err (err sigInfo)
                                   then "failed" else "confirmed"));
                          ("type", JStr "Unknown");
                          ("description", JStr "") ]])
       | None => ret transactions
       end)
    [].

(** Module initialisation (line 562): the constructor runs outside any
    [try]; what it throws stops the loading of the module, before a route
    is registered, and what it returns is the constant [solanaService]. *)
Definition init : M W SolanaService := constructor.

(** ** Routes.  No route tests [solanaService], and no error-handling
    middleware is registered: what a handler lets escape is left to the
    framework. *)

Definition Handler : Type := Request -> M W Response.

Definition failure (error : Error) : JsValue :=
  JObj [("success", JBool false); ("error", JStr (message error))].

Definition create_token (solanaService : SolanaService) : Handler := fun req =>
  try_catch
    (mintAddress <- createTokenMint solanaService ;;
     ret (res_json (JObj [("success", JBool true); ("mintAddress", JStr mintAddress)])))
    (fun error => ret (res_status_json 500 (failure error))).

Definition issue_badge (solanaService : SolanaService) : Handler := fun req =>
  body <- destructure h (req_body req) ;;
  let mintAddress := get_prop "mintAddress" body in
  let recipientAddress := get_prop "recipientAddress" body in
  try_catch
    (issueBadge solanaService mintAddress recipientAddress ;;;
     ret (res_json (JObj [("success", JBool true)])))
    (fun error => ret (res_status_json 500 (failure error))).

Definition transfer_route (solanaService : SolanaService) : Handler := fun req =>
  body <- destructure h (req_body req) ;;
  let mintAddress := get_prop "mintAddress" body in
  let recipientAddress := get_prop "recipientAddress" body in
  let amount := get_prop "amount" body in
  try_catch
    (transferTokens solanaService mintAddress recipientAddress amount ;;;
     ret (res_json (JObj [("success", JBool true)])))
    (fun error => ret (res_status_json 500 (failure error))).

Definition token_balances (solanaService : SolanaService) : Handler := fun req =>
  let ownerAddress := lookup_prop "ownerAddress" (req_query req) in
  try_catch
    (balances <- getTokenBalances solanaService ownerAddress ;;
     ret (res_json (JObj [("success", JBool true); ("balances", JArr balances)])))
    (fun error => ret (res_status_json 500 (failure error))).

Definition transactions_route (solanaService : SolanaService) : Handler := fun req =>
  let publicKey := lookup_prop "publicKey" (req_query req) in
  try_catch
    (transactions <- getTransactions solanaService publicKey None ;;
     ret (res_json (JObj [("success", JBool true); ("transactions", JArr transactions)])))
    (fun error => ret (res_status_json 500 (failure error))).

Definition health : Handler := fun req =>
  ret (res_json (JObj [("status", JStr "OK")])).

Definition wallet_status : Handler := fun req =>
  try_catch
    (if truthy_env (SERVER_WALLET_SECRET_KEY (env h)) then
       secret <- call h (JSON_parse
                   (match SERVER_WALLET_SECRET_KEY (env h) with
                    | Some s => s
                    | None => "undefined"
                    end)) ;;
       keypair <- call h (Keypair_fromSecretKey secret) ;;
       ret (res_json (JObj [("connected", JBool true);
                            ("publicKey", JStr (toString (kp_publicKey keypair)))]))
     else
       ret (res_json (JObj [("connected", JBool false);
                            ("message", JStr "SERVER_WALLET_SECRET_KEY not set.")])))
    (fun error =>
       ret (res_status_json 500
              (JObj [("connected", JBool false); ("error", JStr (message error))]))).

Definition program_info : Handler := fun req =>
  try_catch
    (ret (res_json (JObj [("rpcEndpoint", JStr RPC_ENDPOINT);
                          ("transferHookProgramId",
                             JStr (toString (TRANSFER_HOOK_PROGRAM_ID h)))])))
    (fun error => ret (res_status_json 500 (JObj [("error", JStr (message error))]))).

(** The routes in the order they are registered. *)
Definition routes (solanaService : SolanaService) : list (Method * string * Handler) :=
  [ (POST, "/api/create-token", create_token solanaService);
    (POST, "/api/issue-badge", issue_badge solanaService);
    (POST, "/api/transfer", transfer_route solanaService);
    (GET, "/api/token-balances", token_balances solanaService);
    (GET, "/api/transactions", transactions_route solanaService);
    (GET, "/health", health);
    (GET, "/api/wallet-status", wallet_status);
    (GET, "/api/program-info", program_info) ].

Definition handle (solanaService : SolanaService) (req : Request)
  : M W (option Response) :=
  match V1.dispatch (routes solanaService) (req_method req) (req_path req) with
  | Some handler => res <- handler req ;; ret (Some res)
  | None => ret None
  end.

End Server.
End V2.

(* ================================================================== *)
(** * Reading a trace of calls *)

(** The values [f] picks out of a trace, in order. *)
Fixpoint collect {A : Type} (f : Event -> option A) (evs : list Event) : list A :=
  match evs with
  | [] => []
  | ev :: rest =>
      match f ev with
      | Some a => a :: collect f rest
      | None => collect f rest
      end
  end.

Definition returned {X : Type} (r : Outcome X) : option X :=
  match r with
  | Returned x => Some x
  | Thrown _ => None
  end.

Definition is_New_PublicKey (ev : Event) : bool :=
  match ev with
  | Ev c _ => match c with New_PublicKey _ => true | _ => false end
  end.

(** The transaction and signers of a [sendAndConfirm] call. *)
Definition sent_transaction (ev : Event) : option (Transaction * list Keypair) :=
  match ev with
  | Ev c _ => match c with sendAndConfirm _ tx signers => Some (tx, signers) | _ => None end
  end.

(** The key pair a [Keypair.generate()] returned. *)
Definition generated_keypair (ev : Event) : option Keypair :=
  match ev with
  | Ev c r =>
      match c in Call X return Outcome X -> option Keypair with
      | Keypair_generate => fun r => returned r
      | _ => fun _ => None
      end r
  end.

(** The instruction a [createTransferCheckedWithTransferHookInstruction]
    returned, and the amount and decimals it was called with. *)
Definition hook_instruction (ev : Event) : option TransactionInstruction :=
  match ev with
  | Ev c r =>
      match c in Call X return Outcome X -> option TransactionInstruction with
      | createTransferCheckedWithTransferHookInstruction _ _ _ _ _ _ _ _ _ _ =>
          fun r => returned r
      | _ => fun _ => None
      end r
  end.

Definition hook_transfer_amount (ev : Event) : option (number * nat) :=
  match ev with
  | Ev c _ =>
      match c with
      | createTransferCheckedWithTransferHookInstruction _ _ _ _ _ amount decimals _ _ _ =>
          Some (amount, decimals)
      | _ => None
      end
  end.

(** The amount a [transfer] was called with. *)
Definition plain_transfer_amount (ev : Event) : option number :=
  match ev with
  | Ev c _ => match c with transfer _ _ _ _ _ amount _ _ => Some amount | _ => None end
  end.

(** The token accounts a [getTokenAccountsByOwner] returned. *)
Definition owner_accounts (ev : Event) : option (list TokenAccountEntry) :=
  match ev with
  | Ev c r =>
      match c in Call X return Outcome X -> option (list TokenAccountEntry) with
      | getTokenAccountsByOwner _ _ _ => fun r => returned r
      | _ => fun _ => None
      end r
  end.

(** The address a [getAccount] or [getMint] was asked about, with what it
    returned. *)
Definition account_lookup (ev : Event) : option (PublicKey * Account) :=
  match ev with
  | Ev c r =>
      match c in Call X return Outcome X -> option (PublicKey * Account) with
      | getAccount _ a _ _ =>
          fun r => match r with Returned x => Some (a, x) | Thrown _ => None end
      | _ => fun _ => None
      end r
  end.

Definition mint_lookup (ev : Event) : option (PublicKey * Mint) :=
  match ev with
  | Ev c r =>
      match c in Call X return Outcome X -> option (PublicKey * Mint) with
      | getMint _ a _ _ =>
          fun r => match r with Returned x => Some (a, x) | Thrown _ => None end
      | _ => fun _ => None
      end r
  end.

(** The limit a [getSignaturesForAddress] was called with, and the list it
    returned. *)
Definition signature_query (ev : Event) : option (nat * list ConfirmedSignatureInfo) :=
  match ev with
  | Ev c r =>
      match c in Call X return Outcome X -> option (nat * list ConfirmedSignatureInfo) with
      | getSignaturesForAddress _ _ limit =>
          fun r => match r with Returned x => Some (limit, x) | Thrown _ => None end
      | _ => fun _ => None
      end r
  end.

(** The limit of a [getSignaturesForAddress] call, whatever it answered. *)
Definition signature_limit (ev : Event) : option nat :=
  match ev with
  | Ev c _ => match c with getSignaturesForAddress _ _ limit => Some limit | _ => None end
  end.

(** The signature a [getTransaction] was asked about, with what it
    returned. *)
Definition transaction_lookup (ev : Event) : option (string * option TransactionResponse) :=
  match ev with
  | Ev c r =>
      match c in Call X return Outcome X -> option (string * option TransactionResponse) with
      | getTransaction _ sig _ _ =>
          fun r => match r with Returned x => Some (sig, x) | Thrown _ => None end
      | _ => fun _ => None
      end r
  end.

(** The seeds and program a [findProgramAddressSync] was called with, and
    the address it returned. *)
Definition derived_address (ev : Event) : option (list Seed * PublicKey * PublicKey) :=
  match ev with
  | Ev c r =>
      match c in Call X return Outcome X -> option (list Seed * PublicKey * PublicKey) with
      | findProgramAddressSync seeds p =>
          fun r => match r with Returned x => Some (seeds, p, x) | Thrown _ => None end
      | _ => fun _ => None
      end r
  end.

(** The signatures whose transaction lookup came back non-null. *)
Definition found (lookup : ConfirmedSignatureInfo * option TransactionResponse) : bool :=
  match snd lookup with
  | Some _ => true
  | None => false
  end.

Definition kept (sigs : list ConfirmedSignatureInfo)
    (lookups : list (option TransactionResponse)) : list ConfirmedSignatureInfo :=
  map fst (filter found (combine sigs lookups)).

(** The transaction of a [sendAndConfirm] that returned: it is confirmed
    on the cluster. *)
Definition confirmed_transaction (ev : Event) : option Transaction :=
  match ev with
  | Ev c r =>
      match c in Call X return Outcome X -> option Transaction with
      | sendAndConfirm _ tx _ =>
          fun r => match r with Returned _ => Some tx | Thrown _ => None end
      | _ => fun _ => None
      end r
  end.

(** The error of an [initializeExtraAccountMetaList().rpc()] that threw. *)
Definition metas_init_failure (ev : Event) : option Error :=
  match ev with
  | Ev c r =>
      match c with
      | methods_initializeExtraAccountMetaList_rpc _ _ _ _ _ => thrown_by (Ev c r)
      | _ => None
      end
  end.

(** The value a [PublicKey] constructor rejected, and the value and key of
    one that returned. *)
Definition rejected_key (ev : Event) : option JsValue :=
  match ev with
  | Ev c r =>
      match c in Call X return Outcome X -> option JsValue with
      | New_PublicKey v =>
          fun r => match r with Returned _ => None | Thrown _ => Some v end
      | _ => fun _ => None
      end r
  end.

Definition constructed_key (ev : Event) : option (JsValue * PublicKey) :=
  match ev with
  | Ev c r =>
      match c in Call X return Outcome X -> option (JsValue * PublicKey) with
      | New_PublicKey v =>
          fun r => match r with Returned k => Some (v, k) | Thrown _ => None end
      | _ => fun _ => None
      end r
  end.

(** The accounts an [issueBadge().rpc()] was called with: authority, user,
    token badge and system program. *)
Definition badge_accounts (ev : Event)
  : option (PublicKey * PublicKey * PublicKey * PublicKey) :=
  match ev with
  | Ev c _ =>
      match c with
      | methods_issueBadge_rpc _ authority user tokenBadge systemProgram =>
          Some (authority, user, tokenBadge, systemProgram)
      | _ => None
      end
  end.

(** Payer, mint and owner of a [getOrCreateAssociatedTokenAccount] that
    returned, with the account. *)
Definition associated_account (ev : Event)
  : option (Keypair * PublicKey * PublicKey * Account) :=
  match ev with
  | Ev c r =>
      match c in Call X return Outcome X -> option (Keypair * PublicKey * PublicKey * Account) with
      | getOrCreateAssociatedTokenAccount _ payer mint owner _ _ _ =>
          fun r => match r with
                   | Returned a => Some (payer, mint, owner, a)
                   | Thrown _ => None
                   end
      | _ => fun _ => None
      end r
  end.

(** Source, mint, destination and owner of a
    [createTransferCheckedWithTransferHookInstruction] call. *)
Definition hook_transfer_accounts (ev : Event)
  : option (PublicKey * PublicKey * PublicKey * PublicKey) :=
  match ev with
  | Ev c _ =>
      match c with
      | createTransferCheckedWithTransferHookInstruction _ source mint destination owner
          _ _ _ _ _ => Some (source, mint, destination, owner)
      | _ => None
      end
  end.

(** Endpoint, commitment and transaction version of a [new Connection]. *)
Definition connection_request (ev : Event) : option (string * string * option nat) :=
  match ev with
  | Ev c _ => match c with New_Connection e cm v => Some (e, cm, v) | _ => None end
  end.

(** The key pair a [Keypair.fromSecretKey] returned. *)
Definition restored_keypair (ev : Event) : option Keypair :=
  match ev with
  | Ev c r =>
      match c in Call X return Outcome X -> option Keypair with
      | Keypair_fromSecretKey _ => fun r => returned r
      | _ => fun _ => None
      end r
  end.

(** The extensions a [getMintLen] was asked about, with the length it
    returned. *)
Definition mint_space (ev : Event) : option (list ExtensionType * nat) :=
  match ev with
  | Ev c r =>
      match c in Call X return Outcome X -> option (list ExtensionType * nat) with
      | getMintLen exts =>
          fun r => match r with Returned n => Some (exts, n) | Thrown _ => None end
      | _ => fun _ => None
      end r
  end.

(** Connection, owner and program of a [getTokenAccountsByOwner] that
    returned, with the token accounts. *)
Definition owner_query (ev : Event)
  : option (Connection * PublicKey * PublicKey * list TokenAccountEntry) :=
  match ev with
  | Ev c r =>
      match c in Call X
            return Outcome X
                   -> option (Connection * PublicKey * PublicKey * list TokenAccountEntry) with
      | getTokenAccountsByOwner conn owner p =>
          fun r => match r with
                   | Returned x => Some (conn, owner, p, x)
                   | Thrown _ => None
                   end
      | _ => fun _ => None
      end r
  end.

(** Connection, commitment and program of a [getAccount] or [getMint]
    call. *)
Definition lookup_settings (ev : Event) : option (Connection * string * PublicKey) :=
  match ev with
  | Ev c _ =>
      match c with
      | getAccount conn _ cm p => Some (conn, cm, p)
      | getMint conn _ cm p => Some (conn, cm, p)
      | _ => None
      end
  end.

(** The eight routes of the second variant. *)
Definition variant2_endpoints : list (Method * string) :=
  [ (POST, "/api/create-token");
    (POST, "/api/issue-badge");
    (POST, "/api/transfer");
    (GET, "/api/token-balances");
    (GET, "/api/transactions");
    (GET, "/health");
    (GET, "/api/wallet-status");
    (GET, "/api/program-info") ].

(** The [maxSupportedTransactionVersion] a [getTransaction] was called
    with. *)
Definition transaction_version (ev : Event) : option (option nat) :=
  match ev with
  | Ev c _ => match c with getTransaction _ _ _ v => Some v | _ => None end
  end.

(** The account a [getBalance] was asked about, with the lamports it
    returned. *)
Definition balance_lookup (ev : Event) : option (PublicKey * number) :=
  match ev with
  | Ev c r =>
      match c in Call X return Outcome X -> option (PublicKey * number) with
      | getBalance _ a =>
          fun r => match r with Returned x => Some (a, x) | Thrown _ => None end
      | _ => fun _ => None
      end r
  end.

(** The routes behind the [if (!solanaService)] guard that answer
    [{ success, ... }]. *)
Definition guarded_endpoints : list (Method * string) :=
  [ (POST, "/api/create-token");
    (POST, "/api/issue-badge");
    (POST, "/api/transfer");
    (GET, "/api/token-balances");
    (GET, "/api/transactions");
    (GET, "/api/server-wallet-transactions") ].

(** The state a process starts in, and the state it serves from once the
    module has been loaded. *)
Definition fresh {W} (w : W) : State W := {| solanaService := None; world := w |}.
Definition started {W} (h : Host W) (w : W) : State W := final (V1.init h (fresh w)).

(** The second variant once its module has been loaded: the constant
    [solanaService], when the constructor returned one. *)
Definition started2 {W} (h : Host W) (w : W) : option SolanaService :=
  returned (outcome (V2.init h (fresh w))).

(** A run in which only the SDK fails: either the code returned and every
    call returned, or exactly the last call threw and the code threw what
    [relay] makes of that call's error. *)
Definition sdk_failure_only {W A} (relay : Event -> Error -> Error) (r : Run W A) : Prop :=
  match outcome r with
  | Returned _ => Forall (fun ev => thrown_by ev = None) (emitted r)
  | Thrown e' =>
      exists evs ev e,
        emitted r = evs ++ [ev] /\
        Forall (fun ev => thrown_by ev = None) evs /\
        thrown_by ev = Some e /\
        e' = relay ev e
  end.

Definition relay_unchanged (ev : Event) (e : Error) : Error := e.

(** What [issueBadge] throws when a call threw [e]. *)
Definition relay_issueBadge (ev : Event) (e : Error) : Error :=
  if is_New_PublicKey ev
  then new_Error ("Invalid public key input: " ++ message e)
  else e.

(** The run of a route that answers [ok x] when the wrapped code returns
    [x] and [fail e] when it throws [e]. *)
Definition respond {W A} (r : Run W A) (ok : A -> Response) (fail : Error -> Response)
  : Run W (option Response) :=
  {| outcome := Returned (Some (match outcome r with
                                | Returned x => ok x
                                | Thrown e => fail e
                                end));
     final := final r;
     emitted := emitted r |}.

(** Code that leaves the module variable [solanaService] as it found it. *)
Definition keeps_service {W A} (m : M W A) : Prop :=
  forall st, solanaService (final (m st)) = solanaService st.

(* ================================================================== *)
(** * The documented surface *)

(** The eight endpoints the specification lists, with the method and path
    under which the first variant registers them. *)
Definition documented : list (Method * string) :=
  [ (POST, "/api/create-token");
    (POST, "/api/issue-badge");
    (POST, "/api/transfer");
    (GET, "/api/token-balances");
    (GET, "/api/transactions");
    (GET, "/api/wallet-status");
    (GET, "/api/program-info");
    (GET, "/api/health") ].

(** The endpoints whose responses carry a [success] field. *)
Definition success_endpoints : list (Method * string) :=
  [ (POST, "/api/create-token");
    (POST, "/api/issue-badge");
    (POST, "/api/transfer");
    (GET, "/api/token-balances");
    (GET, "/api/transactions") ].

Definition endpoint (req : Request) : Method * string :=
  (req_method req, req_path req).

(** The request is one the framework hands to the route registered as
    [route]. *)
Definition routed_to (req : Request) (route : Method * string) : bool :=
  method_serves (fst route) (req_method req) && path_matches (snd route) (req_path req).

(** The two routes that destructure [req.body]. *)
Definition body_endpoints : list (Method * string) :=
  [ (POST, "/api/issue-badge"); (POST, "/api/transfer") ].

(** The routes registered by the first variant. *)
Definition registered : list (Method * string) :=
  documented ++ [(GET, "/api/server-wallet-transactions")].

(* ================================================================== *)
(** * A concrete host

    A small deterministic SDK over a world with nothing in it, used to run
    the server on concrete requests. *)

Module Demo.

Definition server_keypair : Keypair :=
  mkKeypair (mkPublicKey "9xQeWvG816bUx9EPjHmaT23yvVM2ZWbrrpZb9PusVFin") [7; 7; 7].

Definition fresh_keypair : Keypair :=
  mkKeypair (mkPublicKey "4Nd1mBQtrMJVYVfKf2PJy9NZUZdTAsp7D4xWLs4gDB4T") [1; 2; 3].

Definition hook_program : PublicKey :=
  mkPublicKey "HookzQdBNbLqP5VEhdkAS6EPFLC1PHnBqCXEpPxuEb11".

Definition a_mint : PublicKey :=
  mkPublicKey "So11111111111111111111111111111111111111112".

Definition an_owner : PublicKey :=
  mkPublicKey "7cVfgArCheMR6Cs4t6vz5rfnqd56vZq4ndaBrY5xkxXy".

Definition signatures : list ConfirmedSignatureInfo :=
  [ mkSigInfo "sig-ok" (Present (Number_of_Z 1700000000)) Null;
    mkSigInfo "sig-failed" (Present (Number_of_Z 1700000060))
      (Present (ErrObject (JObj [("InstructionError", JArr [JNum (S754_zero false)])])));
    mkSigInfo "sig-pruned" Null Null ].

Definition well_formed_key (v : JsValue) : bool :=
  match v with
  | JStr s => (32 <=? String.length s)%nat && (String.length s <=? 44)%nat
  | _ => false
  end.

Definition answer (X : Type) (c : Call X) : Outcome X :=
  match c in Call X return Outcome X with
  | New_PublicKey v =>
      match v with
      | JStr s =>
          if well_formed_key v then Returned (mkPublicKey s)
          else Thrown (new_Error "Invalid public key input")
      | _ => Thrown (new_Error "Invalid public key input")
      end
  | Keypair_generate => Returned fresh_keypair
  | Keypair_fromSecretKey _ => Returned server_keypair
  | JSON_parse text =>
      if String.eqb text "[7,7,7]"
      then Returned (JArr [JNum (Number_of_Z 7); JNum (Number_of_Z 7); JNum (Number_of_Z 7)])
      else Thrown (new_Error "Unexpected token in JSON")
  | New_Connection endpoint commitment v => Returned (mkConnection endpoint commitment v)
  | getMintLen _ => Returned 234%nat
  | getMinimumBalanceForRentExemption _ _ => Returned (Number_of_Z 2519520)
  | sendAndConfirm _ _ _ => Returned "tx-signature"
  | findProgramAddressSync _ _ =>
      Returned (mkPublicKey "ExtraMetas1111111111111111111111111111111111")
  | methods_initializeExtraAccountMetaList_rpc _ _ _ _ _ => Returned "tx-signature"
  | methods_issueBadge_rpc _ _ _ _ _ => Returned "tx-signature"
  | getOrCreateAssociatedTokenAccount _ _ mint owner _ _ _ =>
      Returned (mkAccount owner mint owner 0)
  | createTransferCheckedWithTransferHookInstruction _ source mint destination owner _ _ _ _ p =>
      Returned (mkInstruction p
                  [ mkAccountMeta source false true;
                    mkAccountMeta mint false false;
                    mkAccountMeta destination false true;
                    mkAccountMeta owner true false ]
                  [12])
  | transfer _ _ _ _ _ _ _ _ => Returned "tx-signature"
  | getTokenAccountsByOwner _ _ _ =>
      Returned [ mkTokenAccountEntry (mkPublicKey "Acc1111111111111111111111111111111111111111");
                 mkTokenAccountEntry (mkPublicKey "Acc2222222222222222222222222222222222222222") ]
  | getAccount _ a _ _ => Returned (mkAccount a a_mint an_owner 1500000000)
  | getMint _ _ _ _ => Returned (mkMint (Number_of_Z 9) Undefined)
  | getSignaturesForAddress _ _ limit => Returned (firstn limit signatures)
  | getTransaction _ sig _ _ =>
      Returned (if String.eqb sig "sig-pruned" then None
                else Some (mkTransactionResponse 1))
  | getBalance _ _ => Returned (Number_of_Z 2000000000)
  end.

Definition host : Host unit :=
  {| exec := fun X c w => (answer c, w);
     env := {| RPC_URL := None; SERVER_WALLET_SECRET_KEY := Some "[7,7,7]" |};
     TRANSFER_HOOK_PROGRAM_ID := hook_program;
     ToNumber_nonprimitive := fun _ => NaN;
     TypeError_destructure := fun _ =>
       new_Error "Cannot destructure property 'mintAddress' of 'req.body' as it is undefined.";
     SystemProgram_createAccount := fun f n _ _ _ =>
       mkInstruction SystemProgram_programId
         [mkAccountMeta f true true; mkAccountMeta n true true] [0];
     createInitializeTransferHookInstruction := fun m _ _ p =>
       mkInstruction p [mkAccountMeta m false true] [36];
     createInitializeMintInstruction := fun m _ _ _ p =>
       mkInstruction p [mkAccountMeta m false true] [20] |}.

Definition service : SolanaService :=
  {| connection := mkConnection "https://api.devnet.solana.com" "confirmed" (Some 0%nat);
     program := new_Program hook_program
                  (new_AnchorProvider
                     (mkConnection "https://api.devnet.solana.com" "confirmed" (Some 0%nat))
                     (new_Wallet server_keypair) "confirmed") |}.

Definition state : State unit := {| solanaService := Some service; world := tt |}.

(** The service the second variant builds: its connection is opened
    without a transaction version. *)
Definition service2 : SolanaService :=
  {| connection := mkConnection "https://api.devnet.solana.com" "confirmed" None;
     program := new_Program hook_program
                  (new_AnchorProvider
                     (mkConnection "https://api.devnet.solana.com" "confirmed" None)
                     (new_Wallet server_keypair) "confirmed") |}.

Definition request (m : Method) (p : string) (b q : list (string * JsValue)) : Request :=
  {| req_method := m; req_path := p; req_body := JObj b; req_query := q |}.

Definition get_server_wallet_transactions : Request :=
  request GET "/api/server-wallet-transactions" [] [].
Definition get_transactions : Request :=
  request GET "/api/transactions" [] [("publicKey", JStr (toBase58 an_owner))].
Definition get_token_balances : Request :=
  request GET "/api/token-balances" [] [("ownerAddress", JStr (toBase58 an_owner))].
Definition post_create_token : Request := request POST "/api/create-token" [] [].
Definition post_issue_badge_bad_key : Request :=
  request POST "/api/issue-badge"
    [("mintAddress", JStr "not-a-key"); ("recipientAddress", JStr (toBase58 an_owner))] [].
Definition post_transfer (amount : JsValue) : Request :=
  request POST "/api/transfer"
    [("mintAddress", JStr (toBase58 a_mint));
     ("recipientAddress", JStr (toBase58 an_owner));
     ("amount", amount)] [].

(** The same host with [SERVER_WALLET_SECRET_KEY] unset. *)
Definition keyless_host : Host unit :=
  {| exec := exec host;
     env := {| RPC_URL := None; SERVER_WALLET_SECRET_KEY := None |};
     TRANSFER_HOOK_PROGRAM_ID := TRANSFER_HOOK_PROGRAM_ID host;
     ToNumber_nonprimitive := ToNumber_nonprimitive host;
     TypeError_destructure := TypeError_destructure host;
     SystemProgram_createAccount := SystemProgram_createAccount host;
     createInitializeTransferHookInstruction := createInitializeTransferHookInstruction host;
     createInitializeMintInstruction := createInitializeMintInstruction host |}.

(** The same host on a cluster where the transfer-hook program rejects
    [initializeExtraAccountMetaList]. *)
Definition answer_without_hook (X : Type) (c : Call X) : Outcome X :=
  match c in Call X return Outcome X -> Outcome X with
  | methods_initializeExtraAccountMetaList_rpc _ _ _ _ _ =>
      fun _ => Thrown (new_Error "Transaction simulation failed")
  | _ => fun r => r
  end (answer c).

Definition hookless_host : Host unit :=
  {| exec := fun X c w => (answer_without_hook c, w);
     env := env host;
     TRANSFER_HOOK_PROGRAM_ID := TRANSFER_HOOK_PROGRAM_ID host;
     ToNumber_nonprimitive := ToNumber_nonprimitive host;
     TypeError_destructure := TypeError_destructure host;
     SystemProgram_createAccount := SystemProgram_createAccount host;
     createInitializeTransferHookInstruction := createInitializeTransferHookInstruction host;
     createInitializeMintInstruction := createInitializeMintInstruction host |}.

Definition post_issue_badge : Request :=
  request POST "/api/issue-badge"
    [("mintAddress", JStr (toBase58 a_mint));
     ("recipientAddress", JStr (toBase58 an_owner))] [].

Definition post_transfer_without_amount : Request :=
  request POST "/api/transfer"
    [("mintAddress", JStr (toBase58 a_mint));
     ("recipientAddress", JStr (toBase58 an_owner))] [].

Definition post_create_token_with_body : Request :=
  request POST "/api/create-token" [("decimals", JNum (Number_of_Z 6))] [].



(** The same host on a cluster that reports a signature whose [err] is the
    empty string. *)
Definition blank_err_signatures : list ConfirmedSignatureInfo :=
  [ mkSigInfo "sig-blank" (Present (Number_of_Z 1700000120)) (Present (ErrString "")) ].

Definition answer_with_blank_err (X : Type) (c : Call X) : Outcome X :=
  match c in Call X return Outcome X -> Outcome X with
  | getSignaturesForAddress _ _ limit =>
      fun _ => Returned (firstn limit blank_err_signatures)
  | _ => fun r => r
  end (answer c).

Definition blank_err_host : Host unit :=
  {| exec := fun X c w => (answer_with_blank_err c, w);
     env := env host;
     TRANSFER_HOOK_PROGRAM_ID := TRANSFER_HOOK_PROGRAM_ID host;
     ToNumber_nonprimitive := ToNumber_nonprimitive host;
     TypeError_destructure := TypeError_destructure host;
     SystemProgram_createAccount := SystemProgram_createAccount host;
     createInitializeTransferHookInstruction := createInitializeTransferHookInstruction host;
     createInitializeMintInstruction := createInitializeMintInstruction host |}.

Definition get_wallet_status : Request := request GET "/api/wallet-status" [] [].
Definition get_program_info : Request := request GET "/api/program-info" [] [].

End Demo.

(* ================================================================== *)
(** * Binary64 arithmetic on integers *)

Unset Implicit Arguments.

Section Binary64.

Lemma digits2_pos_bounds (p : positive) :
  2 ^ (Zpos (digits2_pos p) - 1) <= Zpos p < 2 ^ Zpos (digits2_pos p).
Proof.
  induction p as [p IH | p IH |]; cbn [digits2_pos].
  - rewrite Pos2Z.inj_succ, Z.pow_succ_r by lia.
    replace (Z.succ (Zpos (digits2_pos p)) - 1) with (Z.succ (Zpos (digits2_pos p) - 1)) by lia.
    rewrite Z.pow_succ_r by lia. lia.
  - rewrite Pos2Z.inj_succ, Z.pow_succ_r by lia.
    replace (Z.succ (Zpos (digits2_pos p)) - 1) with (Z.succ (Zpos (digits2_pos p) - 1)) by lia.
    rewrite Z.pow_succ_r by lia. lia.
  - cbn. lia.
Qed.

Lemma digits2_pos_unique (p : positive) (d : Z) :
  2 ^ (d - 1) <= Zpos p < 2 ^ d -> Zpos (digits2_pos p) = d.
Proof.
  intros [Hlo Hhi]. pose proof (digits2_pos_bounds p) as [Blo Bhi].
  set (d' := Zpos (digits2_pos p)) in *.
  assert (0 < d').  { subst d'. lia. }
  assert (0 < d).
  { destruct (Z_lt_le_dec 0 d); [assumption|].
    assert (2 ^ d <= 2 ^ 0) by (destruct (Z.eq_dec d 0); [subst; lia|rewrite Z.pow_neg_r by lia; cbn; lia]).
    cbn in *. lia. }
  destruct (Z.lt_trichotomy d d') as [L | [E | L]]; [| exact (eq_sym E) |].
  - assert (2 ^ d <= 2 ^ (d' - 1)) by (apply Z.pow_le_mono_r; lia). lia.
  - assert (2 ^ d' <= 2 ^ (d - 1)) by (apply Z.pow_le_mono_r; lia). lia.
Qed.

Lemma iter_xO_shift (n p : positive) :
  Zpos (Pos.iter xO p n) = Zpos p * 2 ^ Zpos n.
Proof.
  induction n as [| n IH] using Pos.peano_ind.
  - cbn. lia.
  - rewrite Pos.iter_succ, Pos2Z.inj_xO, IH, Pos2Z.inj_succ, Z.pow_succ_r by lia. lia.
Qed.

Lemma iter_shr_1_exact (n : positive) (k : Z) :
  0 <= k ->
  iter_pos shr_1 n (Build_shr_record (k * 2 ^ Zpos n) false false)
  = Build_shr_record k false false.
Proof.
  assert (step : forall z, 0 <= z ->
            shr_1 (Build_shr_record (2 * z) false false) = Build_shr_record z false false).
  { intros [| q | q] Hz; try lia; reflexivity. }
  revert k. induction n as [n IH | n IH |]; intros k Hk; cbn [iter_pos].
  - replace (k * 2 ^ Zpos n~1) with (2 * (k * 2 ^ Zpos n * 2 ^ Zpos n)).
    2:{ replace (Zpos n~1) with (Zpos n + Zpos n + 1) by lia.
        rewrite !Z.pow_add_r, Z.pow_1_r by lia. ring. }
    rewrite step by (apply Z.mul_nonneg_nonneg; [apply Z.mul_nonneg_nonneg|]; lia).
    rewrite (IH (k * 2 ^ Zpos n)) by (apply Z.mul_nonneg_nonneg; lia).
    apply IH; assumption.
  - replace (k * 2 ^ Zpos n~0) with ((k * 2 ^ Zpos n) * 2 ^ Zpos n).
    2:{ replace (Zpos n~0) with (Zpos n + Zpos n) by lia.
        rewrite Z.pow_add_r by lia. ring. }
    rewrite (IH (k * 2 ^ Zpos n)) by (apply Z.mul_nonneg_nonneg; lia).
    apply IH; assumption.
  - rewrite Z.pow_1_r, Z.mul_comm. apply step; assumption.
Qed.


Lemma Zdigits2_shift (k : positive) (n : Z) :
  0 <= n -> Zdigits2 (Zpos k * 2 ^ n) = Zpos (digits2_pos k) + n.
Proof.
  intros Hn. pose proof (digits2_pos_bounds k) as [Blo Bhi].
  assert (Hpow : 0 < 2 ^ n) by (apply Z.pow_pos_nonneg; lia).
  destruct (Zpos k * 2 ^ n) as [| q | q] eqn:E; try lia.
  cbn [Zdigits2]. apply digits2_pos_unique. rewrite <- E. split.
  - replace (Zpos (digits2_pos k) + n - 1) with ((Zpos (digits2_pos k) - 1) + n) by lia.
    rewrite Z.pow_add_r by lia. apply Z.mul_le_mono_nonneg_r; lia.
  - rewrite Z.pow_add_r by lia. apply Z.mul_lt_mono_pos_r; lia.
Qed.

(** Rounding a mantissa whose discarded low bits are all zero is exact. *)
Lemma binary_round_aux_exact (s : bool) (k : positive) (n e : Z) :
  Zpos (digits2_pos k) = prec -> 0 <= n ->
  3 - emax - prec <= e + n <= emax - prec ->
  binary_round_aux prec emax s (Zpos k * 2 ^ n) e loc_Exact = S754_finite s k (e + n).
Proof.
  unfold prec, emax. intros Hd Hn He.
  unfold binary_round_aux, shr_fexp.
  rewrite Zdigits2_shift by assumption. rewrite Hd.
  unfold fexp, emin. cbn [shr_record_of_loc].
  replace (Z.max (53 + n + e - 53) (3 - 1024 - 53) - e) with n by lia.
  assert (Hshr : shr (Build_shr_record (Zpos k * 2 ^ n) false false) e n
                 = (Build_shr_record (Zpos k) false false, e + n)).
  { destruct n as [| n | n]; try lia.
    - cbn [shr]. rewrite Z.mul_1_r, Z.add_0_r. reflexivity.
    - cbn [shr]. rewrite iter_shr_1_exact by lia. reflexivity. }
  rewrite Hshr. cbn [shr_m loc_of_shr_record round_nearest_even Zdigits2].
  rewrite Hd.
  replace (Z.max (53 + (e + n) - 53) (3 - 1024 - 53) - (e + n)) with 0 by lia.
  cbn [shr shr_m].
  destruct (Z.leb_spec (e + n) (1024 - 53)); [reflexivity | lia].
Qed.

Lemma Number_of_Z_canonical (p : positive) :
  Zpos p < 2 ^ prec -> Number_of_Z (Zpos p) = canonical p.
Proof.
  unfold prec. intros Hp. pose proof (digits2_pos_bounds p) as [Blo Bhi].
  set (d := Zpos (digits2_pos p)) in *.
  assert (Hd : 1 <= d <= 53).
  { split; [subst d; lia|].
    destruct (Z_le_gt_dec d 53); [assumption|].
    assert (2 ^ 53 <= 2 ^ (d - 1)) by (apply Z.pow_le_mono_r; lia). lia. }
  assert (Hf : fexp 53 1024 (d + 0) = d - 53) by (unfold fexp, emin; lia).
  assert (Hpow : 0 < 2 ^ (53 - d)) by (apply Z.pow_pos_nonneg; lia).
  assert (Hm : Zpos (digits2_pos (Z.to_pos (Zpos p * 2 ^ (53 - d)))) = 53).
  { apply digits2_pos_unique. rewrite Z2Pos.id by lia. split.
    - replace (53 - 1) with ((d - 1) + (53 - d)) by lia.
      rewrite Z.pow_add_r by lia. apply Z.mul_le_mono_nonneg_r; lia.
    - replace 53 with (d + (53 - d)) at 2 by lia.
      rewrite Z.pow_add_r by lia. apply Z.mul_lt_mono_pos_r; lia. }
  pose proof (binary_round_aux_exact false (Z.to_pos (Zpos p * 2 ^ (53 - d))) 0 (d - 53)) as R.
  unfold prec, emax in R. rewrite Z.pow_0_r, Z.mul_1_r, Z.add_0_r, Z2Pos.id in R by lia.
  unfold Number_of_Z, binary_normalize, binary_round, canonical, prec, emax.
  fold d. rewrite Hf. unfold shl_align.
  destruct (d - 53 - 0) as [| q | q] eqn:E; try lia.
  - replace (53 - d) with 0 in * by lia. rewrite Z.pow_0_r, Z.mul_1_r in *.
    replace (d - 53) with 0 in * by lia. apply R; lia.
  - rewrite iter_xO_shift. replace (Zpos q) with (53 - d) by lia. apply R; lia.
Qed.


Lemma digits2_pos_le_prec (p : positive) :
  Zpos p < 2 ^ prec -> 1 <= Zpos (digits2_pos p) <= prec.
Proof.
  unfold prec. intros Hp. pose proof (digits2_pos_bounds p) as [Blo Bhi].
  split; [lia|].
  destruct (Z_le_gt_dec (Zpos (digits2_pos p)) 53); [assumption|].
  assert (2 ^ 53 <= 2 ^ (Zpos (digits2_pos p) - 1)) by (apply Z.pow_le_mono_r; lia). lia.
Qed.

Lemma Number_of_Z_exact (z : Z) :
  0 <= z < 2 ^ prec -> number_to_Z (Number_of_Z z) = Some z.
Proof.
  intros [Hz Hlt]. destruct z as [| p | p]; try lia; [reflexivity|].
  rewrite Number_of_Z_canonical by assumption.
  pose proof (digits2_pos_le_prec p Hlt) as Hd. unfold prec in *.
  unfold canonical, number_to_Z, prec.
  set (d := Zpos (digits2_pos p)) in *.
  assert (Hpow : 0 < 2 ^ (53 - d)) by (apply Z.pow_pos_nonneg; lia).
  rewrite Z2Pos.id by lia.
  destruct (Z.leb_spec 0 (d - 53)).
  - replace (d - 53) with 0 by lia. replace (53 - d) with 0 by lia.
    rewrite Z.pow_0_r. f_equal. lia.
  - replace (- (d - 53)) with (53 - d) by lia.
    rewrite Z.mod_mul, Z.div_mul by lia. reflexivity.
Qed.

(** Multiplication of two non-negative integers whose product is below
    2^53 is exact. *)
Lemma js_mul_exact (a b : Z) :
  0 <= a < 2 ^ prec -> 0 <= b < 2 ^ prec -> a * b < 2 ^ prec ->
  js_mul (Number_of_Z a) (Number_of_Z b) = Number_of_Z (a * b).
Proof.
  intros [Ha Hpa] [Hb Hpb] Hab.
  destruct a as [| pa | pa]; try lia.
  { destruct (Number_of_Z b) eqn:E; cbn.
    - destruct b as [| pb | pb]; try lia; [cbn in E; congruence|].
      rewrite Number_of_Z_canonical in E; [discriminate|]. unfold prec in *. lia.
    - destruct b as [| pb | pb]; try lia; [discriminate|].
      rewrite Number_of_Z_canonical in E; [discriminate|]. unfold prec in *. lia.
    - destruct b as [| pb | pb]; try lia; [discriminate|].
      rewrite Number_of_Z_canonical in E; [discriminate|]. unfold prec in *. lia.
    - destruct b as [| pb | pb]; try lia; [discriminate|].
      rewrite Number_of_Z_canonical in E by (unfold prec in *; lia).
      unfold canonical in E. injection E as <- _ _. reflexivity. }
  destruct b as [| pb | pb]; try lia.
  { rewrite Z.mul_0_r. rewrite Number_of_Z_canonical by (unfold prec in *; lia). reflexivity. }
  change (Zpos pa * Zpos pb) with (Zpos (pa * pb)) in *.
  rewrite !Number_of_Z_canonical by assumption.
  pose proof (digits2_pos_le_prec _ Hpa) as Hda.
  pose proof (digits2_pos_le_prec _ Hpb) as Hdb.
  pose proof (digits2_pos_le_prec _ Hab) as Hdab.
  pose proof (digits2_pos_bounds pa) as [Alo Ahi].
  pose proof (digits2_pos_bounds pb) as [Blo Bhi].
  pose proof (digits2_pos_bounds (pa * pb)) as [ABlo ABhi].
  unfold canonical, js_mul, SFmul, prec, emax in *. cbn [xorb].
  set (da := Zpos (digits2_pos pa)) in *.
  set (db := Zpos (digits2_pos pb)) in *.
  set (dab := Zpos (digits2_pos (pa * pb))) in *.
  assert (Hsum : da + db <= dab + 1).
  { destruct (Z_le_gt_dec (da + db) (dab + 1)); [assumption|].
    assert (2 ^ dab <= 2 ^ ((da - 1) + (db - 1))) by (apply Z.pow_le_mono_r; lia).
    rewrite Z.pow_add_r in H by lia.
    assert (2 ^ (da - 1) * 2 ^ (db - 1) <= Zpos pa * Zpos pb).
    { apply Z.mul_le_mono_nonneg; try assumption; apply Z.pow_nonneg; lia. }
    change (Zpos pa * Zpos pb) with (Zpos (pa * pb)) in *. lia. }
  assert (Pa : 0 < 2 ^ (53 - da)) by (apply Z.pow_pos_nonneg; lia).
  assert (Pb : 0 < 2 ^ (53 - db)) by (apply Z.pow_pos_nonneg; lia).
  assert (Pab : 0 < 2 ^ (53 - dab)) by (apply Z.pow_pos_nonneg; lia).
  pose proof (binary_round_aux_exact false (Z.to_pos (Zpos (pa * pb) * 2 ^ (53 - dab)))
                (53 + dab - da - db) (da - 53 + (db - 53))) as R.
  unfold prec, emax in R.
  replace (da - 53 + (db - 53) + (53 + dab - da - db)) with (dab - 53) in R by lia.
  rewrite <- R; try lia.
  - f_equal.
    assert (Hx : 2 ^ (53 - da) * 2 ^ (53 - db) = 2 ^ (53 - dab) * 2 ^ (53 + dab - da - db)).
    { rewrite <- !Z.pow_add_r by lia. f_equal. lia. }
    rewrite Pos2Z.inj_mul, !Z2Pos.id by lia. rewrite Pos2Z.inj_mul.
    transitivity (Zpos pa * Zpos pb * (2 ^ (53 - da) * 2 ^ (53 - db))); [ring|].
    rewrite Hx. ring.
  - apply digits2_pos_unique. rewrite Z2Pos.id by lia. fold dab. split.
    + replace (53 - 1) with ((dab - 1) + (53 - dab)) by lia.
      rewrite Z.pow_add_r by lia. apply Z.mul_le_mono_nonneg_r; lia.
    + replace 53 with (dab + (53 - dab)) at 2 by lia.
      rewrite Z.pow_add_r by lia. apply Z.mul_lt_mono_pos_r; lia.
Qed.

End Binary64.

Lemma Math_pow_10_9 : Math_pow (Number_of_Z 10) 9 = Number_of_Z (10 ^ 9).
Proof. vm_compute. reflexivity. Qed.

Arguments js_mul : simpl never.
Arguments js_div : simpl never.
Arguments Math_pow : simpl never.
Arguments Number_of_Z : simpl never.

(* ================================================================== *)
(** * Runs *)

Lemma collect_app {A} (f : Event -> option A) (xs ys : list Event) :
  collect f (xs ++ ys) = collect f xs ++ collect f ys.
Proof.
  induction xs as [| x xs IH]; cbn; [reflexivity|].
  destruct (f x); cbn; rewrite IH; reflexivity.
Qed.

(** Stepping over the next SDK call of a run. *)
Ltac step :=
  match goal with
  | |- context [exec ?h ?c ?w] =>
      let r := fresh "r" in
      let e := fresh "e" in
      let w' := fresh "w" in
      destruct (exec h c w) as [[r | e] w'] eqn:?; cbn
  end.

(** A route that wraps code in [try]/[catch] and answers in both cases. *)
Lemma try_respond {W A} (m : M W A) (ok : A -> Response) (fail : Error -> Response)
    (st : State W) :
  bind (try_catch (bind m (fun x => ret (ok x))) (fun e => ret (fail e)))
       (fun res => ret (Some res)) st
  = respond (m st) ok fail.
Proof.
  unfold try_catch, bind, ret, respond. destruct (m st) as [[x | e] s t]; cbn;
    rewrite ?app_nil_r; reflexivity.
Qed.

(** A route whose [try] block is the whole answer. *)
Lemma try_answer {W} (m : M W Response) (fail : Error -> Response) (st : State W) :
  bind (try_catch m (fun e => ret (fail e))) (fun res => ret (Some res)) st
  = respond (m st) (fun res => res) fail.
Proof.
  unfold try_catch, bind, ret, respond. destruct (m st) as [[x | e] s t]; cbn;
    rewrite ?app_nil_r; reflexivity.
Qed.

Lemma dispatch_In {W} (table : list (Method * string * V1.Handler (W := W)))
    (m : Method) (p : string) (hd : V1.Handler) :
  V1.dispatch table m p = Some hd ->
  exists m' p',
    In (m', p', hd) table /\ method_serves m' m = true /\ path_matches p' p = true.
Proof.
  induction table as [| [[m' p'] hd'] table IH]; cbn [V1.dispatch]; [discriminate|].
  destruct (method_serves m' m && path_matches p' p) eqn:E.
  - intros [= <-]. apply andb_true_iff in E as [Em Ep].
    exists m', p'. repeat split; try assumption. left. reflexivity.
  - intros H. destruct (IH H) as (m0 & p0 & Hin & Hm & Hp).
    exists m0, p0. repeat split; try assumption. right. exact Hin.
Qed.

(** A route that destructures a value that can be destructured, wraps
    code in [try]/[catch] and answers in both cases. *)
Lemma destructured_respond {W A} (h : Host W) (v : JsValue) (k : JsValue -> M W A)
    (ok : A -> Response) (fail : Error -> Response) (st : State W) :
  nullish v = false ->
  bind (bind (destructure h v)
          (fun body => try_catch (bind (k body) (fun x => ret (ok x)))
                         (fun e => ret (fail e))))
       (fun res => ret (Some res)) st
  = respond (k v st) ok fail.
Proof.
  intros B. unfold destructure. rewrite B.
  unfold try_catch, bind, ret, respond. destruct (k v st) as [[x | e] s t]; cbn;
    rewrite ?app_nil_r; reflexivity.
Qed.

(** Past the [if (!solanaService)] guard. *)
Lemma guarded_route {W} (body : SolanaService -> M W Response) (absent : Response)
    (st : State W) (this : SolanaService) :
  solanaService st = Some this ->
  bind (bind read_solanaService
          (fun s => match s with
                    | None => ret absent
                    | Some svc => body svc
                    end))
       (fun res => ret (Some res)) st
  = bind (body this) (fun res => ret (Some res)) st.
Proof.
  intros S. unfold bind, read_solanaService. rewrite S.
  destruct (body this st) as [[res | e] s t]; reflexivity.
Qed.

(** A request with the method and path of a registration is handed to
    that registration and to no other. *)
Lemma routed_to_unique (req : Request) (r r' : Method * string) :
  In r registered -> In r' registered ->
  routed_to req r = true -> endpoint req = r' -> r' = r.
Proof.
  unfold routed_to, endpoint. destruct req as [m p b q]. cbn [req_method req_path].
  intros Hr Hr' R <-. unfold registered, documented in Hr, Hr'. cbn [app In] in Hr, Hr'.
  destruct Hr' as [H | [H | [H | [H | [H | [H | [H | [H | [H | []]]]]]]]]];
    injection H as <- <-;
    destruct Hr as [H | [H | [H | [H | [H | [H | [H | [H | [H | []]]]]]]]]];
    subst r; first [reflexivity | vm_compute in R; discriminate R].
Qed.

Lemma routes_registered {W} (h : Host W) (m : Method) (p : string) (hd : V1.Handler) :
  In (m, p, hd) (V1.routes h) -> In (m, p) registered.
Proof.
  unfold V1.routes, registered, documented. cbn [app In].
  intros [H | [H | [H | [H | [H | [H | [H | [H | [H | []]]]]]]]]];
    injection H as <- <- _; tauto.
Qed.

(** The framework hands a request to one registration at most, of either
    variant. *)
Lemma routed_unique (req : Request) (r r' : Method * string) :
  In r (registered ++ [(GET, "/health")]) ->
  In r' (registered ++ [(GET, "/health")]) ->
  routed_to req r = true -> routed_to req r' = true -> r = r'.
Proof.
  unfold routed_to. intros Hr Hr' R R'.
  apply andb_true_iff in R as [_ R]. apply andb_true_iff in R' as [_ R'].
  unfold path_matches in R, R'. apply orb_true_iff in R.
  unfold registered, documented in Hr, Hr'. cbn [app In] in Hr, Hr'.
  destruct Hr as [H | [H | [H | [H | [H | [H | [H | [H | [H | [H | []]]]]]]]]]];
    subst r; cbn [snd] in R;
    destruct R as [R | R]; apply String.eqb_eq in R; rewrite R in R';
    destruct Hr' as [H | [H | [H | [H | [H | [H | [H | [H | [H | [H | []]]]]]]]]]];
    subst r'; first [reflexivity | vm_compute in R'; discriminate R'].
Qed.

Section Routing.
Context {W : Type}.

(** Which requests a table of routes serves. *)
Lemma dispatch_serves (table : list (Method * string * V1.Handler (W := W)))
    (m : Method) (p : string) :
  V1.dispatch table m p <> None <->
  exists m' p',
    In (m', p') (map fst table) /\ method_serves m' m = true /\ path_matches p' p = true.
Proof.
  split.
  - destruct (V1.dispatch table m p) as [hd |] eqn:D; [intros _ | congruence].
    apply dispatch_In in D as (m' & p' & Hin & Hm & Hp).
    exists m', p'. repeat split; try assumption.
    apply in_map_iff. exists (m', p', hd). split; [reflexivity | exact Hin].
  - intros (m' & p' & Hin & Hm & Hp).
    induction table as [| [[m0 p0] hd] table IH]; cbn in Hin; [contradiction |].
    cbn [V1.dispatch].
    destruct (method_serves m0 m && path_matches p0 p) eqn:E; [discriminate |].
    destruct Hin as [[= -> ->] | Hin].
    + rewrite Hm, Hp in E. discriminate.
    + apply IH. exact Hin.
Qed.

End Routing.

Section Routes.
Context {W : Type} (h : Host W).

(** A request with the method and path of a registration runs the handler
    registered there. *)
Lemma handle_registered (req : Request) (m : Method) (p : string) (hd : V1.Handler) :
  endpoint req = (m, p) ->
  In (m, p, hd) (V1.routes h) ->
  V1.handle h req = (res <- hd req ;; ret (Some res)).
Proof.
  unfold endpoint. intros [= Em Ep] Hin. unfold V1.handle. rewrite Em, Ep.
  unfold V1.routes in Hin. cbn [In] in Hin.
  destruct Hin as [H | [H | [H | [H | [H | [H | [H | [H | [H | []]]]]]]]]];
    injection H as <- <- <-; reflexivity.
Qed.

(** Every request runs no handler, or the handler of a registration that
    serves its method and path. *)
Lemma handle_routed (req : Request) :
  V1.handle h req = ret None \/
  exists m p hd,
    In (m, p, hd) (V1.routes h) /\ routed_to req (m, p) = true /\
    V1.handle h req = (res <- hd req ;; ret (Some res)).
Proof.
  unfold V1.handle.
  destruct (V1.dispatch (V1.routes h) (req_method req) (req_path req)) as [hd |] eqn:D.
  - right. apply dispatch_In in D as (m & p & Hin & Hm & Hp).
    exists m, p, hd. split; [exact Hin |]. split; [| reflexivity].
    unfold routed_to. cbn [fst snd]. rewrite Hm, Hp. reflexivity.
  - left. reflexivity.
Qed.

(** A request the framework hands to a registration runs the handler
    registered there. *)
Lemma handle_routed_to (req : Request) (m : Method) (p : string) (hd : V1.Handler) :
  In (m, p, hd) (V1.routes h) ->
  routed_to req (m, p) = true ->
  V1.handle h req = (res <- hd req ;; ret (Some res)).
Proof.
  intros Hin R. unfold V1.handle.
  destruct (V1.dispatch (V1.routes h) (req_method req) (req_path req)) as [hd' |] eqn:D.
  - apply dispatch_In in D as (m' & p' & Hin' & Hm & Hp).
    assert (R' : routed_to req (m', p') = true).
    { unfold routed_to. cbn [fst snd]. rewrite Hm, Hp. reflexivity. }
    assert (Heq : (m, p) = (m', p')).
    { apply (routed_unique req); try assumption; apply in_or_app; left;
        eapply routes_registered; eassumption. }
    injection Heq as <- <-. clear - Hin Hin'.
    unfold V1.routes in Hin, Hin'. cbn [In] in Hin, Hin'.
    destruct Hin as [H | [H | [H | [H | [H | [H | [H | [H | [H | []]]]]]]]]];
      injection H as <- <- <-;
      destruct Hin' as [H | [H | [H | [H | [H | [H | [H | [H | [H | []]]]]]]]]];
      first [discriminate H | injection H as <-; reflexivity].
  - exfalso. revert D. apply dispatch_serves. exists m, p.
    unfold routed_to in R. cbn [fst snd] in R. apply andb_true_iff in R as [Hm Hp].
    split; [| split; assumption].
    apply in_map_iff. exists (m, p, hd). split; [reflexivity | exact Hin].
Qed.

(** The handlers behind the guard, once the service exists: each is its
    service method, answered. *)
Lemma run_create_token (req : Request) (this : SolanaService) (st : State W) :
  solanaService st = Some this ->
  (res <- V1.create_token h req ;; ret (Some res)) st =
  respond (V1.createTokenMint h this st)
    (fun mintAddress =>
       res_json (JObj [("success", JBool true); ("mintAddress", JStr mintAddress)]))
    (fun e => res_status_json 500 (V1.failure e)).
Proof.
  intros S. unfold V1.create_token.
  rewrite (guarded_route _ _ st this S). apply try_respond.
Qed.

Lemma run_issue_badge (req : Request) (this : SolanaService) (st : State W) :
  solanaService st = Some this ->
  nullish (req_body req) = false ->
  (res <- V1.issue_badge h req ;; ret (Some res)) st =
  respond (V1.issueBadge h this (get_prop "mintAddress" (req_body req))
             (get_prop "recipientAddress" (req_body req)) st)
    (fun _ => res_json (JObj [("success", JBool true)]))
    (fun e => res_status_json 500 (V1.failure e)).
Proof.
  intros S B. unfold V1.issue_badge. rewrite (guarded_route _ _ st this S).
  exact (destructured_respond h (req_body req)
           (fun body => V1.issueBadge h this (get_prop "mintAddress" body)
                          (get_prop "recipientAddress" body))
           (fun _ => res_json (JObj [("success", JBool true)]))
           (fun e => res_status_json 500 (V1.failure e)) st B).
Qed.

Lemma run_transfer (req : Request) (this : SolanaService) (st : State W) :
  solanaService st = Some this ->
  nullish (req_body req) = false ->
  (res <- V1.transfer_route h req ;; ret (Some res)) st =
  respond (V1.transferTokens h this (get_prop "mintAddress" (req_body req))
             (get_prop "recipientAddress" (req_body req))
             (get_prop "amount" (req_body req)) st)
    (fun _ => res_json (JObj [("success", JBool true)]))
    (fun e => res_status_json 500 (V1.failure e)).
Proof.
  intros S B. unfold V1.transfer_route. rewrite (guarded_route _ _ st this S).
  exact (destructured_respond h (req_body req)
           (fun body => V1.transferTokens h this (get_prop "mintAddress" body)
                          (get_prop "recipientAddress" body) (get_prop "amount" body))
           (fun _ => res_json (JObj [("success", JBool true)]))
           (fun e => res_status_json 500 (V1.failure e)) st B).
Qed.

(** The two handlers that destructure [req.body], on a request without
    one: the [TypeError] leaves the handler before any call is made. *)
Lemma run_without_body (req : Request) (this : SolanaService) (st : State W) :
  solanaService st = Some this ->
  nullish (req_body req) = true ->
  (res <- V1.issue_badge h req ;; ret (Some res)) st
  = throw (TypeError_destructure h (req_body req)) st /\
  (res <- V1.transfer_route h req ;; ret (Some res)) st
  = throw (TypeError_destructure h (req_body req)) st.
Proof.
  intros S B. unfold V1.issue_badge, V1.transfer_route.
  rewrite !(guarded_route _ _ st this S). unfold destructure. rewrite B.
  split; reflexivity.
Qed.

Lemma run_token_balances (req : Request) (this : SolanaService) (st : State W) :
  solanaService st = Some this ->
  (res <- V1.token_balances h req ;; ret (Some res)) st =
  respond (V1.getTokenBalances h this (lookup_prop "ownerAddress" (req_query req)) st)
    (fun balances =>
       res_json (JObj [("success", JBool true); ("balances", JArr balances)]))
    (fun e => res_status_json 500 (V1.failure e)).
Proof.
  intros S. unfold V1.token_balances.
  rewrite (guarded_route _ _ st this S). apply try_respond.
Qed.

Lemma run_transactions (req : Request) (this : SolanaService) (st : State W) :
  solanaService st = Some this ->
  (res <- V1.transactions_route h req ;; ret (Some res)) st =
  respond (V1.getTransactions h this (lookup_prop "publicKey" (req_query req)) None st)
    (fun transactions =>
       res_json (JObj [("success", JBool true); ("transactions", JArr transactions)]))
    (fun e => res_status_json 500 (V1.failure e)).
Proof.
  intros S. unfold V1.transactions_route.
  rewrite (guarded_route _ _ st this S). apply try_respond.
Qed.

Lemma run_server_wallet_transactions (req : Request) (this : SolanaService)
    (st : State W) :
  solanaService st = Some this ->
  (res <- V1.server_wallet_transactions h req ;; ret (Some res)) st =
  respond (V1.getTransactions h this
             (JStr (toString (wallet_publicKey (provider_wallet (provider (program this))))))
             None st)
    (fun transactions =>
       res_json (JObj [("success", JBool true); ("transactions", JArr transactions)]))
    (fun e => res_status_json 500 (V1.failure e)).
Proof.
  intros S. unfold V1.server_wallet_transactions.
  rewrite (guarded_route _ _ st this S). apply try_respond.
Qed.

(** The same on a request with the registered method and path. *)
Lemma handle_create_token (req : Request) (this : SolanaService) (st : State W) :
  endpoint req = (POST, "/api/create-token") ->
  solanaService st = Some this ->
  V1.handle h req st =
  respond (V1.createTokenMint h this st)
    (fun mintAddress =>
       res_json (JObj [("success", JBool true); ("mintAddress", JStr mintAddress)]))
    (fun e => res_status_json 500 (V1.failure e)).
Proof.
  intros E S. rewrite (handle_registered req _ _ (V1.create_token h) E); [| cbn; tauto].
  apply run_create_token. exact S.
Qed.

Lemma handle_issue_badge (req : Request) (this : SolanaService) (st : State W) :
  endpoint req = (POST, "/api/issue-badge") ->
  solanaService st = Some this ->
  nullish (req_body req) = false ->
  V1.handle h req st =
  respond (V1.issueBadge h this (get_prop "mintAddress" (req_body req))
             (get_prop "recipientAddress" (req_body req)) st)
    (fun _ => res_json (JObj [("success", JBool true)]))
    (fun e => res_status_json 500 (V1.failure e)).
Proof.
  intros E S B. rewrite (handle_registered req _ _ (V1.issue_badge h) E); [| cbn; tauto].
  apply run_issue_badge; assumption.
Qed.

Lemma handle_transfer (req : Request) (this : SolanaService) (st : State W) :
  endpoint req = (POST, "/api/transfer") ->
  solanaService st = Some this ->
  nullish (req_body req) = false ->
  V1.handle h req st =
  respond (V1.transferTokens h this (get_prop "mintAddress" (req_body req))
             (get_prop "recipientAddress" (req_body req))
             (get_prop "amount" (req_body req)) st)
    (fun _ => res_json (JObj [("success", JBool true)]))
    (fun e => res_status_json 500 (V1.failure e)).
Proof.
  intros E S B. rewrite (handle_registered req _ _ (V1.transfer_route h) E); [| cbn; tauto].
  apply run_transfer; assumption.
Qed.

Lemma handle_without_body (req : Request) (this : SolanaService) (st : State W) :
  In (endpoint req) body_endpoints ->
  solanaService st = Some this ->
  nullish (req_body req) = true ->
  V1.handle h req st = throw (TypeError_destructure h (req_body req)) st.
Proof.
  intros E S B. destruct (run_without_body req this st S B) as [Hi Ht].
  cbn [In body_endpoints] in E. destruct E as [E | [E | []]]; symmetry in E.
  - rewrite (handle_registered req _ _ (V1.issue_badge h) E); [exact Hi | cbn; tauto].
  - rewrite (handle_registered req _ _ (V1.transfer_route h) E); [exact Ht | cbn; tauto].
Qed.

(** A request one of these two handlers answered had a body. *)
Lemma answered_has_body (req : Request) (this : SolanaService) (st : State W)
    (res : option Response) :
  In (endpoint req) body_endpoints ->
  solanaService st = Some this ->
  outcome (V1.handle h req st) = Returned res ->
  nullish (req_body req) = false.
Proof.
  intros E S Hout. destruct (nullish (req_body req)) eqn:B; [| reflexivity].
  rewrite (handle_without_body req this st E S B) in Hout. discriminate.
Qed.

Lemma handle_token_balances (req : Request) (this : SolanaService) (st : State W) :
  endpoint req = (GET, "/api/token-balances") ->
  solanaService st = Some this ->
  V1.handle h req st =
  respond (V1.getTokenBalances h this (lookup_prop "ownerAddress" (req_query req)) st)
    (fun balances =>
       res_json (JObj [("success", JBool true); ("balances", JArr balances)]))
    (fun e => res_status_json 500 (V1.failure e)).
Proof.
  intros E S. rewrite (handle_registered req _ _ (V1.token_balances h) E); [| cbn; tauto].
  apply run_token_balances. exact S.
Qed.

Lemma handle_transactions (req : Request) (this : SolanaService) (st : State W) :
  endpoint req = (GET, "/api/transactions") ->
  solanaService st = Some this ->
  V1.handle h req st =
  respond (V1.getTransactions h this (lookup_prop "publicKey" (req_query req)) None st)
    (fun transactions =>
       res_json (JObj [("success", JBool true); ("transactions", JArr transactions)]))
    (fun e => res_status_json 500 (V1.failure e)).
Proof.
  intros E S. rewrite (handle_registered req _ _ (V1.transactions_route h) E); [| cbn; tauto].
  apply run_transactions. exact S.
Qed.

Lemma handle_server_wallet_transactions (req : Request) (this : SolanaService)
    (st : State W) :
  endpoint req = (GET, "/api/server-wallet-transactions") ->
  solanaService st = Some this ->
  V1.handle h req st =
  respond (V1.getTransactions h this
             (JStr (toString (wallet_publicKey (provider_wallet (provider (program this))))))
             None st)
    (fun transactions =>
       res_json (JObj [("success", JBool true); ("transactions", JArr transactions)]))
    (fun e => res_status_json 500 (V1.failure e)).
Proof.
  intros E S.
  rewrite (handle_registered req _ _ (V1.server_wallet_transactions h) E); [| cbn; tauto].
  apply run_server_wallet_transactions. exact S.
Qed.

End Routes.

(** Telling the route of a request from its method and path. *)
Ltac wrong_route Hex :=
  let E := fresh "E" in
  intros E; exfalso; apply Hex in E; [discriminate E | cbn; tauto].

Ltac among_routes Hex :=
  let Hl := fresh "Hl" in
  intros Hl; cbn [In] in Hl; exfalso;
  repeat (destruct Hl as [Hl | Hl];
          [symmetry in Hl; apply Hex in Hl; [discriminate Hl | cbn; tauto] |]);
  exact Hl.

Section Routes2.
Context {W : Type} (h : Host W) (this : SolanaService).

Lemma handle2_registered (req : Request) (m : Method) (p : string) (hd : V2.Handler) :
  endpoint req = (m, p) ->
  In (m, p, hd) (V2.routes h this) ->
  V2.handle h this req = (res <- hd req ;; ret (Some res)).
Proof.
  unfold endpoint. intros [= Em Ep] Hin. unfold V2.handle. rewrite Em, Ep.
  unfold V2.routes in Hin. cbn [In] in Hin.
  destruct Hin as [H | [H | [H | [H | [H | [H | [H | [H | []]]]]]]]];
    injection H as <- <- <-; reflexivity.
Qed.

Lemma routes2_registered (m : Method) (p : string) (hd : V2.Handler) :
  In (m, p, hd) (V2.routes h this) -> In (m, p) (registered ++ [(GET, "/health")]).
Proof.
  unfold V2.routes, registered, documented. cbn [app In].
  intros [H | [H | [H | [H | [H | [H | [H | [H | []]]]]]]]];
    injection H as <- <- _; tauto.
Qed.

Lemma handle2_routed_to (req : Request) (m : Method) (p : string) (hd : V2.Handler) :
  In (m, p, hd) (V2.routes h this) ->
  routed_to req (m, p) = true ->
  V2.handle h this req = (res <- hd req ;; ret (Some res)).
Proof.
  intros Hin R. unfold V2.handle.
  destruct (V1.dispatch (V2.routes h this) (req_method req) (req_path req))
    as [hd' |] eqn:D.
  - apply dispatch_In in D as (m' & p' & Hin' & Hm & Hp).
    assert (R' : routed_to req (m', p') = true).
    { unfold routed_to. cbn [fst snd]. rewrite Hm, Hp. reflexivity. }
    assert (Heq : (m, p) = (m', p')).
    { apply (routed_unique req); try assumption;
        eapply routes2_registered; eassumption. }
    injection Heq as <- <-. clear - Hin Hin'.
    unfold V2.routes in Hin, Hin'. cbn [In] in Hin, Hin'.
    destruct Hin as [H | [H | [H | [H | [H | [H | [H | [H | []]]]]]]]];
      injection H as <- <- <-;
      destruct Hin' as [H | [H | [H | [H | [H | [H | [H | [H | []]]]]]]]];
      first [discriminate H | injection H as <-; reflexivity].
  - exfalso. revert D. apply dispatch_serves. exists m, p.
    unfold routed_to in R. cbn [fst snd] in R. apply andb_true_iff in R as [Hm Hp].
    split; [| split; assumption].
    apply in_map_iff. exists (m, p, hd). split; [reflexivity | exact Hin].
Qed.

Lemma handle2_routed (req : Request) :
  V2.handle h this req = ret None \/
  exists m p hd,
    In (m, p, hd) (V2.routes h this) /\ routed_to req (m, p) = true /\
    V2.handle h this req = (res <- hd req ;; ret (Some res)).
Proof.
  unfold V2.handle.
  destruct (V1.dispatch (V2.routes h this) (req_method req) (req_path req)) as [hd |] eqn:D.
  - right. apply dispatch_In in D as (m & p & Hin & Hm & Hp).
    exists m, p, hd. split; [exact Hin |]. split; [| reflexivity].
    unfold routed_to. cbn [fst snd]. rewrite Hm, Hp. reflexivity.
  - left. reflexivity.
Qed.

Lemma run2_issue_badge (req : Request) (st : State W) :
  nullish (req_body req) = false ->
  (res <- V2.issue_badge h this req ;; ret (Some res)) st =
  respond (V2.issueBadge h this (get_prop "mintAddress" (req_body req))
             (get_prop "recipientAddress" (req_body req)) st)
    (fun _ => res_json (JObj [("success", JBool true)]))
    (fun e => res_status_json 500 (V2.failure e)).
Proof.
  intros B. unfold V2.issue_badge.
  exact (destructured_respond h (req_body req)
           (fun body => V2.issueBadge h this (get_prop "mintAddress" body)
                          (get_prop "recipientAddress" body))
           (fun _ => res_json (JObj [("success", JBool true)]))
           (fun e => res_status_json 500 (V2.failure e)) st B).
Qed.

Lemma run2_transfer (req : Request) (st : State W) :
  nullish (req_body req) = false ->
  (res <- V2.transfer_route h this req ;; ret (Some res)) st =
  respond (V2.transferTokens h this (get_prop "mintAddress" (req_body req))
             (get_prop "recipientAddress" (req_body req))
             (get_prop "amount" (req_body req)) st)
    (fun _ => res_json (JObj [("success", JBool true)]))
    (fun e => res_status_json 500 (V2.failure e)).
Proof.
  intros B. unfold V2.transfer_route.
  exact (destructured_respond h (req_body req)
           (fun body => V2.transferTokens h this (get_prop "mintAddress" body)
                          (get_prop "recipientAddress" body) (get_prop "amount" body))
           (fun _ => res_json (JObj [("success", JBool true)]))
           (fun e => res_status_json 500 (V2.failure e)) st B).
Qed.

Lemma run2_without_body (req : Request) (st : State W) :
  nullish (req_body req) = true ->
  (res <- V2.issue_badge h this req ;; ret (Some res)) st
  = throw (TypeError_destructure h (req_body req)) st /\
  (res <- V2.transfer_route h this req ;; ret (Some res)) st
  = throw (TypeError_destructure h (req_body req)) st.
Proof.
  intros B. unfold V2.issue_badge, V2.transfer_route, destructure. rewrite B.
  split; reflexivity.
Qed.

Lemma handle2_create_token (req : Request) (st : State W) :
  endpoint req = (POST, "/api/create-token") ->
  V2.handle h this req st =
  respond (V2.createTokenMint h this st)
    (fun mintAddress =>
       res_json (JObj [("success", JBool true); ("mintAddress", JStr mintAddress)]))
    (fun e => res_status_json 500 (V2.failure e)).
Proof.
  intros E. rewrite (handle2_registered req _ _ (V2.create_token h this) E); [| cbn; tauto].
  unfold V2.create_token. apply try_respond.
Qed.

Lemma handle2_transfer (req : Request) (st : State W) :
  endpoint req = (POST, "/api/transfer") ->
  nullish (req_body req) = false ->
  V2.handle h this req st =
  respond (V2.transferTokens h this (get_prop "mintAddress" (req_body req))
             (get_prop "recipientAddress" (req_body req))
             (get_prop "amount" (req_body req)) st)
    (fun _ => res_json (JObj [("success", JBool true)]))
    (fun e => res_status_json 500 (V2.failure e)).
Proof.
  intros E B. rewrite (handle2_registered req _ _ (V2.transfer_route h this) E); [| cbn; tauto].
  apply run2_transfer. exact B.
Qed.

End Routes2.

(** A body with a property is a body. *)
Lemma get_prop_not_nullish (k : string) (v x : JsValue) :
  get_prop k v = x -> x <> JUndefined -> nullish v = false.
Proof. destruct v; cbn; intros <- H; try reflexivity; contradiction. Qed.

(* ================================================================== *)
(** * Failures come from the SDK alone *)

Section Failures.
Context {W : Type} (h : Host W).

Lemma sdk_failure_ret {A} (relay : Event -> Error -> Error) (a : A) (st : State W) :
  sdk_failure_only relay (ret a st).
Proof. constructor. Qed.

Lemma sdk_failure_call {X} (relay : Event -> Error -> Error) (c : Call X) (st : State W) :
  (forall r e, relay (Ev c r) e = e) ->
  sdk_failure_only relay (call h c st).
Proof.
  intros Hrelay. unfold sdk_failure_only, call.
  destruct (exec h c (world st)) as [[x | e] w]; cbn.
  - repeat constructor.
  - exists [], (Ev c (Thrown e)), e. rewrite Hrelay. repeat split. constructor.
Qed.

Lemma sdk_failure_bind {A B} (relay : Event -> Error -> Error)
    (m : M W A) (k : A -> M W B) (st : State W) :
  sdk_failure_only relay (m st) ->
  (forall a st', sdk_failure_only relay (k a st')) ->
  sdk_failure_only relay (bind m k st).
Proof.
  unfold sdk_failure_only, bind. intros Hm Hk.
  destruct (m st) as [[a | e] s t]; cbn in *; [| exact Hm].
  specialize (Hk a s). destruct (k a s) as [[b | e'] s' t']; cbn in *.
  - apply Forall_app. split; assumption.
  - destruct Hk as (evs & ev & e & -> & Hevs & Hev & ->).
    exists (t ++ evs), ev, e. rewrite app_assoc. repeat split; try assumption.
    apply Forall_app. split; assumption.
Qed.

(** [catch (error) { throw error }] changes nothing. *)
Lemma sdk_failure_rethrow {A} (relay : Event -> Error -> Error)
    (m : M W A) (st : State W) :
  sdk_failure_only relay (m st) ->
  sdk_failure_only relay (try_catch m (fun error => throw error) st).
Proof.
  unfold sdk_failure_only, try_catch, throw. intros Hm.
  destruct (m st) as [[a | e] s t]; cbn in *; [exact Hm|].
  rewrite app_nil_r. exact Hm.
Qed.

Lemma sdk_failure_for_of {A B} (relay : Event -> Error -> Error)
    (body : A -> B -> M W B) (xs : list A) :
  (forall x acc st, sdk_failure_only relay (body x acc st)) ->
  forall acc st, sdk_failure_only relay (for_of xs body acc st).
Proof.
  intros Hbody. induction xs as [| x xs IH]; intros acc st; cbn [for_of].
  - apply sdk_failure_ret.
  - apply sdk_failure_bind; [apply Hbody | intros; apply IH].
Qed.

(** In such a run a call that threw decides the outcome. *)
Lemma sdk_failure_thrown {A} (relay : Event -> Error -> Error) (r : Run W A)
    (ev : Event) (e : Error) :
  sdk_failure_only relay r ->
  In ev (emitted r) -> thrown_by ev = Some e ->
  outcome r = Thrown (relay ev e).
Proof.
  unfold sdk_failure_only. intros Hr Hin Hev.
  destruct (outcome r) as [a | e'].
  - rewrite Forall_forall in Hr. rewrite (Hr ev Hin) in Hev. discriminate.
  - destruct Hr as (evs & ev' & e0 & Heq & Hevs & Hev' & ->).
    rewrite Heq in Hin. apply in_app_or in Hin as [Hin | [<- | []]].
    + rewrite Forall_forall in Hevs. rewrite (Hevs ev Hin) in Hev. discriminate.
    + rewrite Hev' in Hev. injection Hev as <-. reflexivity.
Qed.

(** And a run that threw has a call that threw. *)
Lemma sdk_failure_cause {A} (relay : Event -> Error -> Error) (r : Run W A) (e' : Error) :
  sdk_failure_only relay r ->
  outcome r = Thrown e' ->
  exists ev e, In ev (emitted r) /\ thrown_by ev = Some e /\ e' = relay ev e.
Proof.
  unfold sdk_failure_only. intros Hr Ho. rewrite Ho in Hr.
  destruct Hr as (evs & ev & e & Heq & _ & Hev & ->).
  exists ev, e. rewrite Heq. repeat split; try assumption.
  apply in_or_app. right. left. reflexivity.
Qed.

Ltac sdk_failure :=
  repeat first
    [ apply sdk_failure_ret
    | apply sdk_failure_call; reflexivity
    | apply sdk_failure_rethrow
    | apply sdk_failure_for_of; intros
    | apply sdk_failure_bind; [| intros] ].

Lemma createTokenMint_failures (this : SolanaService) (st : State W) :
  sdk_failure_only relay_unchanged (V1.createTokenMint h this st).
Proof. unfold V1.createTokenMint. sdk_failure. Qed.

Lemma transferTokens_failures (this : SolanaService) (m r a : JsValue) (st : State W) :
  sdk_failure_only relay_unchanged (V1.transferTokens h this m r a st).
Proof. unfold V1.transferTokens. sdk_failure. Qed.

Lemma getTokenBalances_failures (this : SolanaService) (owner : JsValue) (st : State W) :
  sdk_failure_only relay_unchanged (V1.getTokenBalances h this owner st).
Proof. unfold V1.getTokenBalances. sdk_failure. Qed.

Lemma getTransactions_failures (this : SolanaService) (pk : JsValue) (limit : option nat)
    (st : State W) :
  sdk_failure_only relay_unchanged (V1.getTransactions h this pk limit st).
Proof.
  unfold V1.getTransactions. cbn [truthy_object negb]. sdk_failure.
  match goal with |- context [match ?tx with Some _ => _ | None => _ end] => destruct tx end;
    apply sdk_failure_ret.
Qed.

Lemma issueBadge_failures (this : SolanaService) (m r : JsValue) (st : State W) :
  sdk_failure_only relay_issueBadge (V1.issueBadge h this m r st).
Proof.
  unfold V1.issueBadge. apply sdk_failure_bind; [| intros; sdk_failure].
  unfold sdk_failure_only, try_catch, bind, call, ret, throw. cbn.
  destruct (exec h (New_PublicKey m) (world st)) as [[x | e] w] eqn:E1; cbn.
  - destruct (exec h (New_PublicKey r) w) as [[y | e] w'] eqn:E2; cbn.
    + repeat constructor.
    + exists [Ev (New_PublicKey m) (Returned x)], (Ev (New_PublicKey r) (Thrown e)), e.
      repeat split. repeat constructor.
  - exists [], (Ev (New_PublicKey m) (Thrown e)), e. repeat split. constructor.
Qed.

End Failures.
(** C8.  On a transfer request whose [amount] is a number [a], the amount
    handed to the SDK is [a * Math.pow(10, 9)]: the first variant passes it
    to [createTransferCheckedWithTransferHookInstruction] together with
    decimals 9, the second passes it to [transfer].  In either variant the
    call is made once, exactly when the calls before it returned (the two
    associated accounts and, in the first variant, the derived address),
    and so on every request answered with status 200; the keys built and
    the associated accounts looked up are the same in both.  For a natural
    number [n] with [n * 10^9 < 2^53] the product is exactly [n * 10^9]. *)
Theorem transfer_raw_amount {W} (h : Host W) (req : Request) (this : SolanaService)
    (a : number) (st : State W) :
  endpoint req = (POST, "/api/transfer") ->
  solanaService st = Some this ->
  get_prop "amount" (req_body req) = JNum a ->
  let raw := js_mul a (Math_pow (Number_of_Z 10) 9) in
  let run1 := V1.handle h req st in
  let run2 := V2.handle h this req st in
  (collect hook_transfer_amount (emitted run1) = []
   \/ collect hook_transfer_amount (emitted run1) = [(raw, 9%nat)]) /\
  (forall res, outcome run1 = Returned (Some res) -> status res = 200%nat ->
     collect hook_transfer_amount (emitted run1) = [(raw, 9%nat)]) /\
  (collect hook_transfer_amount (emitted run1) = [(raw, 9%nat)] <->
   List.length (collect associated_account (emitted run1)) = 2%nat /\
   List.length (collect derived_address (emitted run1)) = 1%nat) /\
  (collect plain_transfer_amount (emitted run2) = []
   \/ collect plain_transfer_amount (emitted run2) = [raw]) /\
  (forall res, outcome run2 = Returned (Some res) -> status res = 200%nat ->
     collect plain_transfer_amount (emitted run2) = [raw]) /\
  (collect plain_transfer_amount (emitted run2) = [raw] <->
   List.length (collect associated_account (emitted run2)) = 2%nat) /\
  collect constructed_key (emitted run2) = collect constructed_key (emitted run1) /\
  collect associated_account (emitted run2) = collect associated_account (emitted run1) /\
  (forall n : nat,
     a = Number_of_Z (Z.of_nat n) -> Z.of_nat n * 10 ^ 9 < 2 ^ 53 ->
     raw = Number_of_Z (Z.of_nat n * 10 ^ 9) /\
     number_to_Z raw = Some (Z.of_nat n * 10 ^ 9)).
Proof.
  intros E S A raw run1 run2.
  assert (exact : forall n : nat,
             a = Number_of_Z (Z.of_nat n) -> Z.of_nat n * 10 ^ 9 < 2 ^ 53 ->
             raw = Number_of_Z (Z.of_nat n * 10 ^ 9) /\
             number_to_Z raw = Some (Z.of_nat n * 10 ^ 9)).
  { intros n -> Hn. subst raw. rewrite Math_pow_10_9.
    assert (Hmul : js_mul (Number_of_Z (Z.of_nat n)) (Number_of_Z (10 ^ 9))
                   = Number_of_Z (Z.of_nat n * 10 ^ 9)).
    { apply js_mul_exact; unfold prec; lia. }
    rewrite Hmul. split; [reflexivity|].
    apply Number_of_Z_exact. unfold prec. lia. }
  assert (B : nullish (req_body req) = false).
  { apply (get_prop_not_nullish _ _ _ A). discriminate. }
  subst run1 run2.
  rewrite (handle_transfer h req this st E S B), (handle2_transfer h this req st E B).
  rewrite A. unfold respond. cbn [emitted outcome]. fold raw.
  unfold V1.transferTokens, V2.transferTokens, bind, call, ret. cbn.
  fold raw.
  split; [| split; [| split; [| split; [| split; [| split; [| split; [| split;
    [| exact exact]]]]]]]].
  - repeat (step; auto).
  - intros res. repeat (step; try (intros [= <-]; cbn; discriminate)).
    intros [= <-]; cbn; auto.
  - repeat step; split; try (intros [? ?]); try intros ?; try discriminate;
      try (split; reflexivity); reflexivity.
  - repeat (step; auto).
  - intros res. repeat (step; try (intros [= <-]; cbn; discriminate)).
    intros [= <-]; cbn; auto.
  - repeat step; split; intros ?; try discriminate; reflexivity.
  - repeat step; reflexivity.
  - repeat step; reflexivity.
Qed.

(* ================================================================== *)
(** * The service object is never reassigned *)

Section Stateless.
Context {W : Type} (h : Host W).

Lemma keeps_ret {A} (a : A) : keeps_service (ret (W := W) a).
Proof. intros st. reflexivity. Qed.

Lemma keeps_throw {A} (e : Error) : keeps_service (throw (W := W) (A := A) e).
Proof. intros st. reflexivity. Qed.

Lemma keeps_read : keeps_service (read_solanaService (W := W)).
Proof. intros st. reflexivity. Qed.

Lemma keeps_call {X} (c : Call X) : keeps_service (call h c).
Proof. intros st. unfold call. destruct (exec h c (world st)). reflexivity. Qed.

Lemma keeps_bind {A B} (m : M W A) (k : A -> M W B) :
  keeps_service m -> (forall a, keeps_service (k a)) -> keeps_service (bind m k).
Proof.
  intros Hm Hk st. unfold bind. specialize (Hm st).
  destruct (m st) as [[a | e] s t]; cbn in *; [| exact Hm].
  specialize (Hk a s). destruct (k a s) as [o s' t']. cbn in *. congruence.
Qed.

Lemma keeps_try {A} (m : M W A) (handler : Error -> M W A) :
  keeps_service m -> (forall e, keeps_service (handler e)) ->
  keeps_service (try_catch m handler).
Proof.
  intros Hm Hk st. unfold try_catch. specialize (Hm st).
  destruct (m st) as [[a | e] s t]; cbn in *; [exact Hm|].
  specialize (Hk e s). destruct (handler e s) as [o s' t']. cbn in *. congruence.
Qed.

Lemma keeps_for_of {A B} (body : A -> B -> M W B) (xs : list A) :
  (forall x acc, keeps_service (body x acc)) ->
  forall acc, keeps_service (for_of xs body acc).
Proof.
  intros Hbody. induction xs as [| x xs IH]; intros acc; cbn [for_of].
  - apply keeps_ret.
  - apply keeps_bind; [apply Hbody | apply IH].
Qed.

Ltac keeps :=
  repeat first
    [ apply keeps_ret
    | apply keeps_throw
    | apply keeps_read
    | apply keeps_call
    | apply keeps_for_of; intros
    | apply keeps_bind; [| intros]
    | apply keeps_try; [| intros]
    | match goal with
      | |- keeps_service (match ?x with _ => _ end) => destruct x
      end ].

Lemma routes_keep_service (m : Method) (p : string) (hd : V1.Handler) (req : Request) :
  In (m, p, hd) (V1.routes h) -> keeps_service (hd req).
Proof.
  unfold V1.routes. cbn [In].
  intros [H | [H | [H | [H | [H | [H | [H | [H | [H | []]]]]]]]]];
    injection H as _ _ <-.
  - unfold V1.create_token, V1.createTokenMint. keeps.
  - unfold V1.issue_badge, V1.issueBadge, destructure. keeps.
  - unfold V1.transfer_route, V1.transferTokens, destructure. keeps.
  - unfold V1.token_balances, V1.getTokenBalances. keeps.
  - unfold V1.transactions_route, V1.getTransactions. keeps.
  - unfold V1.server_wallet_transactions, V1.getTransactions. keeps.
  - unfold V1.health. keeps.
  - unfold V1.wallet_status, V1.getServerWalletBalance. keeps.
  - unfold V1.program_info. keeps.
Qed.

Lemma handle_keeps_service (req : Request) : keeps_service (V1.handle h req).
Proof.
  unfold V1.handle.
  destruct (V1.dispatch (V1.routes h) (req_method req) (req_path req)) as [hd |] eqn:D.
  - apply keeps_bind; [| intros; apply keeps_ret].
    apply dispatch_In in D as (m & p & Hin & _).
    eapply routes_keep_service. exact Hin.
  - apply keeps_ret.
Qed.

Lemma serve_keeps_service (history : list Request) (st : State W) :
  solanaService (V1.serve h history st) = solanaService st.
Proof.
  revert st. induction history as [| req history IH]; intros st; cbn [V1.serve].
  - reflexivity.
  - rewrite IH. apply handle_keeps_service.
Qed.

End Stateless.

(** C4.  Serving a request leaves the module variable [solanaService], and
    with it the [connection] and [program] of the one service object, as it
    was; so it is after any sequence of requests, and the run of a request
    after such a sequence is its run from the service as first created and
    the world the SDK is in by then. *)
Theorem service_is_never_reassigned {W} (h : Host W) (req : Request)
    (history : list Request) (st : State W) :
  solanaService (final (V1.handle h req st)) = solanaService st /\
  solanaService (V1.serve h history st) = solanaService st /\
  V1.handle h req (V1.serve h history st)
  = V1.handle h req {| solanaService := solanaService st;
                       world := world (V1.serve h history st) |}.
Proof.
  split; [apply handle_keeps_service|].
  split; [apply serve_keeps_service|].
  rewrite <- (serve_keeps_service h history st).
  destruct (V1.serve h history st). reflexivity.
Qed.
(* ================================================================== *)
(** * The registered routes *)


(** C3, as the code has it: the first variant registers nine routes, each
    once: the eight documented endpoints and
    [GET /api/server-wallet-transactions].  The requests that reach a
    handler are those the framework matches to one of the nine: the
    route's method (or HEAD on a GET route) and its path, in any case of
    letters, with or without a trailing slash. *)
Theorem registered_routes {W} (h : Host W) (m : Method) (p : string) :
  map fst (V1.routes h)
  = [ (POST, "/api/create-token"); (POST, "/api/issue-badge"); (POST, "/api/transfer");
      (GET, "/api/token-balances"); (GET, "/api/transactions");
      (GET, "/api/server-wallet-transactions"); (GET, "/api/health");
      (GET, "/api/wallet-status"); (GET, "/api/program-info") ] /\
  NoDup (map fst (V1.routes h)) /\
  (In (m, p) (map fst (V1.routes h)) <->
   In (m, p) documented \/ (m, p) = (GET, "/api/server-wallet-transactions")) /\
  (In (m, p) (map fst (V1.routes h)) -> V1.dispatch (V1.routes h) m p <> None) /\
  (V1.dispatch (V1.routes h) m p <> None <->
   exists m' p',
     (In (m', p') documented \/ (m', p') = (GET, "/api/server-wallet-transactions")) /\
     (m = m' \/ (m' = GET /\ m = HEAD)) /\
     (lowercase p = p' \/ lowercase p = (p' ++ "/")%string)).
Proof.
  assert (Hset : forall m p,
            In (m, p) (map fst (V1.routes h)) <->
            In (m, p) documented \/ (m, p) = (GET, "/api/server-wallet-transactions")).
  { intros m0 p0. unfold V1.routes, documented. cbn [map fst In].
    intuition congruence. }
  split; [reflexivity |]. split; [| split; [apply Hset | split]].
  - unfold V1.routes. cbn [map fst].
    repeat (constructor; [cbn [In]; intuition discriminate |]). constructor.
  - unfold V1.routes. cbn [map fst In].
    intros [H | [H | [H | [H | [H | [H | [H | [H | [H | []]]]]]]]]];
      injection H as <- <-;
      match goal with
      | |- V1.dispatch _ ?m0 ?p0 <> None => apply dispatch_serves; exists m0, p0
      end;
      (split; [cbn; tauto | split; reflexivity]).
  - rewrite dispatch_serves. split.
    + intros (m' & p' & Hin & Hm & Hp). exists m', p'.
      split; [apply Hset; exact Hin |]. split.
      * unfold method_serves in Hm. destruct m, m'; cbn in Hm; try discriminate; auto.
      * unfold path_matches in Hp. apply orb_true_iff in Hp.
        assert (L : lowercase p' = p').
        { unfold V1.routes in Hin. cbn [map fst In] in Hin.
          destruct Hin as [H | [H | [H | [H | [H | [H | [H | [H | [H | []]]]]]]]]];
            injection H as _ <-; reflexivity. }
        rewrite L in Hp. destruct Hp as [Hp | Hp]; apply String.eqb_eq in Hp; auto.
    + intros (m' & p' & Hin & Hm & Hp). exists m', p'.
      split; [apply Hset; exact Hin |]. split.
      * destruct Hm as [-> | [-> ->]]; [destruct m' |]; reflexivity.
      * assert (L : lowercase p' = p').
        { apply Hset in Hin. unfold V1.routes in Hin. cbn [map fst In] in Hin.
          destruct Hin as [H | [H | [H | [H | [H | [H | [H | [H | [H | []]]]]]]]]];
            injection H as _ <-; reflexivity. }
        unfold path_matches. rewrite L. apply orb_true_iff.
        destruct Hp as [-> | ->]; [left | right]; apply String.eqb_refl.
Qed.

(** C3, as stated, fails: a request to [GET /api/server-wallet-transactions],
    which is not among the eight documented endpoints, is routed and
    answered. *)
Lemma server_wallet_transactions_is_served :
  ~ In (endpoint Demo.get_server_wallet_transactions) documented /\
  V1.dispatch (V1.routes Demo.host) GET "/api/server-wallet-transactions" <> None /\
  exists res,
    outcome (V1.handle Demo.host Demo.get_server_wallet_transactions Demo.state)
    = Returned (Some res) /\
    status res = 200%nat /\
    get_prop "success" (body res) = JBool true.
Proof.
  split; [| split].
  - cbn. intuition discriminate.
  - apply dispatch_serves. exists GET, "/api/server-wallet-transactions".
    split; [cbn; tauto | split; reflexivity].
  - eexists. split; [vm_compute; reflexivity |]. split; reflexivity.
Qed.

(* ================================================================== *)
(** * Responses to failures *)

Section ErrorResponses.
Context {W : Type} (h : Host W).

Lemma handle_wallet_status (req : Request) :
  endpoint req = (GET, "/api/wallet-status") ->
  V1.handle h req = (res <- V1.wallet_status h req ;; ret (Some res)).
Proof. intros E. apply (handle_registered h req _ _ _ E). cbn. tauto. Qed.

Lemma wallet_status_run (req : Request) (this : SolanaService) (st : State W)
    (res : Response) (ev : Event) (e : Error) :
  solanaService st = Some this ->
  outcome ((res <- V1.wallet_status h req ;; ret (Some res)) st) = Returned (Some res) ->
  In ev (emitted ((res <- V1.wallet_status h req ;; ret (Some res)) st)) ->
  thrown_by ev = Some e ->
  res = res_status_json 500 (JObj [("connected", JBool false); ("error", JStr (message e))]).
Proof.
  intros S. unfold V1.wallet_status.
  rewrite (guarded_route _ _ st this S).
  unfold V1.getServerWalletBalance. cbn [truthy_object negb orb].
  destruct (truthy_env (SERVER_WALLET_SECRET_KEY (env h))).
  - unfold try_catch, bind, call, ret, throw. cbn.
    repeat step;
      intros [= <-] Hin Hev;
      repeat (destruct Hin as [<- | Hin]; [try discriminate Hev |]);
      try contradiction;
      injection Hev as <-; reflexivity.
  - unfold try_catch, bind, ret. cbn. intros _ [].
Qed.

End ErrorResponses.

(** C1, as the code has it.  When a call into the SDK throws an error [e]
    while a request is served, the response has status 500 and carries the
    message of [e]: as [{ success: false, error }] on create-token,
    transfer, token-balances, transactions and server-wallet-transactions;
    on issue-badge too, where the message is prefixed with
    ["Invalid public key input: "] when the failing call is the [PublicKey]
    constructor; as [{ connected: false, error }] on wallet-status.  The
    health and program-info routes make no call. *)
Theorem sdk_error_response {W} (h : Host W) (req : Request) (this : SolanaService)
    (st : State W) (res : Response) (ev : Event) (e : Error) :
  solanaService st = Some this ->
  outcome (V1.handle h req st) = Returned (Some res) ->
  In ev (emitted (V1.handle h req st)) ->
  thrown_by ev = Some e ->
  status res = 500%nat /\
  (In (endpoint req)
      [ (POST, "/api/create-token"); (POST, "/api/transfer");
        (GET, "/api/token-balances"); (GET, "/api/transactions");
        (GET, "/api/server-wallet-transactions") ] ->
   body res = JObj [("success", JBool false); ("error", JStr (message e))]) /\
  (endpoint req = (POST, "/api/issue-badge") ->
   body res =
   JObj [("success", JBool false);
         ("error", JStr (if is_New_PublicKey ev
                         then "Invalid public key input: " ++ message e
                         else message e))]) /\
  (endpoint req = (GET, "/api/wallet-status") ->
   body res = JObj [("connected", JBool false); ("error", JStr (message e))]) /\
  endpoint req <> (GET, "/api/health") /\
  endpoint req <> (GET, "/api/program-info").
Proof.
  intros S Hout Hin Hev.
  destruct (handle_routed h req) as [N | (m & p & hd & Hr & R & Heq)].
  { rewrite N in Hout. discriminate. }
  assert (Hex : forall r', In r' registered -> endpoint req = r' -> r' = (m, p)).
  { intros r' Hr' E.
    exact (routed_to_unique req (m, p) r' (routes_registered h m p hd Hr) Hr' R E). }
  rewrite Heq in Hout, Hin. clear Heq.
  assert (guarded :
    forall A (r : Run W A) ok (run : Run W (option Response)),
      sdk_failure_only relay_unchanged r ->
      run = respond r ok (fun e => res_status_json 500 (V1.failure e)) ->
      outcome run = Returned (Some res) -> In ev (emitted run) ->
      res = res_status_json 500 (JObj [("success", JBool false); ("error", JStr (message e))])).
  { intros A r ok run Hr' -> Ho Hi. unfold respond in Ho, Hi.
    cbn [outcome emitted] in Ho, Hi.
    rewrite (sdk_failure_thrown _ _ ev e Hr' Hi Hev) in Ho.
    injection Ho as <-. reflexivity. }
  unfold V1.routes in Hr. cbn [In] in Hr.
  destruct Hr as [H | [H | [H | [H | [H | [H | [H | [H | [H | []]]]]]]]]];
    injection H as <- <- <-.
  - rewrite (guarded _ _ _ _ (createTokenMint_failures h this st)
               (run_create_token h req this st S) Hout Hin).
    split; [reflexivity |]. split; [intros _; reflexivity |].
    split; [wrong_route Hex |]. split; [wrong_route Hex |].
    split; intros E; apply Hex in E; try discriminate E; cbn; tauto.
  - destruct (nullish (req_body req)) eqn:B.
    { destruct (run_without_body h req this st S B) as [Hi _].
      rewrite Hi in Hout. discriminate. }
    rewrite (run_issue_badge h req this st S B) in Hout, Hin.
    unfold respond in Hout, Hin. cbn [outcome emitted] in Hout, Hin.
    rewrite (sdk_failure_thrown _ _ ev e (issueBadge_failures h this _ _ st) Hin Hev) in Hout.
    injection Hout as <-. unfold relay_issueBadge.
    split; [reflexivity |]. split; [among_routes Hex |].
    split; [intros _; cbn; destruct (is_New_PublicKey ev); reflexivity |].
    split; [wrong_route Hex |].
    split; intros E; apply Hex in E; try discriminate E; cbn; tauto.
  - destruct (nullish (req_body req)) eqn:B.
    { destruct (run_without_body h req this st S B) as [_ Ht].
      rewrite Ht in Hout. discriminate. }
    rewrite (guarded _ _ _ _ (transferTokens_failures h this _ _ _ st)
               (run_transfer h req this st S B) Hout Hin).
    split; [reflexivity |]. split; [intros _; reflexivity |].
    split; [wrong_route Hex |]. split; [wrong_route Hex |].
    split; intros E; apply Hex in E; try discriminate E; cbn; tauto.
  - rewrite (guarded _ _ _ _ (getTokenBalances_failures h this _ st)
               (run_token_balances h req this st S) Hout Hin).
    split; [reflexivity |]. split; [intros _; reflexivity |].
    split; [wrong_route Hex |]. split; [wrong_route Hex |].
    split; intros E; apply Hex in E; try discriminate E; cbn; tauto.
  - rewrite (guarded _ _ _ _ (getTransactions_failures h this _ _ st)
               (run_transactions h req this st S) Hout Hin).
    split; [reflexivity |]. split; [intros _; reflexivity |].
    split; [wrong_route Hex |]. split; [wrong_route Hex |].
    split; intros E; apply Hex in E; try discriminate E; cbn; tauto.
  - rewrite (guarded _ _ _ _ (getTransactions_failures h this _ _ st)
               (run_server_wallet_transactions h req this st S) Hout Hin).
    split; [reflexivity |]. split; [intros _; reflexivity |].
    split; [wrong_route Hex |]. split; [wrong_route Hex |].
    split; intros E; apply Hex in E; try discriminate E; cbn; tauto.
  - exfalso. cbn in Hin. exact Hin.
  - rewrite (wallet_status_run h req this st res ev e S Hout Hin Hev).
    split; [reflexivity |]. split; [among_routes Hex |].
    split; [wrong_route Hex |]. split; [intros _; reflexivity |].
    split; intros E; apply Hex in E; try discriminate E; cbn; tauto.
  - exfalso. unfold V1.program_info in Hin.
    rewrite (guarded_route _ _ st this S) in Hin. cbn in Hin. exact Hin.
Qed.

(** C1, as stated, fails on issue-badge: the SDK rejects the mint address
    with the message ["Invalid public key input"], and the route answers
    with another message, the prefixed one. *)
Lemma issue_badge_error_is_prefixed :
  let run := V1.handle Demo.host Demo.post_issue_badge_bad_key Demo.state in
  emitted run
  = [Ev (New_PublicKey (JStr "not-a-key")) (Thrown (new_Error "Invalid public key input"))] /\
  outcome run
  = Returned (Some (res_status_json 500
       (JObj [("success", JBool false);
              ("error", JStr "Invalid public key input: Invalid public key input")]))) /\
  outcome run
  <> Returned (Some (res_status_json 500
       (JObj [("success", JBool false); ("error", JStr "Invalid public key input")]))).
Proof.
  split; [vm_compute; reflexivity |].
  split; [vm_compute; reflexivity |].
  vm_compute. discriminate.
Qed.
(* ================================================================== *)
(** * The [success] field *)

Section SuccessField.
Context {W : Type} (h : Host W).

(** The guarded routes before the service exists. *)
Lemma handle_not_initialized (req : Request) (st : State W) :
  solanaService st = None ->
  In (endpoint req) (success_endpoints ++ [(GET, "/api/server-wallet-transactions")]) ->
  V1.handle h req st
  = {| outcome := Returned (Some (res_status_json 500 V1.not_initialized));
       final := st; emitted := [] |}.
Proof.
  intros S. unfold success_endpoints. cbn [In app].
  intros [H | [H | [H | [H | [H | [H | []]]]]]]; symmetry in H;
    (erewrite handle_registered;
     [| exact H | cbn [V1.routes In]; repeat first [left; reflexivity | right]]);
    unfold V1.create_token, V1.issue_badge, V1.transfer_route, V1.token_balances,
      V1.transactions_route, V1.server_wallet_transactions, bind, read_solanaService, ret;
    rewrite S; reflexivity.
Qed.


Lemma not_both (evs : list Event) :
  Forall (fun ev => thrown_by ev = None) evs ->
  Exists (fun ev => thrown_by ev <> None) evs -> False.
Proof.
  intros HF HE. apply Exists_exists in HE as (ev & Hin & Hev).
  rewrite Forall_forall in HF. apply Hev, HF, Hin.
Qed.

(** The reply of the application, from the run of the handler. *)
Lemma app_reply (req : Request) (st : State W) :
  V1.app h req st
  = {| outcome :=
         Returned match outcome (V1.handle h req st) with
                  | Returned res => option_map Json res
                  | Thrown err => Some (V1.error_middleware err req)
                  end;
       final := final (V1.handle h req st);
       emitted := emitted (V1.handle h req st) |}.
Proof.
  unfold V1.app, try_catch, bind, ret.
  destruct (V1.handle h req st) as [[res | err] s t]; cbn; rewrite app_nil_r; reflexivity.
Qed.


End SuccessField.



(* ================================================================== *)
(** * What the routes hand to the SDK and answer *)

(** C5, as the code has it.  On a transfer request the one transaction
    submitted holds one instruction: the instruction the SDK's
    [createTransferCheckedWithTransferHookInstruction] returned, with the
    same program and data, and with two more keys appended by the service,
    the transfer-hook program and the extra-account-meta-list address, both
    neither signer nor writable.  Nothing is submitted when an earlier call
    threw, and a successful request has submitted. *)
Theorem transfer_instruction_submitted {W} (h : Host W) (req : Request)
    (this : SolanaService) (st : State W) :
  endpoint req = (POST, "/api/transfer") ->
  solanaService st = Some this ->
  let evs := emitted (V1.handle h req st) in
  (collect sent_transaction evs = [] \/
   exists ix mint pda,
     collect hook_instruction evs = [ix] /\
     collect derived_address evs
     = [([Buffer_from "extra-account-metas"; toBuffer mint],
         programId (program this), pda)] /\
     collect sent_transaction evs
     = [({| instructions :=
              [ {| ix_programId := ix_programId ix;
                   keys := keys ix ++
                           [ {| pubkey := TRANSFER_HOOK_PROGRAM_ID h;
                                isSigner := false; isWritable := false |};
                             {| pubkey := pda;
                                isSigner := false; isWritable := false |} ];
                   data := data ix |} ] |},
         [wallet_payer (provider_wallet (provider (program this)))])]) /\
  (forall res, outcome (V1.handle h req st) = Returned (Some res) ->
               status res = 200%nat -> collect sent_transaction evs <> []).
Proof.
  intros E S evs. subst evs.
  destruct (nullish (req_body req)) eqn:B.
  { rewrite (handle_without_body h req this st) by (rewrite ?E; cbn; auto).
    cbn. split; [left; reflexivity | intros res C; discriminate C]. }
  rewrite (handle_transfer h req this st E S B).
  unfold respond. cbn [emitted outcome].
  unfold V1.transferTokens, bind, call, ret. cbn.
  split.
  - repeat (step; auto);
      right; eexists _, _, _; unfold keys_push; cbn; rewrite <- app_assoc; cbn;
      repeat split; reflexivity.
  - intros res. repeat (step; try (intros [= <-]; cbn; discriminate)).
Qed.

(** C5, as stated, fails: the instruction submitted for a transfer has six
    keys where the instruction the SDK returned has four. *)
Lemma transfer_appends_two_keys :
  let evs := emitted (V1.handle Demo.host (Demo.post_transfer (JNum (Number_of_Z 5)))
                        Demo.state) in
  exists ix ix' signers,
    collect hook_instruction evs = [ix] /\
    collect sent_transaction evs = [({| instructions := [ix'] |}, signers)] /\
    List.length (keys ix) = 4%nat /\
    List.length (keys ix') = 6%nat /\
    ix' <> ix.
Proof.
  eexists _, _, _. split; [vm_compute; reflexivity |].
  split; [vm_compute; reflexivity |].
  split; [reflexivity |]. split; [reflexivity |]. discriminate.
Qed.

(** C6.  A create-token request answered with status 200 has generated one
    key pair, answers [{ success: true, mintAddress }] with the base-58
    text of that pair's public key, and has submitted one transaction,
    signed by that pair, whose instructions create the account at that key
    and initialise the transfer hook and the mint (9 decimals) at it. *)
Theorem create_token_response {W} (h : Host W) (req : Request) (st : State W)
    (res : Response) :
  endpoint req = (POST, "/api/create-token") ->
  outcome (V1.handle h req st) = Returned (Some res) ->
  status res = 200%nat ->
  let evs := emitted (V1.handle h req st) in
  exists this mintKeypair mintLen lamports,
    solanaService st = Some this /\
    collect generated_keypair evs = [mintKeypair] /\
    res = res_json (JObj [("success", JBool true);
                          ("mintAddress", JStr (toBase58 (kp_publicKey mintKeypair)))]) /\
    let payer := wallet_publicKey (provider_wallet (provider (program this))) in
    collect sent_transaction evs
    = [({| instructions :=
             [ SystemProgram_createAccount h payer (kp_publicKey mintKeypair)
                 mintLen lamports TOKEN_2022_PROGRAM_ID;
               createInitializeTransferHookInstruction h (kp_publicKey mintKeypair)
                 payer (programId (program this)) TOKEN_2022_PROGRAM_ID;
               createInitializeMintInstruction h (kp_publicKey mintKeypair) 9
                 payer None TOKEN_2022_PROGRAM_ID ] |},
        [mintKeypair])].
Proof.
  intros E Hout Hst evs. subst evs.
  destruct (solanaService st) as [this |] eqn:S.
  2:{ rewrite handle_not_initialized in Hout.
      - injection Hout as <-. discriminate.
      - exact S.
      - rewrite E. cbn. tauto. }
  revert Hout. rewrite (handle_create_token h req this st E S).
  unfold respond. cbn [emitted outcome].
  unfold V1.createTokenMint, bind, call, ret. cbn.
  repeat (step; try (intros [= <-]; cbn in Hst; discriminate)).
  intros [= <-]. eexists _, _, _, _. repeat split; reflexivity.
Qed.
Section Loops.
Context {W : Type} (h : Host W).

(** The loop of [getTokenBalances]: one [getAccount] and one [getMint] per
    token account, on the service's connection and under the Token-2022
    program, and one entry pushed for each. *)
Lemma balances_loop (this : SolanaService) (accounts : list TokenAccountEntry) :
  forall (acc : list JsValue) (st : State W) (balances : list JsValue)
         (s : State W) (t : list Event),
    for_of accounts
      (fun account balances =>
         accountInfo <- call h (getAccount (connection this) (entry_pubkey account)
                                  "confirmed" TOKEN_2022_PROGRAM_ID) ;;
         mintInfo <- call h (getMint (connection this) (acc_mint accountInfo)
                               "confirmed" TOKEN_2022_PROGRAM_ID) ;;
         ret (balances ++ [V1.balance_entry accountInfo mintInfo]))
      acc st
    = {| outcome := Returned balances; final := s; emitted := t |} ->
    exists infos : list (Account * Mint),
      List.length infos = List.length accounts /\
      collect account_lookup t = combine (map entry_pubkey accounts) (map fst infos) /\
      collect mint_lookup t = map (fun i => (acc_mint (fst i), snd i)) infos /\
      collect owner_accounts t = [] /\
      collect owner_query t = [] /\
      collect constructed_key t = [] /\
      Forall (fun s => s = (connection this, "confirmed", TOKEN_2022_PROGRAM_ID))
        (collect lookup_settings t) /\
      List.length t = (2 * List.length accounts)%nat /\
      balances = acc ++ map (fun i => V1.balance_entry (fst i) (snd i)) infos.
Proof.
  induction accounts as [| account accounts IH]; intros acc st balances s t; cbn [for_of].
  - intros [= <- <- <-]. exists []. rewrite app_nil_r. repeat split. constructor.
  - unfold bind, call, ret. cbn.
    step; [| discriminate]. step; [| discriminate].
    match goal with
    | |- context [for_of accounts ?body ?acc' ?st'] =>
        destruct (for_of accounts body acc' st') as [[b | e] s' t'] eqn:R
    end; [| discriminate].
    intros [= <- <- <-]. apply IH in R.
    destruct R as (infos & Hlen & Ha & Hm & Ho & Hq & Hk & Hs & Hn & Hb).
    exists ((r, r0) :: infos). cbn. rewrite Ha, Hm, Ho, Hq, Hk, Hb, Hlen, Hn, <- app_assoc.
    repeat split; try lia.
    constructor; [reflexivity |]. constructor; [reflexivity | exact Hs].
Qed.

End Loops.

(** C7.  A token-balances request answered with status 200 has built
    the owner's key from the [ownerAddress] of the query and asked
    [getTokenAccountsByOwner], once, for the token accounts of that owner
    under the Token-2022 program on the service's connection.  It answers
    [{ success: true, balances }] where [balances] has one entry for each
    token account returned, in order, made of what [getAccount] returned
    for that account and what [getMint] returned for its mint, both asked
    under the Token-2022 program.  Every entry has exactly the properties
    [mint], the mint's text, [amount], the amount as a number, [decimals],
    the mint's decimals, [isTransferHookEnabled], true exactly when
    [transferHookProgramId] is not [null] (so also when it is missing),
    and [symbol], empty. *)
Theorem token_balances_response {W} (h : Host W) (req : Request) (st : State W)
    (res : Response) :
  endpoint req = (GET, "/api/token-balances") ->
  outcome (V1.handle h req st) = Returned (Some res) ->
  status res = 200%nat ->
  let evs := emitted (V1.handle h req st) in
  exists (this : SolanaService) (owner : PublicKey)
         (accounts : list TokenAccountEntry) (infos : list (Account * Mint))
         (entries : list JsValue),
    solanaService st = Some this /\
    collect constructed_key evs = [(lookup_prop "ownerAddress" (req_query req), owner)] /\
    collect owner_query evs
    = [(connection this, owner, TOKEN_2022_PROGRAM_ID, accounts)] /\
    collect owner_accounts evs = [accounts] /\
    List.length infos = List.length accounts /\
    collect account_lookup evs = combine (map entry_pubkey accounts) (map fst infos) /\
    collect mint_lookup evs = map (fun i => (acc_mint (fst i), snd i)) infos /\
    Forall (fun s => s = (connection this, "confirmed", TOKEN_2022_PROGRAM_ID))
      (collect lookup_settings evs) /\
    List.length evs = (2 + 2 * List.length accounts)%nat /\
    res = res_json
            (JObj [("success", JBool true);
                   ("balances",
                    JArr (map (fun i =>
                                 JObj [ ("mint", JStr (toBase58 (acc_mint (fst i))));
                                        ("amount", JNum (Number_of_Z (acc_amount (fst i))));
                                        ("decimals", JNum (mint_decimals (snd i)));
                                        ("isTransferHookEnabled",
                                         JBool (strict_not_null
                                                  (mint_transferHookProgramId (snd i))));
                                        ("symbol", JStr "") ])
                              infos))]) /\
    body res = JObj [("success", JBool true); ("balances", JArr entries)] /\
    Forall2
      (fun i entry =>
         prop_names entry
         = ["mint"; "amount"; "decimals"; "isTransferHookEnabled"; "symbol"] /\
         get_prop "mint" entry = JStr (toBase58 (acc_mint (fst i))) /\
         get_prop "amount" entry = JNum (Number_of_Z (acc_amount (fst i))) /\
         get_prop "decimals" entry = JNum (mint_decimals (snd i)) /\
         get_prop "symbol" entry = JStr "" /\
         (get_prop "isTransferHookEnabled" entry = JBool true <->
          mint_transferHookProgramId (snd i) <> Null) /\
         (get_prop "isTransferHookEnabled" entry = JBool false <->
          mint_transferHookProgramId (snd i) = Null))
      infos entries.
Proof.
  intros E Hout Hst evs. subst evs.
  destruct (solanaService st) as [this |] eqn:S.
  2:{ rewrite handle_not_initialized in Hout.
      - injection Hout as <-. discriminate.
      - exact S.
      - rewrite E. cbn. tauto. }
  revert Hout. rewrite (handle_token_balances h req this st E S).
  unfold respond. cbn [emitted outcome].
  unfold V1.getTokenBalances, bind, call, ret. cbn.
  step; [| intros [= <-]; discriminate].
  step; [| intros [= <-]; discriminate].
  match goal with
  | |- context [for_of r0 ?body ?acc ?st'] =>
      destruct (for_of r0 body acc st') as [[b | e] s t] eqn:R
  end; cbn; [| intros [= <-]; discriminate].
  apply (balances_loop h this) in R.
  destruct R as (infos & Hlen & Ha & Hm & Ho & Hq & Hk & Hs & Hn & ->).
  intros [= <-]. exists this, r, r0, infos.
  exists (map (fun i => V1.balance_entry (fst i) (snd i)) infos).
  rewrite Ha, Hm, Ho, Hq, Hk, Hn. cbn.
  split; [reflexivity |]. split; [reflexivity |]. split; [reflexivity |].
  split; [reflexivity |]. split; [exact Hlen |]. split; [reflexivity |].
  split; [reflexivity |]. split; [exact Hs |]. split; [reflexivity |].
  split; [reflexivity |]. split; [reflexivity |].
  clear. induction infos as [| i infos IH]; cbn [map]; constructor; [| exact IH].
  unfold V1.balance_entry. cbn.
  repeat split; try reflexivity;
    destruct (mint_transferHookProgramId (snd i)); cbn; congruence.
Qed.

(** C10.  The two variants' [getTokenBalances] run alike: from the same
    service, owner address, state and SDK they make the same calls and end
    with the same list of entries or the same error. *)
Theorem getTokenBalances_variants_agree {W} (h : Host W) (this : SolanaService)
    (ownerAddress : JsValue) (st : State W) :
  V1.getTokenBalances h this ownerAddress st = V2.getTokenBalances h this ownerAddress st.
Proof.
  unfold V1.getTokenBalances, V2.getTokenBalances, V1.balance_entry. reflexivity.
Qed.

Section Transactions.
Context {W : Type} (h : Host W).

(** The loop of [getTransactions]: one [getTransaction] per signature, an
    entry pushed when it came back non-null. *)
Lemma transactions_loop (this : SolanaService) (sigs : list ConfirmedSignatureInfo) :
  forall (acc : list JsValue) (st : State W) (txs : list JsValue)
         (s : State W) (t : list Event),
    for_of sigs
      (fun sigInfo transactions =>
         tx <- call h (getTransaction (connection this) (signature sigInfo)
                         "confirmed" (Some 0%nat)) ;;
         match tx with
         | Some _ => ret (transactions ++ [V1.transaction_entry sigInfo])
         | None => ret transactions
         end)
      acc st
    = {| outcome := Returned txs; final := s; emitted := t |} ->
    exists lookups : list (option TransactionResponse),
      List.length lookups = List.length sigs /\
      collect transaction_lookup t = combine (map signature sigs) lookups /\
      collect signature_query t = [] /\
      txs = acc ++ map V1.transaction_entry (kept sigs lookups).
Proof.
  induction sigs as [| sigInfo sigs IH]; intros acc st txs s t; cbn [for_of].
  - intros [= <- <- <-]. exists []. rewrite app_nil_r. repeat split.
  - unfold bind, call, ret. cbn.
    step; [| discriminate].
    destruct r as [tx |]; cbn;
      match goal with
      | |- context [for_of sigs ?body ?acc' ?st'] =>
          destruct (for_of sigs body acc' st') as [[b | e] s' t'] eqn:R
      end; try discriminate;
      intros [= <- <- <-]; apply IH in R;
      destruct R as (lookups & Hlen & Hl & Hq & Hb).
    + exists (Some tx :: lookups). unfold kept in *. cbn.
      rewrite Hl, Hq, Hb, Hlen, <- app_assoc. repeat split.
    + exists (None :: lookups). unfold kept in *. cbn.
      rewrite Hl, Hq, Hb, Hlen. repeat split.
Qed.

Lemma transactions_loop_limits (this : SolanaService) (sigs : list ConfirmedSignatureInfo) :
  forall (acc : list JsValue) (st : State W) (o : Outcome (list JsValue))
         (s : State W) (t : list Event),
    for_of sigs
      (fun sigInfo transactions =>
         tx <- call h (getTransaction (connection this) (signature sigInfo)
                         "confirmed" (Some 0%nat)) ;;
         match tx with
         | Some _ => ret (transactions ++ [V1.transaction_entry sigInfo])
         | None => ret transactions
         end)
      acc st
    = {| outcome := o; final := s; emitted := t |} ->
    collect signature_limit t = [].
Proof.
  induction sigs as [| sigInfo sigs IH]; intros acc st o s t; cbn [for_of].
  - intros [= <- <- <-]. reflexivity.
  - unfold bind, call, ret. cbn.
    step; [| intros [= <- <- <-]; reflexivity].
    destruct r as [tx |]; cbn;
      match goal with
      | |- context [for_of sigs ?body ?acc' ?st'] =>
          destruct (for_of sigs body acc' st') as [[b | e] s' t'] eqn:R
      end; intros [= <- <- <-]; apply IH in R; cbn; exact R.
Qed.

(** Whatever happens, [getTransactions] with no [limit] argument asks for
    10 signatures. *)
Lemma getTransactions_limits (this : SolanaService) (publicKey : JsValue) (st : State W) :
  Forall (fun n => n = 10%nat)
    (collect signature_limit (emitted (V1.getTransactions h this publicKey None st))).
Proof.
  unfold V1.getTransactions, V1.default_limit. cbn [truthy_object negb].
  unfold try_catch, bind, call, ret, throw. cbn.
  step; [| constructor]. step; [| repeat constructor].
  match goal with
  | |- context [for_of r0 ?body ?acc ?st'] =>
      destruct (for_of r0 body acc st') as [[b | e] s t] eqn:R
  end; cbn; apply (transactions_loop_limits this) in R;
    rewrite ?app_nil_r, R; repeat constructor.
Qed.

Lemma kept_length (sigs : list ConfirmedSignatureInfo)
    (lookups : list (option TransactionResponse)) :
  (List.length (kept sigs lookups) <= List.length sigs)%nat.
Proof.
  unfold kept. rewrite length_map.
  eapply Nat.le_trans; [apply filter_length_le|].
  rewrite length_combine. apply Nat.le_min_l.
Qed.

Lemma kept_In (sigs : list ConfirmedSignatureInfo)
    (lookups : list (option TransactionResponse)) (s : ConfirmedSignatureInfo) :
  In s (kept sigs lookups) -> In s sigs.
Proof.
  unfold kept. intros Hin. apply in_map_iff in Hin as ([s' l] & <- & Hf).
  apply filter_In in Hf as [Hc _]. apply in_combine_l in Hc. exact Hc.
Qed.

(** What [getTransactions] with no [limit] argument returns. *)
Lemma getTransactions_run (this : SolanaService) (publicKey : JsValue) (st : State W)
    (txs : list JsValue) :
  outcome (V1.getTransactions h this publicKey None st) = Returned txs ->
  exists sigs lookups,
    collect signature_query (emitted (V1.getTransactions h this publicKey None st))
    = [(10%nat, sigs)] /\
    List.length lookups = List.length sigs /\
    collect transaction_lookup (emitted (V1.getTransactions h this publicKey None st))
    = combine (map signature sigs) lookups /\
    txs = map V1.transaction_entry (kept sigs lookups).
Proof.
  unfold V1.getTransactions, V1.default_limit. cbn [truthy_object negb].
  unfold try_catch, bind, call, ret, throw. cbn.
  step; [| discriminate]. step; [| discriminate].
  match goal with
  | |- context [for_of r0 ?body ?acc ?st'] =>
      destruct (for_of r0 body acc st') as [[b | e] s t] eqn:R
  end; cbn; [| discriminate].
  apply (transactions_loop this) in R. destruct R as (lookups & Hlen & Hl & Hq & ->).
  intros [= <-]. exists r0, lookups. rewrite Hl, Hq. repeat split. exact Hlen.
Qed.

End Transactions.

(** C9, as the code has it.  A request to the transactions route (or to
    the server wallet's) asks [getSignaturesForAddress] for 10 signatures,
    the default limit, and for no other number.  Answered with status 200,
    it answers with one entry for each returned signature whose
    [getTransaction] came back non-null, in order: no more entries than
    signatures, so at most 10 when the SDK returns no more than asked.  An
    entry's [status] is ['failed'] exactly when the signature's [err] is
    truthy, an object or a non-empty string, and ['confirmed'] when it is
    [null], missing or the empty string; its [timestamp] is the
    signature's [blockTime] times 1000 (exactly so for an integer number
    of seconds whose product is below 2^53). *)
Theorem transactions_response {W} (h : Host W) (req : Request) (st : State W)
    (res : Response) :
  endpoint req = (GET, "/api/transactions") \/
  endpoint req = (GET, "/api/server-wallet-transactions") ->
  outcome (V1.handle h req st) = Returned (Some res) ->
  Forall (fun n => n = 10%nat)
    (collect signature_limit (emitted (V1.handle h req st))) /\
  (status res = 200%nat ->
   exists sigs lookups,
     collect signature_query (emitted (V1.handle h req st)) = [(10%nat, sigs)] /\
     List.length lookups = List.length sigs /\
     collect transaction_lookup (emitted (V1.handle h req st))
     = combine (map signature sigs) lookups /\
     res = res_json (JObj [("success", JBool true);
                           ("transactions",
                            JArr (map V1.transaction_entry (kept sigs lookups)))]) /\
     (List.length (map V1.transaction_entry (kept sigs lookups)) <= List.length sigs)%nat /\
     ((List.length sigs <= 10)%nat ->
      (List.length (map V1.transaction_entry (kept sigs lookups)) <= 10)%nat) /\
     Forall (fun s =>
               let entry := V1.transaction_entry s in
               get_prop "signature" entry = JStr (signature s) /\
               (get_prop "status" entry = JStr "failed" <->
                exists e, err s = Present e /\ e <> ErrString "") /\
               (get_prop "status" entry = JStr "confirmed" <->
                err s = Null \/ err s = Undefined \/ err s = Present (ErrString "")) /\
               get_prop "timestamp" entry
               = JNum (js_mul (ToNumber_blockTime (blockTime s)) (Number_of_Z 1000)) /\
               (forall t : Z,
                  blockTime s = Present (Number_of_Z t) ->
                  0 <= t -> t * 1000 < 2 ^ 53 ->
                  get_prop "timestamp" entry = JNum (Number_of_Z (t * 1000))))
            (kept sigs lookups)).
Proof.
  intros E Hout.
  destruct (solanaService st) as [this |] eqn:S.
  2:{ rewrite handle_not_initialized in Hout |- *.
      - injection Hout as <-. split; [constructor | discriminate].
      - exact S.
      - destruct E as [-> | ->]; cbn; tauto.
      - exact S.
      - destruct E as [-> | ->]; cbn; tauto. }
  assert (Hrun : exists publicKey,
      V1.handle h req st
      = respond (V1.getTransactions h this publicKey None st)
          (fun transactions =>
             res_json (JObj [("success", JBool true); ("transactions", JArr transactions)]))
          (fun e => res_status_json 500 (V1.failure e))).
  { destruct E as [E | E].
    - eexists. exact (handle_transactions h req this st E S).
    - eexists. exact (handle_server_wallet_transactions h req this st E S). }
  destruct Hrun as (publicKey & Heq). rewrite Heq in Hout |- *. unfold respond in *.
  cbn [outcome emitted] in *.
  split; [apply getTransactions_limits |].
  intros Hst.
  destruct (outcome (V1.getTransactions h this publicKey None st)) as [txs | e] eqn:O.
  2:{ injection Hout as <-. discriminate. }
  destruct (getTransactions_run h this publicKey st txs O)
    as (sigs & lookups & Hq & Hlen & Hl & ->).
  injection Hout as <-.
  exists sigs, lookups.
  split; [exact Hq |]. split; [exact Hlen |]. split; [exact Hl |].
  split; [reflexivity |].
  assert (Hkept : (List.length (map V1.transaction_entry (kept sigs lookups))
                   <= List.length sigs)%nat).
  { rewrite length_map. apply kept_length. }
  split; [exact Hkept |]. split; [intros Hlimit; lia |].
  apply Forall_forall. intros s _.
  unfold V1.transaction_entry. cbn.
  split; [reflexivity |]. split; [| split; [| split; [reflexivity |]]].
  - destruct (err s) as [| | [repr | text]]; cbn.
    + split; [discriminate | intros (e & C & _); discriminate C].
    + split; [discriminate | intros (e & C & _); discriminate C].
    + split; [intros _; eexists; split; [reflexivity | discriminate] | reflexivity].
    + destruct (String.eqb_spec text "") as [-> | Hne]; cbn.
      * split; [discriminate | intros (e & [= <-] & C); contradiction].
      * split; [intros _; eexists; split; [reflexivity |]; congruence | reflexivity].
  - destruct (err s) as [| | [repr | text]]; cbn.
    + split; [auto | reflexivity].
    + split; [auto | reflexivity].
    + split; [discriminate | intros [C | [C | C]]; discriminate C].
    + destruct (String.eqb_spec text "") as [-> | Hne]; cbn.
      * split; [auto | reflexivity].
      * split; [discriminate | intros [C | [C | C]]; try discriminate C].
        injection C as ->. contradiction.
  - intros t -> Ht0 Ht1. cbn [ToNumber_blockTime]. f_equal.
    apply js_mul_exact; unfold prec; lia.
Qed.

(** C9, as stated, fails on a signature whose [err] is the empty string: it
    is not [null], and the entry reads ['confirmed'], because the code
    tests [err] for truthiness. *)
Lemma empty_err_reads_confirmed :
  let run := V1.handle Demo.blank_err_host Demo.get_transactions Demo.state in
  exists s entry,
    collect signature_query (emitted run) = [(10%nat, [s])] /\
    err s <> Null /\
    outcome run
    = Returned (Some (res_json (JObj [("success", JBool true);
                                      ("transactions", JArr [entry])]))) /\
    get_prop "status" entry = JStr "confirmed" /\
    get_prop "status" entry <> JStr "failed".
Proof.
  eexists _, _. split; [vm_compute; reflexivity |].
  split; [discriminate |]. split; [vm_compute; reflexivity |].
  split; [reflexivity | discriminate].
Qed.

(* ================================================================== *)
(** * The theorems at work on the concrete host *)

(** The error response theorem on an issue-badge request with a malformed
    mint address. *)
Lemma sdk_error_response_demo :
  let ev := Ev (New_PublicKey (JStr "not-a-key"))
               (Thrown (new_Error "Invalid public key input")) in
  let res := res_status_json 500
               (JObj [("success", JBool false);
                      ("error", JStr "Invalid public key input: Invalid public key input")]) in
  In ev (emitted (V1.handle Demo.host Demo.post_issue_badge_bad_key Demo.state)) /\
  status res = 500%nat /\
  body res
  = JObj [("success", JBool false);
          ("error", JStr ("Invalid public key input: " ++ "Invalid public key input"))].
Proof.
  intros ev res.
  assert (Hin : In ev (emitted (V1.handle Demo.host Demo.post_issue_badge_bad_key Demo.state)))
    by (vm_compute; left; reflexivity).
  assert (Hout : outcome (V1.handle Demo.host Demo.post_issue_badge_bad_key Demo.state)
                 = Returned (Some res)) by (vm_compute; reflexivity).
  destruct (sdk_error_response Demo.host Demo.post_issue_badge_bad_key Demo.service
              Demo.state res ev (new_Error "Invalid public key input")
              eq_refl Hout Hin eq_refl) as (Hs & _ & Hb & _).
  split; [exact Hin |]. split; [exact Hs |]. exact (Hb eq_refl).
Defined.


(** The transfer theorems on a transfer of 5 tokens. *)
Lemma transfer_instruction_submitted_demo :
  let req := Demo.post_transfer (JNum (Number_of_Z 5)) in
  endpoint req = (POST, "/api/transfer") /\
  solanaService Demo.state = Some Demo.service /\
  collect sent_transaction (emitted (V1.handle Demo.host req Demo.state)) <> [].
Proof.
  intros req.
  destruct (transfer_instruction_submitted Demo.host req Demo.service Demo.state
              eq_refl eq_refl) as [_ Hsent].
  split; [reflexivity |]. split; [reflexivity |].
  apply (Hsent (res_json (JObj [("success", JBool true)]))).
  - vm_compute. reflexivity.
  - reflexivity.
Defined.

Lemma transfer_raw_amount_demo :
  let req := Demo.post_transfer (JNum (Number_of_Z 5)) in
  get_prop "amount" (req_body req) = JNum (Number_of_Z (Z.of_nat 5)) /\
  Z.of_nat 5 * 10 ^ 9 < 2 ^ 53 /\
  collect hook_transfer_amount (emitted (V1.handle Demo.host req Demo.state))
  = [(js_mul (Number_of_Z 5) (Math_pow (Number_of_Z 10) 9), 9%nat)] /\
  collect plain_transfer_amount (emitted (V2.handle Demo.host Demo.service req Demo.state))
  = [js_mul (Number_of_Z 5) (Math_pow (Number_of_Z 10) 9)] /\
  List.length (collect associated_account
                 (emitted (V2.handle Demo.host Demo.service req Demo.state))) = 2%nat /\
  number_to_Z (js_mul (Number_of_Z 5) (Math_pow (Number_of_Z 10) 9)) = Some 5000000000.
Proof.
  intros req.
  assert (Hlt : Z.of_nat 5 * 10 ^ 9 < 2 ^ 53) by reflexivity.
  destruct (transfer_raw_amount Demo.host req Demo.service (Number_of_Z 5) Demo.state
              eq_refl eq_refl eq_refl) as (_ & Hcall & _ & _ & Hcall2 & Hiff2 & _ & _ & Hexact).
  destruct (Hexact 5%nat eq_refl Hlt) as [_ Hvalue].
  assert (H2 : collect plain_transfer_amount
                 (emitted (V2.handle Demo.host Demo.service req Demo.state))
               = [js_mul (Number_of_Z 5) (Math_pow (Number_of_Z 10) 9)]).
  { apply (Hcall2 (res_json (JObj [("success", JBool true)]))).
    - vm_compute. reflexivity.
    - reflexivity. }
  split; [reflexivity |]. split; [exact Hlt |]. split; [| split; [exact H2 | split]].
  - apply (Hcall (res_json (JObj [("success", JBool true)]))).
    + vm_compute. reflexivity.
    + reflexivity.
  - apply Hiff2. exact H2.
  - exact Hvalue.
Defined.

(** The create-token theorem. *)
Lemma create_token_response_demo :
  let res := res_json (JObj [("success", JBool true);
                             ("mintAddress", JStr (toBase58 (kp_publicKey Demo.fresh_keypair)))]) in
  outcome (V1.handle Demo.host Demo.post_create_token Demo.state) = Returned (Some res) /\
  exists mintKeypair,
    collect generated_keypair (emitted (V1.handle Demo.host Demo.post_create_token Demo.state))
    = [mintKeypair] /\
    res = res_json (JObj [("success", JBool true);
                          ("mintAddress", JStr (toBase58 (kp_publicKey mintKeypair)))]).
Proof.
  intros res.
  assert (Hout : outcome (V1.handle Demo.host Demo.post_create_token Demo.state)
                 = Returned (Some res)) by (vm_compute; reflexivity).
  destruct (create_token_response Demo.host Demo.post_create_token Demo.state res
              eq_refl Hout eq_refl) as (this & kp & len & lamports & _ & Hkp & Hres & _).
  split; [exact Hout |]. exists kp. split; [exact Hkp | exact Hres].
Defined.

(** The token-balances theorem: two token accounts of the owner asked
    about, two entries. *)
Lemma token_balances_response_demo :
  exists res accounts (infos : list (Account * Mint)) entries,
    outcome (V1.handle Demo.host Demo.get_token_balances Demo.state) = Returned (Some res) /\
    status res = 200%nat /\
    collect owner_query (emitted (V1.handle Demo.host Demo.get_token_balances Demo.state))
    = [(connection Demo.service, Demo.an_owner, TOKEN_2022_PROGRAM_ID, accounts)] /\
    List.length infos = List.length accounts /\
    List.length accounts = 2%nat /\
    body res = JObj [("success", JBool true); ("balances", JArr entries)] /\
    List.length entries = 2%nat.
Proof.
  eexists.
  assert (Hout : outcome (V1.handle Demo.host Demo.get_token_balances Demo.state)
                 = Returned (Some ?[res])) by (vm_compute; reflexivity).
  destruct (token_balances_response Demo.host Demo.get_token_balances Demo.state _
              eq_refl Hout eq_refl)
    as (this & owner & accounts & infos & entries & Hs & Hk & Hq & _ & Hlen & _ & _ & _ &
        Hn & _ & Hb & Hentries).
  injection Hs as <-.
  assert (Ho : owner = Demo.an_owner).
  { vm_compute in Hk. injection Hk as <-. reflexivity. }
  subst owner.
  assert (Ha : List.length accounts = 2%nat).
  { assert (Hev : List.length
                    (emitted (V1.handle Demo.host Demo.get_token_balances Demo.state))
                  = 6%nat) by (vm_compute; reflexivity).
    rewrite Hev in Hn. lia. }
  exists accounts, infos, entries. split; [exact Hout |]. split; [reflexivity |].
  split; [exact Hq |]. split; [exact Hlen |]. split; [exact Ha |]. split; [exact Hb |].
  apply Forall2_length in Hentries. lia.
Defined.

(** The transactions theorem: three signatures returned, one of them
    pruned from the ledger, two entries. *)
Lemma transactions_response_demo :
  exists res sigs lookups,
    outcome (V1.handle Demo.host Demo.get_transactions Demo.state) = Returned (Some res) /\
    status res = 200%nat /\
    collect signature_query (emitted (V1.handle Demo.host Demo.get_transactions Demo.state))
    = [(10%nat, sigs)] /\
    (List.length sigs <= 10)%nat /\
    (List.length (map V1.transaction_entry (kept sigs lookups)) <= 10)%nat.
Proof.
  eexists.
  assert (Hout : outcome (V1.handle Demo.host Demo.get_transactions Demo.state)
                 = Returned (Some ?[res])) by (vm_compute; reflexivity).
  destruct (transactions_response Demo.host Demo.get_transactions Demo.state _
              (or_introl eq_refl) Hout) as [_ Hentries].
  destruct (Hentries eq_refl) as (sigs & lookups & Hq & _ & _ & _ & _ & Hlen & _).
  assert (Hsigs : (List.length sigs <= 10)%nat).
  { vm_compute in Hq. injection Hq as <-. cbn. lia. }
  exists sigs, lookups. split; [exact Hout |]. split; [reflexivity |].
  split; [exact Hq |]. split; [exact Hsigs | exact (Hlen Hsigs)].
Defined.

(* ================================================================== *)
(** * Beyond the documented properties: the routes as a whole *)

Section NoEscape.
Context {W : Type}.

Lemma returns_ret {A} (a : A) (st : State W) : exists x, outcome (ret a st) = Returned x.
Proof. exists a. reflexivity. Qed.

(** A [catch] that answers lets nothing through. *)
Lemma returns_try_answer {A} (m : M W A) (answer : Error -> A) (st : State W) :
  exists x, outcome (try_catch m (fun e => ret (answer e)) st) = Returned x.
Proof.
  unfold try_catch, ret. destruct (m st) as [[a | e] s t]; cbn; eexists; reflexivity.
Qed.

Lemma returns_guarded (body : SolanaService -> M W Response) (absent : Response)
    (st : State W) :
  (forall this st', exists x, outcome (body this st') = Returned x) ->
  exists x,
    outcome (bind read_solanaService
               (fun s => match s with
                         | None => ret absent
                         | Some svc => body svc
                         end) st) = Returned x.
Proof.
  intros Hbody. unfold bind, read_solanaService.
  destruct (solanaService st) as [this |].
  - destruct (Hbody this st) as (x & Hx).
    destruct (body this st) as [o s t]. cbn in *. exists x. exact Hx.
  - cbn. eexists. reflexivity.
Qed.

Lemma returns_some (m : M W Response) (st : State W) :
  (exists x, outcome (m st) = Returned x) ->
  exists r, outcome (bind m (fun res => ret (Some res)) st) = Returned r.
Proof.
  intros (x & Hx). unfold bind, ret. destruct (m st) as [o s t]. cbn in *. subst o.
  eexists. reflexivity.
Qed.

End NoEscape.

Section Escapes.
Context {W : Type} (h : Host W).

(** A handler of the first variant either answers, or is one of the two
    that destructure the body, run with the service in place on a request
    without a body: then it throws before it has called anything. *)
Lemma handler_escape (req : Request) (st : State W) (m : Method) (p : string)
    (hd : V1.Handler) :
  In (m, p, hd) (V1.routes h) ->
  (In (m, p) body_endpoints /\ solanaService st <> None /\
   nullish (req_body req) = true /\
   (res <- hd req ;; ret (Some res)) st
   = throw (TypeError_destructure h (req_body req)) st) \/
  (~ (In (m, p) body_endpoints /\ solanaService st <> None /\
      nullish (req_body req) = true) /\
   exists r, outcome ((res <- hd req ;; ret (Some res)) st) = Returned r).
Proof.
  unfold V1.routes. cbn [In].
  intros [H | [H | [H | [H | [H | [H | [H | [H | [H | []]]]]]]]]];
    injection H as <- <- <-.
  - right. split; [cbn; intuition discriminate |].
    apply returns_some. apply returns_guarded; intros; apply returns_try_answer.
  - destruct (solanaService st) as [this |] eqn:S.
    + destruct (nullish (req_body req)) eqn:B.
      * left. destruct (run_without_body h req this st S B) as [Hi _].
        repeat split; [cbn; tauto | discriminate | exact Hi].
      * right. split; [intros (_ & _ & C); discriminate C |].
        rewrite (run_issue_badge h req this st S B). eexists. reflexivity.
    + right. split; [intros (_ & C & _); congruence |].
      unfold V1.issue_badge, bind, read_solanaService, ret. rewrite S. cbn.
      eexists. reflexivity.
  - destruct (solanaService st) as [this |] eqn:S.
    + destruct (nullish (req_body req)) eqn:B.
      * left. destruct (run_without_body h req this st S B) as [_ Ht].
        repeat split; [cbn; tauto | discriminate | exact Ht].
      * right. split; [intros (_ & _ & C); discriminate C |].
        rewrite (run_transfer h req this st S B). eexists. reflexivity.
    + right. split; [intros (_ & C & _); congruence |].
      unfold V1.transfer_route, bind, read_solanaService, ret. rewrite S. cbn.
      eexists. reflexivity.
  - right. split; [cbn; intuition discriminate |].
    apply returns_some. apply returns_guarded; intros; apply returns_try_answer.
  - right. split; [cbn; intuition discriminate |].
    apply returns_some. apply returns_guarded; intros; apply returns_try_answer.
  - right. split; [cbn; intuition discriminate |].
    apply returns_some. apply returns_guarded; intros; apply returns_try_answer.
  - right. split; [cbn; intuition discriminate |].
    apply returns_some. apply returns_ret.
  - right. split; [cbn; intuition discriminate |].
    apply returns_some. apply returns_guarded; intros; apply returns_try_answer.
  - right. split; [cbn; intuition discriminate |].
    apply returns_some. apply returns_guarded; intros; apply returns_try_answer.
Qed.

Lemma handler2_escape (this : SolanaService) (req : Request) (st : State W) (m : Method)
    (p : string) (hd : V2.Handler) :
  In (m, p, hd) (V2.routes h this) ->
  (In (m, p) body_endpoints /\ nullish (req_body req) = true /\
   (res <- hd req ;; ret (Some res)) st
   = throw (TypeError_destructure h (req_body req)) st) \/
  (~ (In (m, p) body_endpoints /\ nullish (req_body req) = true) /\
   exists r, outcome ((res <- hd req ;; ret (Some res)) st) = Returned r).
Proof.
  unfold V2.routes. cbn [In].
  intros [H | [H | [H | [H | [H | [H | [H | [H | []]]]]]]]];
    injection H as <- <- <-.
  - right. split; [cbn; intuition discriminate |].
    apply returns_some. apply returns_try_answer.
  - destruct (nullish (req_body req)) eqn:B.
    + left. destruct (run2_without_body h this req st B) as [Hi _].
      repeat split; [cbn; tauto | exact Hi].
    + right. split; [intros (_ & C); discriminate C |].
      rewrite (run2_issue_badge h this req st B). eexists. reflexivity.
  - destruct (nullish (req_body req)) eqn:B.
    + left. destruct (run2_without_body h this req st B) as [_ Ht].
      repeat split; [cbn; tauto | exact Ht].
    + right. split; [intros (_ & C); discriminate C |].
      rewrite (run2_transfer h this req st B). eexists. reflexivity.
  - right. split; [cbn; intuition discriminate |].
    apply returns_some. apply returns_try_answer.
  - right. split; [cbn; intuition discriminate |].
    apply returns_some. apply returns_try_answer.
  - right. split; [cbn; intuition discriminate |].
    apply returns_some. apply returns_ret.
  - right. split; [cbn; intuition discriminate |].
    apply returns_some. apply returns_try_answer.
  - right. split; [cbn; intuition discriminate |].
    apply returns_some. apply returns_try_answer.
Qed.

(** The requests handed to one of the two routes that destructure the
    body. *)
Lemma reads_body_routed (req : Request) :
  routed_to req (POST, "/api/issue-badge") || routed_to req (POST, "/api/transfer") = true <->
  exists r, In r body_endpoints /\ routed_to req r = true.
Proof.
  rewrite orb_true_iff. unfold body_endpoints. cbn [In]. split.
  - intros [R | R]; eexists; (split; [| exact R]); tauto.
  - intros (r & [<- | [<- | []]] & R); tauto.
Qed.

End Escapes.

(** X1.  A handler lets an error escape in one case only: an issue-badge
    or transfer request without a body ([req.body] undefined or null),
    whose destructuring throws a [TypeError] outside the [try]; in the
    first variant only once the service exists, since the guard comes
    first.  No call has been made by then and the state is as it was.  The
    first variant's application replies to it with the error-handling
    middleware's text ['Something broke!'] and status 500, and so always
    replies; the second variant leaves the error to the framework.  Every
    other request is answered by its handler, whatever the SDK does. *)
Theorem only_a_missing_body_escapes {W} (h : Host W) (this : SolanaService)
    (req : Request) (st : State W) :
  let reads_body :=
    routed_to req (POST, "/api/issue-badge") || routed_to req (POST, "/api/transfer") in
  ((exists e, outcome (V1.handle h req st) = Thrown e) <->
   solanaService st <> None /\ reads_body = true /\ nullish (req_body req) = true) /\
  (forall e, outcome (V1.handle h req st) = Thrown e ->
     e = TypeError_destructure h (req_body req) /\
     emitted (V1.handle h req st) = [] /\
     final (V1.handle h req st) = st /\
     outcome (V1.app h req st) = Returned (Some (Text 500 "Something broke!"))) /\
  (exists reply, outcome (V1.app h req st) = Returned reply) /\
  ((exists e, outcome (V2.handle h this req st) = Thrown e) <->
   reads_body = true /\ nullish (req_body req) = true) /\
  (forall e, outcome (V2.handle h this req st) = Thrown e ->
     e = TypeError_destructure h (req_body req) /\
     emitted (V2.handle h this req st) = [] /\
     final (V2.handle h this req st) = st).
Proof.
  intros reads_body.
  assert (V1cases :
    (solanaService st <> None /\ reads_body = true /\ nullish (req_body req) = true /\
     V1.handle h req st = throw (TypeError_destructure h (req_body req)) st) \/
    (~ (solanaService st <> None /\ reads_body = true /\ nullish (req_body req) = true) /\
     exists r, outcome (V1.handle h req st) = Returned r)).
  { destruct (handle_routed h req) as [N | (m & p & hd & Hin & R & Heq)].
    - right. rewrite N. split; [| eexists; reflexivity].
      intros (_ & Hb & _). apply reads_body_routed in Hb as (r & Hr & R).
      assert (Hd : exists hd, In (fst r, snd r, hd) (V1.routes h)).
      { unfold body_endpoints in Hr. cbn [In] in Hr.
        destruct Hr as [<- | [<- | []]]; eexists; cbn; eauto 6. }
      destruct Hd as (hd & Hin). destruct r as [m p].
      pose proof (handle_routed_to h req m p hd Hin R) as Heq.
      rewrite N in Heq.
      assert (C : outcome (ret (W := W) (None (A := Response)) st)
                  = outcome ((res <- hd req ;; ret (Some res)) st)) by (rewrite Heq; reflexivity).
      unfold bind, ret in C. destruct (hd req st) as [[x | e] s t]; discriminate C.
    - rewrite Heq.
      destruct (handler_escape h req st m p hd Hin)
        as [(Hb & Hs & Hn & Hthrow) | (Hno & Hret)].
      + left. repeat split; try assumption.
        apply reads_body_routed. exists (m, p). split; assumption.
      + right. split; [| exact Hret].
        intros (Hs & Hb & Hn). apply Hno. repeat split; try assumption.
        apply reads_body_routed in Hb as (r & Hr & R').
        assert (Hreg : In r (registered ++ [(GET, "/health")])).
        { unfold body_endpoints in Hr. cbn [In] in Hr.
          destruct Hr as [<- | [<- | []]]; cbn; tauto. }
        rewrite <- (routed_unique req r (m, p) Hreg
                      (in_or_app _ _ _ (or_introl (routes_registered h m p hd Hin))) R' R).
        exact Hr. }
  assert (V2cases :
    (reads_body = true /\ nullish (req_body req) = true /\
     V2.handle h this req st = throw (TypeError_destructure h (req_body req)) st) \/
    (~ (reads_body = true /\ nullish (req_body req) = true) /\
     exists r, outcome (V2.handle h this req st) = Returned r)).
  { destruct (handle2_routed h this req) as [N | (m & p & hd & Hin & R & Heq)].
    - right. rewrite N. split; [| eexists; reflexivity].
      intros (Hb & _). apply reads_body_routed in Hb as (r & Hr & R).
      assert (Hd : exists hd, In (fst r, snd r, hd) (V2.routes h this)).
      { unfold body_endpoints in Hr. cbn [In] in Hr.
        destruct Hr as [<- | [<- | []]]; eexists; cbn; eauto 6. }
      destruct Hd as (hd & Hin). destruct r as [m p].
      pose proof (handle2_routed_to h this req m p hd Hin R) as Heq.
      rewrite N in Heq.
      assert (C : outcome (ret (W := W) (None (A := Response)) st)
                  = outcome ((res <- hd req ;; ret (Some res)) st)) by (rewrite Heq; reflexivity).
      unfold bind, ret in C. destruct (hd req st) as [[x | e] s t]; discriminate C.
    - rewrite Heq.
      destruct (handler2_escape h this req st m p hd Hin)
        as [(Hb & Hn & Hthrow) | (Hno & Hret)].
      + left. repeat split; try assumption.
        apply reads_body_routed. exists (m, p). split; assumption.
      + right. split; [| exact Hret].
        intros (Hb & Hn). apply Hno. split; [| exact Hn].
        apply reads_body_routed in Hb as (r & Hr & R').
        assert (Hreg : In r (registered ++ [(GET, "/health")])).
        { unfold body_endpoints in Hr. cbn [In] in Hr.
          destruct Hr as [<- | [<- | []]]; cbn; tauto. }
        rewrite <- (routed_unique req r (m, p) Hreg
                      (routes2_registered h this m p hd Hin) R' R).
        exact Hr. }
  split; [| split; [| split; [| split]]].
  - destruct V1cases as [(Hs & Hb & Hn & ->) | (Hno & r & Hr)].
    + split; [intros _; repeat split; assumption | intros _; eexists; reflexivity].
    + rewrite Hr. split; [intros (e & C); discriminate C | intros C; destruct (Hno C)].
  - intros e. rewrite app_reply.
    destruct V1cases as [(_ & _ & _ & ->) | (_ & r & ->)]; [| discriminate].
    intros [= <-]. repeat split.
  - rewrite app_reply. eexists. reflexivity.
  - destruct V2cases as [(Hb & Hn & ->) | (Hno & r & Hr)].
    + split; [intros _; split; assumption | intros _; eexists; reflexivity].
    + rewrite Hr. split; [intros (e & C); discriminate C | intros C; destruct (Hno C)].
  - intros e.
    destruct V2cases as [(_ & _ & ->) | (_ & r & ->)]; [| discriminate].
    intros [= <-]. repeat split.
Qed.


(* ================================================================== *)
(** * Start-up *)

Section Startup.
Context {W : Type} (h : Host W).

(** What loading the module does, by cases. *)
Lemma init_run (w : W) :
  outcome (V1.init h (fresh w)) = Returned tt /\
  collect connection_request (emitted (V1.init h (fresh w)))
  = [(V1.RPC_ENDPOINT h, "confirmed", Some 0%nat)] /\
  match solanaService (started h w) with
  | None =>
      truthy_env (SERVER_WALLET_SECRET_KEY (env h)) = false \/
      Exists (fun ev => thrown_by ev <> None) (emitted (V1.init h (fresh w)))
  | Some s =>
      truthy_env (SERVER_WALLET_SECRET_KEY (env h)) = true /\
      Forall (fun ev => thrown_by ev = None) (emitted (V1.init h (fresh w))) /\
      exists conn secret kp,
        emitted (V1.init h (fresh w))
        = [ Ev (New_Connection (V1.RPC_ENDPOINT h) "confirmed" (Some 0%nat)) (Returned conn);
            Ev (JSON_parse (match SERVER_WALLET_SECRET_KEY (env h) with
                            | Some text => text
                            | None => ""
                            end)) (Returned secret);
            Ev (Keypair_fromSecretKey secret) (Returned kp) ] /\
        s = {| connection := conn;
               program := new_Program (TRANSFER_HOOK_PROGRAM_ID h)
                            (new_AnchorProvider conn (new_Wallet kp) "confirmed") |}
  end.
Proof.
  unfold started, V1.init, V1.constructor, fresh.
  unfold try_catch, bind, call, ret, throw, assign_solanaService. cbn.
  step.
  - destruct (truthy_env (SERVER_WALLET_SECRET_KEY (env h))) eqn:K; cbn.
    + step.
      * step.
        -- repeat split; try reflexivity.
           ++ repeat constructor.
           ++ eexists _, _, _. split; reflexivity.
        -- repeat split. right. right. right. left. discriminate.
      * repeat split. right. right. left. discriminate.
    + repeat split. left. reflexivity.
  - repeat split. right. left. discriminate.
Qed.

(** The service the module starts with has one connection, shared with its
    provider, the program at the transfer-hook address, and a wallet whose
    public key is its payer's. *)
Lemma started_service (w : W) (s : SolanaService) :
  solanaService (started h w) = Some s ->
  truthy_env (SERVER_WALLET_SECRET_KEY (env h)) = true /\
  provider_connection (provider (program s)) = connection s /\
  programId (program s) = TRANSFER_HOOK_PROGRAM_ID h /\
  provider_commitment (provider (program s)) = "confirmed" /\
  wallet_publicKey (provider_wallet (provider (program s)))
  = kp_publicKey (wallet_payer (provider_wallet (provider (program s)))).
Proof.
  intros S. pose proof (init_run w) as (_ & _ & H). rewrite S in H.
  destruct H as (K & _ & conn & secret & kp & _ & ->). repeat split. exact K.
Qed.

Lemma serve_started (w : W) (history : list Request) :
  solanaService (V1.serve h history (started h w)) = solanaService (started h w).
Proof. apply serve_keeps_service. Qed.

End Startup.

(** X2.  Loading the module never throws and always begins by opening the
    connection to [RPC_ENDPOINT].  It ends without a service exactly when
    the secret key is unset or empty or one of the constructor's calls
    threw; otherwise the three calls returned, in the order connection,
    [JSON.parse], [Keypair.fromSecretKey], and the service holds that
    connection, shared with its provider, a wallet of that key pair and the
    program at the transfer-hook address. *)
Theorem init_builds_service {W} (h : Host W) (w : W) :
  outcome (V1.init h (fresh w)) = Returned tt /\
  collect connection_request (emitted (V1.init h (fresh w)))
  = [(V1.RPC_ENDPOINT h, "confirmed", Some 0%nat)] /\
  (solanaService (started h w) = None <->
   truthy_env (SERVER_WALLET_SECRET_KEY (env h)) = false \/
   Exists (fun ev => thrown_by ev <> None) (emitted (V1.init h (fresh w)))) /\
  (forall s, solanaService (started h w) = Some s ->
     exists conn secret kp text,
       SERVER_WALLET_SECRET_KEY (env h) = Some text /\ text <> "" /\
       emitted (V1.init h (fresh w))
       = [ Ev (New_Connection (V1.RPC_ENDPOINT h) "confirmed" (Some 0%nat)) (Returned conn);
           Ev (JSON_parse text) (Returned secret);
           Ev (Keypair_fromSecretKey secret) (Returned kp) ] /\
       s = {| connection := conn;
              program := new_Program (TRANSFER_HOOK_PROGRAM_ID h)
                           (new_AnchorProvider conn (new_Wallet kp) "confirmed") |}).
Proof.
  pose proof (init_run h w) as (Ho & Hc & Hs).
  split; [exact Ho |]. split; [exact Hc |]. split.
  - destruct (solanaService (started h w)) as [s |].
    + destruct Hs as (K & Hall & _). split; [discriminate |].
      intros [K' | HE]; [congruence |]. destruct (not_both _ Hall HE).
    + split; [intros _; exact Hs | reflexivity].
  - intros s S. rewrite S in Hs. destruct Hs as (K & _ & conn & secret & kp & Hev & ->).
    destruct (SERVER_WALLET_SECRET_KEY (env h)) as [text |] eqn:Ek; [| discriminate].
    exists conn, secret, kp, text. repeat split; try assumption.
    intros ->. discriminate.
Qed.

Section AfterStart.
Context {W : Type} (h : Host W).

(** The two unguarded-body routes before the service exists. *)
Lemma handle_wallet_status_absent (req : Request) (st : State W) :
  endpoint req = (GET, "/api/wallet-status") ->
  solanaService st = None ->
  V1.handle h req st
  = {| outcome := Returned (Some (res_status_json 500
                    (JObj [("connected", JBool false);
                           ("error", JStr "Backend service not initialized.")])));
       final := st; emitted := [] |}.
Proof.
  intros E S. rewrite (handle_wallet_status h req E).
  unfold V1.wallet_status, bind, read_solanaService, ret. rewrite S.
  reflexivity.
Qed.

Lemma handle_program_info (req : Request) (st : State W) :
  endpoint req = (GET, "/api/program-info") ->
  V1.handle h req st
  = {| outcome :=
         Returned (Some
           match solanaService st with
           | None =>
               res_status_json 500
                 (JObj [("error", JStr "Backend service not initialized.")])
           | Some _ =>
               res_json (JObj [("rpcEndpoint", JStr (V1.RPC_ENDPOINT h));
                               ("transferHookProgramId",
                                JStr (toBase58 (TRANSFER_HOOK_PROGRAM_ID h)))])
           end);
       final := st; emitted := [] |}.
Proof.
  intros E. rewrite (handle_registered h req _ _ (V1.program_info h) E) by (cbn; tauto).
  unfold V1.program_info, try_catch, bind, read_solanaService, ret.
  destruct (solanaService st); reflexivity.
Qed.

Lemma handle_health (req : Request) (st : State W) :
  endpoint req = (GET, "/api/health") ->
  V1.handle h req st
  = {| outcome := Returned (Some (res_json (JObj [("status", JStr "OK")])));
       final := st; emitted := [] |}.
Proof.
  intros E. rewrite (handle_registered h req _ _ V1.health E) by (cbn; tauto).
  reflexivity.
Qed.

(** Without a service no route calls the SDK. *)
Lemma handle_absent_calls_nothing (req : Request) (st : State W) :
  solanaService st = None -> emitted (V1.handle h req st) = [].
Proof.
  intros S. destruct (handle_routed h req) as [N | (m & p & hd & Hin & _ & Heq)].
  - rewrite N. reflexivity.
  - rewrite Heq. unfold V1.routes in Hin. cbn [In] in Hin.
    destruct Hin as [H | [H | [H | [H | [H | [H | [H | [H | [H | []]]]]]]]]];
      injection H as _ _ <-;
      unfold V1.create_token, V1.issue_badge, V1.transfer_route, V1.token_balances,
        V1.transactions_route, V1.server_wallet_transactions, V1.health,
        V1.wallet_status, V1.program_info, bind, read_solanaService, ret;
      rewrite ?S; reflexivity.
Qed.

End AfterStart.

(** X3.  Started without [SERVER_WALLET_SECRET_KEY] (unset or empty), the
    server never has a service, whatever requests it has served: each of
    the six [{ success }] routes answers 500 with
    ['Backend service not initialized.'], wallet-status and program-info
    answer 500 with the same message in their own shapes, health answers
    200, and none of them calls the SDK. *)
Theorem started_without_key {W} (h : Host W) (w : W) (history : list Request)
    (req : Request) :
  truthy_env (SERVER_WALLET_SECRET_KEY (env h)) = false ->
  let st := V1.serve h history (started h w) in
  solanaService st = None /\
  emitted (V1.handle h req st) = [] /\
  (In (endpoint req) guarded_endpoints ->
   outcome (V1.handle h req st)
   = Returned (Some (res_status_json 500
        (JObj [("success", JBool false);
               ("error", JStr "Backend service not initialized.")])))) /\
  (endpoint req = (GET, "/api/wallet-status") ->
   outcome (V1.handle h req st)
   = Returned (Some (res_status_json 500
        (JObj [("connected", JBool false);
               ("error", JStr "Backend service not initialized.")])))) /\
  (endpoint req = (GET, "/api/program-info") ->
   outcome (V1.handle h req st)
   = Returned (Some (res_status_json 500
        (JObj [("error", JStr "Backend service not initialized.")])))) /\
  (endpoint req = (GET, "/api/health") ->
   outcome (V1.handle h req st)
   = Returned (Some (res_json (JObj [("status", JStr "OK")])))).
Proof.
  intros K st.
  assert (S : solanaService st = None).
  { subst st. rewrite serve_started.
    pose proof (init_run h w) as (_ & _ & H).
    destruct (solanaService (started h w)) as [s |]; [| reflexivity].
    destruct H as (K' & _). congruence. }
  split; [exact S |]. split.
  - apply handle_absent_calls_nothing. exact S.
  - split; [| split; [| split]].
    + intros Hep. rewrite (handle_not_initialized h req st S Hep). reflexivity.
    + intros E. rewrite (handle_wallet_status_absent h req st E S). reflexivity.
    + intros E. rewrite (handle_program_info h req st E), S. reflexivity.
    + intros E. rewrite (handle_health h req st E). reflexivity.
Qed.

Section WalletStatus.
Context {W : Type} (h : Host W).

(** wallet-status with the service in place and the key set. *)
Lemma handle_wallet_status_present (req : Request) (this : SolanaService) (st : State W)
    (res : Response) :
  endpoint req = (GET, "/api/wallet-status") ->
  solanaService st = Some this ->
  truthy_env (SERVER_WALLET_SECRET_KEY (env h)) = true ->
  outcome (V1.handle h req st) = Returned (Some res) ->
  (exists kp lamports,
     collect restored_keypair (emitted (V1.handle h req st)) = [kp] /\
     collect balance_lookup (emitted (V1.handle h req st))
     = [(wallet_publicKey (provider_wallet (provider (program this))), lamports)] /\
     res = res_json (JObj [("connected", JBool true);
                           ("publicKey", JStr (toBase58 (kp_publicKey kp)));
                           ("balance", JNum (js_div lamports (Math_pow (Number_of_Z 10) 9)))])) \/
  (exists e,
     collect balance_lookup (emitted (V1.handle h req st)) = [] /\
     res = res_status_json 500
             (JObj [("connected", JBool false); ("error", JStr (message e))])).
Proof.
  intros E S K. rewrite (handle_wallet_status h req E). unfold V1.wallet_status.
  rewrite (guarded_route _ _ st this S).
  unfold V1.getServerWalletBalance. cbn [truthy_object negb orb]. rewrite K.
  unfold try_catch, bind, call, ret, throw. cbn.
  repeat step; intros [= <-].
  - left. eexists _, _. repeat split.
  - right. eexists. split; reflexivity.
  - right. eexists. split; reflexivity.
  - right. eexists. split; reflexivity.
Qed.

End WalletStatus.

(** X4.  Once the module has been loaded, and whatever requests have been
    served since, wallet-status answers in one of two ways only: 200 with
    [{ connected: true, publicKey, balance }], where [publicKey] prints the
    key pair rebuilt from the environment in this request and [balance] is
    the lamports [getBalance] returned for the service wallet's public key
    divided by 10^9; or 500 with [{ connected: false, error }].  The answer
    [{ connected: false, message: 'SERVER_WALLET_SECRET_KEY not set.' }] is
    never given: without the key there is no service. *)
Theorem wallet_status_after_start {W} (h : Host W) (w : W) (history : list Request)
    (req : Request) (res : Response) :
  endpoint req = (GET, "/api/wallet-status") ->
  let run := V1.handle h req (V1.serve h history (started h w)) in
  outcome run = Returned (Some res) ->
  get_prop "message" (body res) = JUndefined /\
  ((exists s kp lamports,
      solanaService (started h w) = Some s /\
      collect restored_keypair (emitted run) = [kp] /\
      collect balance_lookup (emitted run)
      = [(wallet_publicKey (provider_wallet (provider (program s))), lamports)] /\
      res = res_json (JObj [("connected", JBool true);
                            ("publicKey", JStr (toBase58 (kp_publicKey kp)));
                            ("balance",
                             JNum (js_div lamports (Math_pow (Number_of_Z 10) 9)))])) \/
   (exists m,
      collect balance_lookup (emitted run) = [] /\
      res = res_status_json 500 (JObj [("connected", JBool false); ("error", JStr m)]))).
Proof.
  intros E run Hout. subst run.
  pose proof (serve_started h w history) as Hs.
  destruct (solanaService (started h w)) as [s |] eqn:S.
  - destruct (started_service h w s S) as (K & _).
    destruct (handle_wallet_status_present h req s _ res E Hs K Hout)
      as [(kp & lamports & Hk & Hb & ->) | (e & Hb & ->)].
    + split; [reflexivity |]. left. exists s, kp, lamports. repeat split; assumption.
    + split; [reflexivity |]. right. exists (message e). split; [exact Hb | reflexivity].
  - rewrite (handle_wallet_status_absent h req _ E Hs) in Hout |- *.
    injection Hout as <-. split; [reflexivity |]. right.
    eexists. split; reflexivity.
Qed.

(** X5.  On a server that started with a service, program-info calls
    nothing and reports what the service was built from: [rpcEndpoint] is
    the endpoint the constructor opened its connection to, never empty (the
    devnet URL when [RPC_URL] is unset or empty), and
    [transferHookProgramId] prints the program id under which the service
    derives its addresses. *)
Theorem program_info_after_start {W} (h : Host W) (w : W) (s : SolanaService)
    (history : list Request) (req : Request) :
  solanaService (started h w) = Some s ->
  endpoint req = (GET, "/api/program-info") ->
  let run := V1.handle h req (V1.serve h history (started h w)) in
  exists rpcEndpoint,
    collect connection_request (emitted (V1.init h (fresh w)))
    = [(rpcEndpoint, "confirmed", Some 0%nat)] /\
    rpcEndpoint <> "" /\
    (RPC_URL (env h) = None \/ RPC_URL (env h) = Some "" ->
     rpcEndpoint = "https://api.devnet.solana.com") /\
    (forall url, RPC_URL (env h) = Some url -> url <> "" -> rpcEndpoint = url) /\
    emitted run = [] /\
    outcome run
    = Returned (Some (res_json
        (JObj [("rpcEndpoint", JStr rpcEndpoint);
               ("transferHookProgramId", JStr (toBase58 (programId (program s))))]))).
Proof.
  intros S E run. subst run. exists (V1.RPC_ENDPOINT h).
  pose proof (init_run h w) as (_ & Hc & _).
  destruct (started_service h w s S) as (_ & _ & Hp & _).
  split; [exact Hc |]. split; [| split; [| split]].
  - unfold V1.RPC_ENDPOINT. destruct (RPC_URL (env h)) as [url |]; [| discriminate].
    destruct (String.eqb_spec url ""); [discriminate | assumption].
  - unfold V1.RPC_ENDPOINT. intros [-> | ->]; reflexivity.
  - unfold V1.RPC_ENDPOINT. intros url -> Hne.
    destruct (String.eqb_spec url ""); [contradiction | reflexivity].
  - rewrite (handle_program_info h req _ E), serve_started, S, Hp.
    split; reflexivity.
Qed.

(* ================================================================== *)
(** * After a failure *)

Section FailFast.
Context {W : Type} (h : Host W).

(** In a trace that ends with its only failure, a failure is the end. *)
Lemma failure_is_last (evs pre post : list Event) (ev' ev : Event) :
  Forall (fun ev => thrown_by ev = None) evs ->
  evs ++ [ev'] = pre ++ ev :: post ->
  thrown_by ev <> None ->
  post = [] /\ pre = evs.
Proof.
  intros Hevs. revert pre. induction Hevs as [| a evs Ha Hevs IH]; intros pre Heq Hev.
  - destruct pre as [| p pre]; cbn in Heq.
    + injection Heq as _ <-. split; reflexivity.
    + injection Heq as _ Heq. destruct pre; discriminate.
  - destruct pre as [| p pre]; cbn in Heq.
    + injection Heq as -> _. contradiction.
    + injection Heq as <- Heq. destruct (IH pre Heq Hev) as [-> ->].
      split; reflexivity.
Qed.

Lemma respond_failure_is_last {A} (r : Run W A) (ok : A -> Response)
    (fail : Error -> Response) (relay : Event -> Error -> Error)
    (pre post : list Event) (ev : Event) :
  sdk_failure_only relay r ->
  (forall e, status (fail e) = 500%nat) ->
  emitted (respond r ok fail) = pre ++ ev :: post ->
  thrown_by ev <> None ->
  post = [] /\
  Forall (fun ev => thrown_by ev = None) pre /\
  exists res, outcome (respond r ok fail) = Returned (Some res) /\ status res = 500%nat.
Proof.
  unfold respond, sdk_failure_only. cbn [emitted outcome]. intros Hr Hfail Heq Hev.
  destruct (outcome r) as [x | e'].
  - rewrite Heq in Hr. apply Forall_app in Hr as [_ Hr]. apply Forall_inv in Hr.
    contradiction.
  - destruct Hr as (evs & ev' & e & Hemit & Hevs & _ & _).
    rewrite Hemit in Heq. destruct (failure_is_last _ _ _ _ _ Hevs Heq Hev) as [-> ->].
    split; [reflexivity |]. split; [exact Hevs |].
    eexists. split; [reflexivity | apply Hfail].
Qed.

Lemma wallet_status_failures (this : SolanaService) (st : State W) :
  sdk_failure_only relay_unchanged
    ((if truthy_env (SERVER_WALLET_SECRET_KEY (env h)) then
        secret <- call h (JSON_parse
                    (match SERVER_WALLET_SECRET_KEY (env h) with
                     | Some s => s
                     | None => ""
                     end)) ;;
        keypair <- call h (Keypair_fromSecretKey secret) ;;
        balance <- V1.getServerWalletBalance h this ;;
        ret (res_json (JObj [("connected", JBool true);
                             ("publicKey", JStr (toString (kp_publicKey keypair)));
                             ("balance", JNum balance)]))
      else
        ret (res_json (JObj [("connected", JBool false);
                             ("message", JStr "SERVER_WALLET_SECRET_KEY not set.")])))
       st).
Proof.
  destruct (truthy_env (SERVER_WALLET_SECRET_KEY (env h))); [| apply sdk_failure_ret].
  apply sdk_failure_bind; [apply sdk_failure_call; reflexivity | intros].
  apply sdk_failure_bind; [apply sdk_failure_call; reflexivity | intros].
  apply sdk_failure_bind; [| intros; apply sdk_failure_ret].
  unfold V1.getServerWalletBalance. cbn [truthy_object negb orb].
  apply sdk_failure_rethrow.
  apply sdk_failure_bind; [apply sdk_failure_call; reflexivity | intros].
  apply sdk_failure_ret.
Qed.

End FailFast.

(** X6.  A failed call ends the work on a request: in the trace of calls
    of any request, a call that threw is the last call made, every call
    before it returned, and the response is a 500.  Nothing is retried and
    nothing is called to undo what the earlier calls did. *)
Theorem failure_ends_the_request {W} (h : Host W) (req : Request) (st : State W)
    (pre post : list Event) (ev : Event) :
  emitted (V1.handle h req st) = pre ++ ev :: post ->
  thrown_by ev <> None ->
  post = [] /\
  Forall (fun ev => thrown_by ev = None) pre /\
  exists res, outcome (V1.handle h req st) = Returned (Some res) /\ status res = 500%nat.
Proof.
  destruct (solanaService st) as [this |] eqn:S.
  2:{ rewrite (handle_absent_calls_nothing h req st S). intros Heq.
      destruct pre; discriminate. }
  destruct (handle_routed h req) as [N | (m & p & hd & Hin & _ & Heq)].
  { rewrite N. cbn. intros Heq. destruct pre; discriminate. }
  rewrite Heq. unfold V1.routes in Hin. cbn [In] in Hin.
  destruct Hin as [H | [H | [H | [H | [H | [H | [H | [H | [H | []]]]]]]]]];
    injection H as _ _ <-.
  - rewrite (run_create_token h req this st S).
    apply (respond_failure_is_last _ _ _ _ _ _ _ (createTokenMint_failures h this st)).
    reflexivity.
  - destruct (nullish (req_body req)) eqn:B.
    { destruct (run_without_body h req this st S B) as [Hi _]. rewrite Hi. cbn.
      intros Heq'. destruct pre; discriminate. }
    rewrite (run_issue_badge h req this st S B).
    apply (respond_failure_is_last _ _ _ _ _ _ _ (issueBadge_failures h this _ _ st)).
    reflexivity.
  - destruct (nullish (req_body req)) eqn:B.
    { destruct (run_without_body h req this st S B) as [_ Ht]. rewrite Ht. cbn.
      intros Heq'. destruct pre; discriminate. }
    rewrite (run_transfer h req this st S B).
    apply (respond_failure_is_last _ _ _ _ _ _ _ (transferTokens_failures h this _ _ _ st)).
    reflexivity.
  - rewrite (run_token_balances h req this st S).
    apply (respond_failure_is_last _ _ _ _ _ _ _ (getTokenBalances_failures h this _ st)).
    reflexivity.
  - rewrite (run_transactions h req this st S).
    apply (respond_failure_is_last _ _ _ _ _ _ _ (getTransactions_failures h this _ _ st)).
    reflexivity.
  - rewrite (run_server_wallet_transactions h req this st S).
    apply (respond_failure_is_last _ _ _ _ _ _ _ (getTransactions_failures h this _ _ st)).
    reflexivity.
  - cbn. intros Heq'. destruct pre; discriminate.
  - unfold V1.wallet_status.
    rewrite (guarded_route _ _ st this S). rewrite try_answer.
    apply (respond_failure_is_last _ _ _ _ _ _ _ (wallet_status_failures h this st)).
    reflexivity.
  - unfold V1.program_info. rewrite (guarded_route _ _ st this S). cbn.
    intros Heq'. destruct pre; discriminate.
Qed.

(* ================================================================== *)
(** * What reaches the SDK *)

(** X7.  A badge is bound to the recipient alone.  An issue-badge request
    answered with status 200 has made four calls: the two [PublicKey]
    constructions, of [mintAddress] first and [recipientAddress] second,
    the derivation of the badge address from the seeds ["token-badge"] and
    the recipient under the service's program, and [issueBadge().rpc()]
    with the service wallet as authority, the recipient as user, that
    address as token badge and the system program.  The mint is checked to
    be a public key and used for nothing else. *)
Theorem issue_badge_binds_recipient {W} (h : Host W) (req : Request)
    (this : SolanaService) (st : State W) (res : Response) :
  endpoint req = (POST, "/api/issue-badge") ->
  solanaService st = Some this ->
  outcome (V1.handle h req st) = Returned (Some res) ->
  status res = 200%nat ->
  let evs := emitted (V1.handle h req st) in
  exists mint recipient pda,
    List.length evs = 4%nat /\
    collect constructed_key evs
    = [ (get_prop "mintAddress" (req_body req), mint);
        (get_prop "recipientAddress" (req_body req), recipient) ] /\
    collect derived_address evs
    = [([Buffer_from "token-badge"; toBuffer recipient], programId (program this), pda)] /\
    collect badge_accounts evs
    = [(wallet_publicKey (provider_wallet (provider (program this))),
        recipient, pda, SystemProgram_programId)] /\
    res = res_json (JObj [("success", JBool true)]).
Proof.
  intros E S Hout Hst evs. subst evs.
  assert (B : nullish (req_body req) = false).
  { apply (answered_has_body h req this st _) with (3 := Hout); [rewrite E; cbn; tauto | exact S]. }
  revert Hout. rewrite (handle_issue_badge h req this st E S B).
  unfold respond. cbn [emitted outcome].
  unfold V1.issueBadge, try_catch, bind, call, ret, throw. cbn.
  repeat (step; try (intros [= <-]; cbn in Hst; discriminate)).
  intros [= <-]. eexists _, _, _. repeat split; reflexivity.
Qed.

(** X8.  A partial failure of create-token leaves a mint behind.  When
    [initializeExtraAccountMetaList().rpc()] throws, the transaction that
    creates and initialises the mint has already been sent and confirmed,
    signed by the generated key pair; the response is the 500 carrying that
    error, and the mint address is not in it. *)
Theorem create_token_fails_after_mint {W} (h : Host W) (req : Request)
    (this : SolanaService) (st : State W) (res : Response) :
  endpoint req = (POST, "/api/create-token") ->
  solanaService st = Some this ->
  outcome (V1.handle h req st) = Returned (Some res) ->
  let evs := emitted (V1.handle h req st) in
  collect metas_init_failure evs <> [] ->
  exists e kp tx,
    collect metas_init_failure evs = [e] /\
    collect generated_keypair evs = [kp] /\
    collect confirmed_transaction evs = [tx] /\
    collect sent_transaction evs = [(tx, [kp])] /\
    res = res_status_json 500
            (JObj [("success", JBool false); ("error", JStr (message e))]) /\
    has_prop "mintAddress" (body res) = false.
Proof.
  intros E S Hout evs. subst evs. revert Hout.
  rewrite (handle_create_token h req this st E S).
  unfold respond. cbn [emitted outcome].
  unfold V1.createTokenMint, bind, call, ret. cbn.
  repeat (step; try (intros _ C; destruct (C eq_refl))).
  intros [= <-] _. eexists _, _, _. repeat split; reflexivity.
Qed.

(** X9.  A transfer goes from the server wallet's associated token account
    to the recipient's.  A transfer request answered with status 200 has
    built the two keys from [mintAddress] and [recipientAddress], looked up
    or created, paid by the server wallet, the associated account of the
    server wallet and then of the recipient for that mint, derived the
    extra-account-meta-list address from the mint, and asked for a transfer
    instruction from the first account to the second, for that mint, with
    the server wallet as owner. *)
Theorem transfer_between_associated_accounts {W} (h : Host W) (req : Request)
    (this : SolanaService) (st : State W) (res : Response) :
  endpoint req = (POST, "/api/transfer") ->
  solanaService st = Some this ->
  outcome (V1.handle h req st) = Returned (Some res) ->
  status res = 200%nat ->
  let evs := emitted (V1.handle h req st) in
  let wallet := provider_wallet (provider (program this)) in
  exists mint recipient source destination pda,
    collect constructed_key evs
    = [ (get_prop "mintAddress" (req_body req), mint);
        (get_prop "recipientAddress" (req_body req), recipient) ] /\
    collect associated_account evs
    = [ (wallet_payer wallet, mint, wallet_publicKey wallet, source);
        (wallet_payer wallet, mint, recipient, destination) ] /\
    collect derived_address evs
    = [([Buffer_from "extra-account-metas"; toBuffer mint], programId (program this), pda)] /\
    collect hook_transfer_accounts evs
    = [(address source, mint, address destination, wallet_publicKey wallet)].
Proof.
  intros E S Hout Hst evs wallet. subst evs wallet.
  assert (B : nullish (req_body req) = false).
  { apply (answered_has_body h req this st _) with (3 := Hout); [rewrite E; cbn; tauto | exact S]. }
  revert Hout. rewrite (handle_transfer h req this st E S B).
  unfold respond. cbn [emitted outcome].
  unfold V1.transferTokens, bind, call, ret. cbn.
  repeat (step; try (intros [= <-]; cbn in Hst; discriminate)).
  intros _. eexists _, _, _, _, _. repeat split; reflexivity.
Qed.

(** X10.  The amount of a transfer is not validated.  On a transfer
    request answered with status 200 the amount handed to the SDK is the
    number JavaScript makes of the [amount] property times 10^9: NaN when
    the property is missing, 0 when it is [null] or [false], 10^9 when it
    is [true]. *)
Theorem transfer_amount_is_not_validated {W} (h : Host W) (req : Request)
    (this : SolanaService) (st : State W) (res : Response) :
  endpoint req = (POST, "/api/transfer") ->
  solanaService st = Some this ->
  outcome (V1.handle h req st) = Returned (Some res) ->
  status res = 200%nat ->
  let amounts := collect hook_transfer_amount (emitted (V1.handle h req st)) in
  amounts = [(js_mul (ToNumber h (get_prop "amount" (req_body req)))
                (Math_pow (Number_of_Z 10) 9), 9%nat)] /\
  (get_prop "amount" (req_body req) = JUndefined -> amounts = [(NaN, 9%nat)]) /\
  (get_prop "amount" (req_body req) = JNull \/
   get_prop "amount" (req_body req) = JBool false ->
   amounts = [(S754_zero false, 9%nat)]) /\
  (get_prop "amount" (req_body req) = JBool true ->
   amounts = [(Number_of_Z (10 ^ 9), 9%nat)]).
Proof.
  intros E S Hout Hst amounts.
  assert (B : nullish (req_body req) = false).
  { apply (answered_has_body h req this st _) with (3 := Hout); [rewrite E; cbn; tauto | exact S]. }
  assert (Ha : amounts
               = [(js_mul (ToNumber h (get_prop "amount" (req_body req)))
                     (Math_pow (Number_of_Z 10) 9), 9%nat)]).
  { subst amounts. revert Hout.
    rewrite (handle_transfer h req this st E S B).
    unfold respond. cbn [emitted outcome].
    unfold V1.transferTokens, bind, call, ret. cbn.
    repeat (step; try (intros [= <-]; cbn in Hst; discriminate)).
    intros _. reflexivity. }
  split; [exact Ha |]. rewrite Ha. split; [| split].
  - intros ->. reflexivity.
  - intros [-> | ->]; cbn [ToNumber]; rewrite Math_pow_10_9; vm_compute; reflexivity.
  - intros ->. cbn [ToNumber]. rewrite Math_pow_10_9. vm_compute. reflexivity.
Qed.

Section RejectedKeys.
Context {W : Type} (h : Host W).

(** A loop whose body never makes calls of some kind makes none. *)
Lemma for_of_collect_nil {A B C} (f : Event -> option C) (body : A -> B -> M W B)
    (xs : list A) :
  (forall x acc st, collect f (emitted (body x acc st)) = []) ->
  forall acc st, collect f (emitted (for_of xs body acc st)) = [].
Proof.
  intros Hbody. induction xs as [| x xs IH]; intros acc st; cbn [for_of].
  - reflexivity.
  - unfold bind. specialize (Hbody x acc st).
    destruct (body x acc st) as [[b | e] s t]; cbn in *; [| exact Hbody].
    specialize (IH b s). destruct (for_of xs body b s) as [o s' t']. cbn in *.
    rewrite collect_app, Hbody, IH. reflexivity.
Qed.

Lemma getTokenBalances_rejection (this : SolanaService) (owner : JsValue) (st : State W) :
  collect rejected_key (emitted (V1.getTokenBalances h this owner st)) <> [] ->
  Forall (fun ev => is_New_PublicKey ev = true)
    (emitted (V1.getTokenBalances h this owner st)) /\
  collect rejected_key (emitted (V1.getTokenBalances h this owner st)) = [owner].
Proof.
  unfold V1.getTokenBalances, bind, call, ret. cbn.
  step.
  - step.
    + match goal with
      | |- context [for_of ?xs ?body ?acc ?st'] =>
          assert (L : collect rejected_key (emitted (for_of xs body acc st')) = []);
          [ apply for_of_collect_nil; intros; repeat step; reflexivity
          | destruct (for_of xs body acc st') as [o s t] ]
      end.
      cbn in *. rewrite L. intros C. destruct (C eq_refl).
    + intros C. destruct (C eq_refl).
  - intros _. split; [repeat constructor | reflexivity].
Qed.

Lemma getTransactions_rejection (this : SolanaService) (pk : JsValue) (st : State W) :
  collect rejected_key (emitted (V1.getTransactions h this pk None st)) <> [] ->
  Forall (fun ev => is_New_PublicKey ev = true)
    (emitted (V1.getTransactions h this pk None st)) /\
  collect rejected_key (emitted (V1.getTransactions h this pk None st)) = [pk].
Proof.
  unfold V1.getTransactions. cbn [truthy_object negb].
  unfold try_catch, bind, call, ret, throw. cbn.
  step.
  - step.
    + match goal with
      | |- context [for_of ?xs ?body ?acc ?st'] =>
          assert (L : collect rejected_key (emitted (for_of xs body acc st')) = []);
          [ apply for_of_collect_nil; intros; step;
            [ match goal with |- context [match ?tx with Some _ => _ | None => _ end] =>
                destruct tx end | ]; reflexivity
          | destruct (for_of xs body acc st') as [[b | e] s t] ]
      end; cbn in *; rewrite ?app_nil_r, L; intros C; destruct (C eq_refl).
    + intros C. destruct (C eq_refl).
  - intros _. split; [repeat constructor | reflexivity].
Qed.

End RejectedKeys.

(** X11.  A rejected address never reaches the cluster.  On issue-badge,
    transfer, token-balances, transactions and server-wallet-transactions,
    when the [PublicKey] constructor rejects an address it rejects one
    only, and the request has called nothing but [PublicKey] constructors:
    no account was looked up or created and nothing was sent. *)
Theorem rejected_address_stops_the_request {W} (h : Host W) (req : Request)
    (this : SolanaService) (st : State W) :
  solanaService st = Some this ->
  In (endpoint req)
     [ (POST, "/api/issue-badge"); (POST, "/api/transfer");
       (GET, "/api/token-balances"); (GET, "/api/transactions");
       (GET, "/api/server-wallet-transactions") ] ->
  let evs := emitted (V1.handle h req st) in
  collect rejected_key evs <> [] ->
  Forall (fun ev => is_New_PublicKey ev = true) evs /\
  exists address, collect rejected_key evs = [address].
Proof.
  intros S Hep evs. subst evs. cbn [In] in Hep.
  destruct Hep as [E | [E | [E | [E | [E | []]]]]]; symmetry in E.
  - destruct (nullish (req_body req)) eqn:B.
    { rewrite (handle_without_body h req this st) by (rewrite ?E; cbn; auto).
      cbn. intros C. destruct (C eq_refl). }
    rewrite (handle_issue_badge h req this st E S B).
    unfold respond. cbn [emitted].
    unfold V1.issueBadge, try_catch, bind, call, ret, throw. cbn.
    repeat (step; try (intros C; destruct (C eq_refl)));
      intros _; (split; [repeat constructor | eexists; reflexivity]).
  - destruct (nullish (req_body req)) eqn:B.
    { rewrite (handle_without_body h req this st) by (rewrite ?E; cbn; auto).
      cbn. intros C. destruct (C eq_refl). }
    rewrite (handle_transfer h req this st E S B).
    unfold respond. cbn [emitted].
    unfold V1.transferTokens, bind, call, ret. cbn.
    repeat (step; try (intros C; destruct (C eq_refl)));
      intros _; (split; [repeat constructor | eexists; reflexivity]).
  - rewrite (handle_token_balances h req this st E S).
    unfold respond. cbn [emitted]. intros C.
    destruct (getTokenBalances_rejection h this _ st C) as [HF Hr].
    split; [exact HF | eexists; exact Hr].
  - rewrite (handle_transactions h req this st E S).
    unfold respond. cbn [emitted]. intros C.
    destruct (getTransactions_rejection h this _ st C) as [HF Hr].
    split; [exact HF | eexists; exact Hr].
  - rewrite (handle_server_wallet_transactions h req this st E S).
    unfold respond. cbn [emitted]. intros C.
    destruct (getTransactions_rejection h this _ st C) as [HF Hr].
    split; [exact HF | eexists; exact Hr].
Qed.

(* ================================================================== *)
(** * What a request is read for *)

(** X12.  A request is read for its method, its path, whether it has a
    body, and five properties: [mintAddress], [recipientAddress] and
    [amount] of the body, [ownerAddress] and [publicKey] of the query.  Two
    requests that agree on these (and are the same where the body is
    missing) are served alike, from any state: same calls, same response
    or error, same final state. *)
Theorem routes_read_five_properties {W} (h : Host W) (req req' : Request) (st : State W) :
  endpoint req = endpoint req' ->
  nullish (req_body req) = nullish (req_body req') ->
  (nullish (req_body req) = true -> req_body req = req_body req') ->
  (forall k, In k ["mintAddress"; "recipientAddress"; "amount"] ->
             get_prop k (req_body req) = get_prop k (req_body req')) ->
  (forall k, In k ["ownerAddress"; "publicKey"] ->
             lookup_prop k (req_query req) = lookup_prop k (req_query req')) ->
  V1.handle h req st = V1.handle h req' st /\
  V1.app h req st = V1.app h req' st.
Proof.
  unfold endpoint. intros [= Em Ep] Hn Hnull Hb Hq.
  assert (B1 := Hb "mintAddress" ltac:(cbn; tauto)).
  assert (B2 := Hb "recipientAddress" ltac:(cbn; tauto)).
  assert (B3 := Hb "amount" ltac:(cbn; tauto)).
  assert (Q1 := Hq "ownerAddress" ltac:(cbn; tauto)).
  assert (Q2 := Hq "publicKey" ltac:(cbn; tauto)).
  assert (Hh : V1.handle h req st = V1.handle h req' st).
  { unfold V1.handle. rewrite <- Em, <- Ep.
    destruct (V1.dispatch (V1.routes h) (req_method req) (req_path req)) as [hd |] eqn:D;
      [| reflexivity].
    apply dispatch_In in D as (m & p & Hin & _). unfold V1.routes in Hin. cbn [In] in Hin.
    destruct Hin as [H | [H | [H | [H | [H | [H | [H | [H | [H | []]]]]]]]]];
      injection H as _ _ <-.
    - reflexivity.
    - destruct (solanaService st) as [this |] eqn:S.
      + destruct (nullish (req_body req)) eqn:B.
        * destruct (run_without_body h req this st S B) as [-> _].
          symmetry in Hn.
          destruct (run_without_body h req' this st S Hn) as [-> _].
          rewrite (Hnull eq_refl). reflexivity.
        * symmetry in Hn.
          rewrite (run_issue_badge h req this st S B), (run_issue_badge h req' this st S Hn).
          rewrite B1, B2. reflexivity.
      + unfold V1.issue_badge, bind, read_solanaService, ret. rewrite S. reflexivity.
    - destruct (solanaService st) as [this |] eqn:S.
      + destruct (nullish (req_body req)) eqn:B.
        * destruct (run_without_body h req this st S B) as [_ ->].
          symmetry in Hn.
          destruct (run_without_body h req' this st S Hn) as [_ ->].
          rewrite (Hnull eq_refl). reflexivity.
        * symmetry in Hn.
          rewrite (run_transfer h req this st S B), (run_transfer h req' this st S Hn).
          rewrite B1, B2, B3. reflexivity.
      + unfold V1.transfer_route, bind, read_solanaService, ret. rewrite S. reflexivity.
    - unfold V1.token_balances. rewrite Q1. reflexivity.
    - unfold V1.transactions_route. rewrite Q2. reflexivity.
    - reflexivity.
    - reflexivity.
    - reflexivity.
    - reflexivity. }
  split; [exact Hh |]. rewrite !app_reply, Hh. reflexivity.
Qed.

(* ================================================================== *)
(** * The second variant *)

(** X13.  The second variant registers exactly eight routes, each once:
    the routes of the first without [GET /api/server-wallet-transactions],
    and with the health check at [/health] instead of [/api/health].
    Every other registration of either variant is a registration of both.
    The requests that reach a handler of the second variant are those the
    framework matches to one of the eight: the route's method (or HEAD on
    a GET route) and its path, in any case of letters, with or without a
    trailing slash. *)
Theorem variant2_routes {W} (h : Host W) (this : SolanaService) (m : Method) (p : string) :
  map fst (V2.routes h this) = variant2_endpoints /\
  NoDup (map fst (V2.routes h this)) /\
  (In (m, p) (map fst (V2.routes h this)) ->
   (m, p) = (GET, "/health") \/ In (m, p) (map fst (V1.routes h))) /\
  (In (m, p) (map fst (V1.routes h)) ->
   (m, p) = (GET, "/api/health") \/ (m, p) = (GET, "/api/server-wallet-transactions") \/
   In (m, p) (map fst (V2.routes h this))) /\
  ~ In (GET, "/health") (map fst (V1.routes h)) /\
  ~ In (GET, "/api/health") (map fst (V2.routes h this)) /\
  ~ In (GET, "/api/server-wallet-transactions") (map fst (V2.routes h this)) /\
  (V1.dispatch (V2.routes h this) m p <> None <->
   exists m' p',
     In (m', p') variant2_endpoints /\
     (m = m' \/ (m' = GET /\ m = HEAD)) /\
     (lowercase p = p' \/ lowercase p = (p' ++ "/")%string)).
Proof.
  split; [reflexivity |]. split; [| split; [| split; [| split; [| split; [| split]]]]].
  - unfold V2.routes. cbn [map fst].
    repeat (constructor; [cbn [In]; intuition discriminate |]). constructor.
  - unfold V2.routes, V1.routes. cbn [map fst In].
    intros [H | [H | [H | [H | [H | [H | [H | [H | []]]]]]]]];
      injection H as <- <-; tauto.
  - unfold V2.routes, V1.routes. cbn [map fst In].
    intros [H | [H | [H | [H | [H | [H | [H | [H | [H | []]]]]]]]]];
      injection H as <- <-; tauto.
  - unfold V1.routes. cbn [map fst In]. intuition discriminate.
  - unfold V2.routes. cbn [map fst In]. intuition discriminate.
  - unfold V2.routes. cbn [map fst In]. intuition discriminate.
  - rewrite dispatch_serves.
    assert (L : forall m' p', In (m', p') variant2_endpoints -> lowercase p' = p').
    { unfold variant2_endpoints. cbn [In].
      intros m' p' [H | [H | [H | [H | [H | [H | [H | [H | []]]]]]]]];
        injection H as _ <-; reflexivity. }
    change (map fst (V2.routes h this)) with variant2_endpoints.
    split.
    + intros (m' & p' & Hin & Hm & Hp). exists m', p'.
      split; [exact Hin |]. split.
      * unfold method_serves in Hm. destruct m, m'; cbn in Hm; try discriminate; auto.
      * unfold path_matches in Hp. apply orb_true_iff in Hp.
        rewrite (L m' p' Hin) in Hp.
        destruct Hp as [Hp | Hp]; apply String.eqb_eq in Hp; auto.
    + intros (m' & p' & Hin & Hm & Hp). exists m', p'.
      split; [exact Hin |]. split.
      * destruct Hm as [-> | [-> ->]]; [destruct m' |]; reflexivity.
      * unfold path_matches. rewrite (L m' p' Hin). apply orb_true_iff.
        destruct Hp as [-> | ->]; [left | right]; apply String.eqb_refl.
Qed.

(** X14.  The two variants' [issueBadge] make the same calls and leave the
    same state; they end alike, except when a [PublicKey] constructor
    rejects an address: the second variant then throws the SDK's error and
    the first an error whose message is that one's prefixed with
    ["Invalid public key input: "]. *)
Theorem issueBadge_variants {W} (h : Host W) (this : SolanaService)
    (mintAddress recipientAddress : JsValue) (st : State W) :
  let r1 := V1.issueBadge h this mintAddress recipientAddress st in
  let r2 := V2.issueBadge h this mintAddress recipientAddress st in
  emitted r1 = emitted r2 /\
  final r1 = final r2 /\
  match outcome r2 with
  | Returned x => outcome r1 = Returned x
  | Thrown e =>
      (collect rejected_key (emitted r2) = [] -> outcome r1 = Thrown e) /\
      (collect rejected_key (emitted r2) <> [] ->
       outcome r1 = Thrown (new_Error ("Invalid public key input: " ++ message e)))
  end.
Proof.
  cbv zeta. unfold V1.issueBadge, V2.issueBadge, try_catch, bind, call, ret, throw. cbn.
  repeat step; repeat split; try reflexivity;
    try discriminate; intros C; destruct (C eq_refl).
Qed.

(** X15.  The second variant's create-token makes a mint without a transfer
    hook.  A request answered with status 200 has made four calls; it asked
    [getMintLen] for the length of a mint with the TransferHook extension
    and paid rent for that length, and submitted one transaction, signed by
    the generated key pair, of two instructions: the account creation with
    that length and the mint initialisation with 9 decimals, the server
    wallet as mint authority and no freeze authority.  No hook is
    initialised and no address derived. *)
Theorem variant2_create_token {W} (h : Host W) (this : SolanaService) (req : Request)
    (st : State W) (res : Response) :
  endpoint req = (POST, "/api/create-token") ->
  outcome (V2.handle h this req st) = Returned (Some res) ->
  status res = 200%nat ->
  let evs := emitted (V2.handle h this req st) in
  let payer := wallet_publicKey (provider_wallet (provider (program this))) in
  exists mintKeypair mintLen lamports,
    List.length evs = 4%nat /\
    collect generated_keypair evs = [mintKeypair] /\
    collect mint_space evs = [([ExtensionType_TransferHook], mintLen)] /\
    collect derived_address evs = [] /\
    collect sent_transaction evs
    = [({| instructions :=
             [ SystemProgram_createAccount h payer (kp_publicKey mintKeypair)
                 mintLen lamports TOKEN_2022_PROGRAM_ID;
               createInitializeMintInstruction h (kp_publicKey mintKeypair) 9
                 payer None TOKEN_2022_PROGRAM_ID ] |},
        [mintKeypair])] /\
    res = res_json (JObj [("success", JBool true);
                          ("mintAddress", JStr (toBase58 (kp_publicKey mintKeypair)))]).
Proof.
  intros E Hout Hst evs payer. subst evs payer. revert Hout.
  rewrite (handle2_create_token h this req st E).
  unfold respond. cbn [emitted outcome].
  unfold V2.createTokenMint, bind, call, ret. cbn.
  repeat (step; try (intros [= <-]; cbn in Hst; discriminate)).
  intros [= <-]. eexists _, _, _. repeat split; reflexivity.
Qed.

(* ================================================================== *)
(** * The server key *)

(** X16.  Transfers are made with the key pair of the environment.  On a
    server started from [SERVER_WALLET_SECRET_KEY], whatever it has served
    since, a transfer request answered with status 200 has paid for both
    associated accounts with the key pair [Keypair.fromSecretKey] returned
    at start-up, taken the tokens from the associated account of that
    pair's public key, named that public key as owner of the transfer, and
    submitted its one transaction with that pair as only extra signer. *)
Theorem server_key_signs_transfers {W} (h : Host W) (w : W) (history : list Request)
    (req : Request) (res : Response) :
  endpoint req = (POST, "/api/transfer") ->
  let run := V1.handle h req (V1.serve h history (started h w)) in
  outcome run = Returned (Some res) ->
  status res = 200%nat ->
  exists kp tx mint recipient source destination,
    collect restored_keypair (emitted (V1.init h (fresh w))) = [kp] /\
    collect associated_account (emitted run)
    = [ (kp, mint, kp_publicKey kp, source); (kp, mint, recipient, destination) ] /\
    collect hook_transfer_accounts (emitted run)
    = [(address source, mint, address destination, kp_publicKey kp)] /\
    collect sent_transaction (emitted run) = [(tx, [kp])].
Proof.
  intros E run Hout Hst. subst run.
  pose proof (serve_started h w history) as Hs.
  pose proof (init_run h w) as (_ & _ & Hinit).
  destruct (solanaService (started h w)) as [s |] eqn:S.
  2:{ rewrite handle_not_initialized in Hout.
      - injection Hout as <-. discriminate.
      - exact Hs.
      - rewrite E. cbn. tauto. }
  destruct Hinit as (_ & _ & conn & secret & kp & Hev & ->).
  assert (B : nullish (req_body req) = false).
  { apply (answered_has_body h req _ _ _) with (2 := Hs) (3 := Hout). rewrite E. cbn. tauto. }
  revert Hout. rewrite (handle_transfer h req _ _ E Hs B).
  unfold respond. cbn [emitted outcome]. rewrite Hev.
  unfold V1.transferTokens, bind, call, ret. cbn.
  repeat (step; try (intros [= <-]; cbn in Hst; discriminate)).
  intros _. eexists _, _, _, _, _, _. repeat split; reflexivity.
Qed.

(* ================================================================== *)
(** * Entries of a transactions response *)

(** X17.  Every entry of a transactions response has the five properties
    [signature], [timestamp], [status], [type] and [description], in that
    order; [type] is always ['Unknown'], [description] always empty and
    [status] one of ['failed'] and ['confirmed'].  A signature the SDK
    reports with a [null] block time is listed with timestamp 0, one with
    no block time at all with NaN; an [err] that is missing or the empty
    string reads as ['confirmed']. *)
Theorem transactions_entries {W} (h : Host W) (req : Request) (st : State W)
    (res : Response) :
  endpoint req = (GET, "/api/transactions") \/
  endpoint req = (GET, "/api/server-wallet-transactions") ->
  outcome (V1.handle h req st) = Returned (Some res) ->
  status res = 200%nat ->
  exists sigs lookups entries,
    collect signature_query (emitted (V1.handle h req st)) = [(10%nat, sigs)] /\
    body res = JObj [("success", JBool true); ("transactions", JArr entries)] /\
    Forall2
      (fun s entry =>
         prop_names entry = ["signature"; "timestamp"; "status"; "type"; "description"] /\
         get_prop "signature" entry = JStr (signature s) /\
         get_prop "type" entry = JStr "Unknown" /\
         get_prop "description" entry = JStr "" /\
         (get_prop "status" entry = JStr "failed" \/
          get_prop "status" entry = JStr "confirmed") /\
         (blockTime s = Null -> get_prop "timestamp" entry = JNum (S754_zero false)) /\
         (blockTime s = Undefined -> get_prop "timestamp" entry = JNum NaN) /\
         (err s = Undefined \/ err s = Present (ErrString "") ->
          get_prop "status" entry = JStr "confirmed"))
      (kept sigs lookups) entries.
Proof.
  intros E Hout Hst.
  destruct (solanaService st) as [this |] eqn:S.
  2:{ rewrite handle_not_initialized in Hout.
      - injection Hout as <-. discriminate.
      - exact S.
      - destruct E as [-> | ->]; cbn; tauto. }
  assert (Hrun : exists publicKey,
      V1.handle h req st
      = respond (V1.getTransactions h this publicKey None st)
          (fun transactions =>
             res_json (JObj [("success", JBool true); ("transactions", JArr transactions)]))
          (fun e => res_status_json 500 (V1.failure e))).
  { destruct E as [E | E].
    - eexists. exact (handle_transactions h req this st E S).
    - eexists. exact (handle_server_wallet_transactions h req this st E S). }
  destruct Hrun as (publicKey & Heq). rewrite Heq in Hout |- *. unfold respond in *.
  cbn [outcome emitted] in *.
  destruct (outcome (V1.getTransactions h this publicKey None st)) as [txs | e] eqn:O.
  2:{ injection Hout as <-. discriminate. }
  destruct (getTransactions_run h this publicKey st txs O)
    as (sigs & lookups & Hq & Hlen & Hl & ->).
  injection Hout as <-.
  exists sigs, lookups, (map V1.transaction_entry (kept sigs lookups)).
  split; [exact Hq |]. split; [reflexivity |].
  match goal with
  | |- Forall2 ?P (kept _ _) _ =>
      assert (shape : forall l, Forall2 P l (map V1.transaction_entry l))
  end; [| apply shape].
  clear. intros l. induction l as [| s l IH]; cbn [map]; constructor; [| exact IH].
  unfold V1.transaction_entry. cbn.
  repeat split.
  - destruct (truthy_err (err s)); [left | right]; reflexivity.
  - intros ->. vm_compute. reflexivity.
  - intros ->. reflexivity.
  - intros [-> | ->]; reflexivity.
Qed.

Section Limit.
Context {W : Type} (h : Host W).

Lemma getTransactions_run_limit (this : SolanaService) (publicKey : JsValue)
    (n : nat) (st : State W) (txs : list JsValue) :
  outcome (V1.getTransactions h this publicKey (Some n) st) = Returned txs ->
  exists sigs lookups,
    collect signature_query (emitted (V1.getTransactions h this publicKey (Some n) st))
    = [(n, sigs)] /\
    collect signature_limit (emitted (V1.getTransactions h this publicKey (Some n) st))
    = [n] /\
    List.length lookups = List.length sigs /\
    txs = map V1.transaction_entry (kept sigs lookups).
Proof.
  unfold V1.getTransactions. cbn [truthy_object negb].
  unfold try_catch, bind, call, ret, throw. cbn.
  step; [| discriminate]. step; [| discriminate].
  match goal with
  | |- context [for_of r0 ?body ?acc ?st'] =>
      destruct (for_of r0 body acc st') as [[b | e] s t] eqn:R
  end; cbn; [| discriminate].
  pose proof (transactions_loop_limits h this _ _ _ _ _ _ R) as Hl.
  apply (transactions_loop h this) in R. destruct R as (lookups & Hlen & _ & Hq & ->).
  intros [= <-]. exists r0, lookups. rewrite Hl, Hq. repeat split. exact Hlen.
Qed.

End Limit.

(** X18.  [getTransactions] honours a [limit] argument: called with
    [limit] n it asks [getSignaturesForAddress] for n signatures, once,
    and, the SDK returning no more than asked, returns at most n entries. *)
Theorem getTransactions_honours_limit {W} (h : Host W) (this : SolanaService)
    (publicKey : JsValue) (n : nat) (st : State W) (txs : list JsValue) :
  let run := V1.getTransactions h this publicKey (Some n) st in
  outcome run = Returned txs ->
  Forall (fun q => (List.length (snd q) <= fst q)%nat)
         (collect signature_query (emitted run)) ->
  collect signature_limit (emitted run) = [n] /\
  (List.length txs <= n)%nat.
Proof.
  intros run Hout Hsdk. subst run.
  destruct (getTransactions_run_limit h this publicKey n st txs Hout)
    as (sigs & lookups & Hq & Hl & _ & ->).
  split; [exact Hl |]. rewrite Hq in Hsdk. apply Forall_inv in Hsdk. cbn in Hsdk.
  rewrite length_map. eapply Nat.le_trans; [apply kept_length | exact Hsdk].
Qed.

(* ================================================================== *)
(** * Lamports to SOL *)

Section Division.

Lemma digits2_pos_mul (pa pb : positive) :
  Zpos (digits2_pos pa) + Zpos (digits2_pos pb) - 1 <= Zpos (digits2_pos (pa * pb))
  <= Zpos (digits2_pos pa) + Zpos (digits2_pos pb).
Proof.
  pose proof (digits2_pos_bounds pa) as [Alo Ahi].
  pose proof (digits2_pos_bounds pb) as [Blo Bhi].
  pose proof (digits2_pos_bounds (pa * pb)) as [ABlo ABhi].
  set (da := Zpos (digits2_pos pa)) in *.
  set (db := Zpos (digits2_pos pb)) in *.
  set (dab := Zpos (digits2_pos (pa * pb))) in *.
  assert (0 < da) by (subst da; lia). assert (0 < db) by (subst db; lia).
  assert (0 < dab) by (subst dab; lia).
  rewrite Pos2Z.inj_mul in *. split.
  - destruct (Z_le_gt_dec (da + db - 1) dab); [assumption |].
    assert (2 ^ dab <= 2 ^ ((da - 1) + (db - 1))) by (apply Z.pow_le_mono_r; lia).
    rewrite Z.pow_add_r in * by lia.
    assert (2 ^ (da - 1) * 2 ^ (db - 1) <= Zpos pa * Zpos pb).
    { apply Z.mul_le_mono_nonneg; try assumption; apply Z.pow_nonneg; lia. }
    lia.
  - destruct (Z_le_gt_dec dab (da + db)); [assumption |].
    assert (2 ^ (da + db) <= 2 ^ (dab - 1)) by (apply Z.pow_le_mono_r; lia).
    rewrite Z.pow_add_r in * by lia.
    assert (Zpos pa * Zpos pb < 2 ^ da * 2 ^ db).
    { apply Z.mul_lt_mono_nonneg; lia. }
    lia.
Qed.

(** Division of a multiple by its divisor is exact. *)
Lemma js_div_exact (n d : Z) :
  0 <= n -> 0 < d < 2 ^ prec -> n * d < 2 ^ prec ->
  js_div (Number_of_Z (n * d)) (Number_of_Z d) = Number_of_Z n.
Proof.
  unfold prec. intros Hn [Hd Hdlt] Hnd.
  destruct d as [| pd | pd]; try lia.
  rewrite (Number_of_Z_canonical pd) by (unfold prec; assumption).
  destruct n as [| pn | pn]; try lia; [reflexivity |].
  change (Zpos pn * Zpos pd) with (Zpos (pn * pd)) in *.
  assert (Hnlt : Zpos pn < 2 ^ 53) by nia.
  rewrite !Number_of_Z_canonical by (unfold prec; assumption).
  pose proof (digits2_pos_le_prec _ Hnd) as Hda.
  pose proof (digits2_pos_le_prec _ Hdlt) as Hdd.
  pose proof (digits2_pos_le_prec _ Hnlt) as Hdn.
  pose proof (digits2_pos_mul pn pd) as Hmul.
  unfold canonical, js_div, SFdiv, prec, emax in *. cbn [xorb].
  set (da := Zpos (digits2_pos (pn * pd))) in *.
  set (dd := Zpos (digits2_pos pd)) in *.
  set (dn := Zpos (digits2_pos pn)) in *.
  assert (Pa : 0 < 2 ^ (53 - da)) by (apply Z.pow_pos_nonneg; lia).
  assert (Pd : 0 < 2 ^ (53 - dd)) by (apply Z.pow_pos_nonneg; lia).
  assert (Pn : 0 < 2 ^ (53 - dn)) by (apply Z.pow_pos_nonneg; lia).
  set (ma := Z.to_pos (Zpos (pn * pd) * 2 ^ (53 - da))).
  set (md := Z.to_pos (Zpos pd * 2 ^ (53 - dd))).
  assert (Hma : Zpos ma = Zpos pn * Zpos pd * 2 ^ (53 - da)).
  { subst ma. rewrite Z2Pos.id by lia. rewrite Pos2Z.inj_mul. reflexivity. }
  assert (Hmd : Zpos md = Zpos pd * 2 ^ (53 - dd)).
  { subst md. rewrite Z2Pos.id by lia. reflexivity. }
  assert (Dma : Zdigits2 (Zpos ma) = 53).
  { cbn [Zdigits2]. apply digits2_pos_unique. rewrite Hma, <- Pos2Z.inj_mul.
    pose proof (digits2_pos_bounds (pn * pd)) as [Lo Hi]. fold da in Lo, Hi. split.
    - replace (53 - 1) with ((da - 1) + (53 - da)) by lia.
      rewrite Z.pow_add_r by lia. apply Z.mul_le_mono_nonneg_r; lia.
    - replace 53 with (da + (53 - da)) at 2 by lia.
      rewrite Z.pow_add_r by lia. apply Z.mul_lt_mono_pos_r; lia. }
  assert (Dmd : Zdigits2 (Zpos md) = 53).
  { cbn [Zdigits2]. apply digits2_pos_unique. rewrite Hmd.
    pose proof (digits2_pos_bounds pd) as [Lo Hi]. fold dd in Lo, Hi. split.
    - replace (53 - 1) with ((dd - 1) + (53 - dd)) by lia.
      rewrite Z.pow_add_r by lia. apply Z.mul_le_mono_nonneg_r; lia.
    - replace 53 with (dd + (53 - dd)) at 2 by lia.
      rewrite Z.pow_add_r by lia. apply Z.mul_lt_mono_pos_r; lia. }
  set (j := dn + dd - da).
  set (K := Z.to_pos (Zpos pn * 2 ^ (53 - dn))).
  assert (HK : Zpos K = Zpos pn * 2 ^ (53 - dn)).
  { subst K. rewrite Z2Pos.id by lia. reflexivity. }
  assert (Hj : 0 <= j <= 1) by (subst j; lia).
  assert (Hcore : SFdiv_core_binary 53 1024 (Zpos ma) (da - 53) (Zpos md) (dd - 53)
                  = (Zpos K * 2 ^ j, da - dd - 53, loc_Exact)).
  { unfold SFdiv_core_binary. rewrite Dma, Dmd.
    unfold fexp, emin.
    replace (Z.min (Z.max (53 + (da - 53) - (53 + (dd - 53)) - 53) (3 - 1024 - 53))
               (da - 53 - (dd - 53))) with (da - dd - 53) by lia.
    replace (da - 53 - (dd - 53) - (da - dd - 53)) with 53 by lia.
    rewrite Z.shiftl_mul_pow2 by lia.
    assert (Hq : Zpos ma * 2 ^ 53 = Zpos md * (Zpos K * 2 ^ j)).
    { rewrite Hma, Hmd, HK.
      assert (Hp : 2 ^ (53 - da) * 2 ^ 53 = 2 ^ (53 - dd) * (2 ^ (53 - dn) * 2 ^ j)).
      { rewrite <- !Z.pow_add_r by lia. f_equal. subst j. lia. }
      transitivity (Zpos pn * Zpos pd * (2 ^ (53 - da) * 2 ^ 53)); [ring |].
      rewrite Hp. ring. }
    pose proof (Z_div_mod (Zpos ma * 2 ^ 53) (Zpos md) ltac:(lia)) as Hdm.
    destruct (Z.div_eucl (Zpos ma * 2 ^ 53) (Zpos md)) as [q r].
    destruct Hdm as [Hdm Hr]. rewrite Hq in Hdm.
    assert (Pj : 0 < 2 ^ j) by (apply Z.pow_pos_nonneg; lia).
    assert (r = 0 /\ q = Zpos K * 2 ^ j) as [-> ->].
    { assert (Zpos md * (Zpos K * 2 ^ j - q) = r) by lia.
      assert (Zpos K * 2 ^ j - q = 0) by nia. lia. }
    unfold new_location. destruct (Z.even (Zpos md)); reflexivity. }
  rewrite Hcore.
  pose proof (binary_round_aux_exact false K j (da - dd - 53)) as R.
  unfold prec, emax in R.
  rewrite R; try lia.
  - f_equal. subst j. lia.
  - apply digits2_pos_unique. rewrite HK.
    pose proof (digits2_pos_bounds pn) as [Lo Hi]. fold dn in Lo, Hi. split.
    + replace (53 - 1) with ((dn - 1) + (53 - dn)) by lia.
      rewrite Z.pow_add_r by lia. apply Z.mul_le_mono_nonneg_r; lia.
    + replace 53 with (dn + (53 - dn)) at 2 by lia.
      rewrite Z.pow_add_r by lia. apply Z.mul_lt_mono_pos_r; lia.
Qed.

End Division.

(** X19.  [getServerWalletBalance] makes one call, [getBalance] for the
    service wallet's public key on the service's connection.  When it
    throws, the method throws the same error, and never one of its own;
    when it returns lamports, the method returns them divided by 10^9: for
    a balance of n times 10^9 lamports below 2^53, exactly n. *)
Theorem server_wallet_balance {W} (h : Host W) (this : SolanaService) (st : State W) :
  let run := V1.getServerWalletBalance h this st in
  exists r,
    emitted run
    = [Ev (getBalance (connection this)
             (wallet_publicKey (provider_wallet (provider (program this))))) r] /\
    collect balance_lookup (emitted run)
    = match r with
      | Returned lamports =>
          [(wallet_publicKey (provider_wallet (provider (program this))), lamports)]
      | Thrown _ => []
      end /\
    match r with
    | Thrown e => outcome run = Thrown e
    | Returned lamports =>
        outcome run = Returned (js_div lamports (Math_pow (Number_of_Z 10) 9)) /\
        forall n : Z,
          0 <= n -> n * 10 ^ 9 < 2 ^ 53 -> lamports = Number_of_Z (n * 10 ^ 9) ->
          outcome run = Returned (Number_of_Z n)
    end.
Proof.
  cbv zeta. unfold V1.getServerWalletBalance. cbn [truthy_object negb orb].
  unfold try_catch, bind, call, ret, throw. cbn.
  step.
  - eexists. split; [reflexivity |]. cbn. split; [reflexivity |]. split; [reflexivity |].
    intros n Hn Hlt ->. rewrite Math_pow_10_9. f_equal.
    apply js_div_exact; unfold prec; lia.
  - eexists. split; [reflexivity |]. split; reflexivity.
Qed.

(* ================================================================== *)
(** * The variants side by side *)

(** X20.  The two variants' [transferTokens] begin alike: the two
    [PublicKey] constructions and the two associated-account lookups are
    the same calls with the same answers, and when one of them throws the
    two runs are the same.  After them the first variant derives an
    address, asks for an instruction and submits a transaction; the second
    makes one call, [transfer], and neither derives nor submits. *)
Theorem transferTokens_variants {W} (h : Host W) (this : SolanaService)
    (mintAddress recipientAddress amount : JsValue) (st : State W) :
  let r1 := V1.transferTokens h this mintAddress recipientAddress amount st in
  let r2 := V2.transferTokens h this mintAddress recipientAddress amount st in
  firstn 4 (emitted r1) = firstn 4 (emitted r2) /\
  (Exists (fun ev => thrown_by ev <> None) (firstn 4 (emitted r2)) -> r1 = r2) /\
  collect derived_address (emitted r2) = [] /\
  collect sent_transaction (emitted r2) = [] /\
  (List.length (emitted r2) <= 5)%nat /\
  (outcome r2 = Returned tt ->
   List.length (collect plain_transfer_amount (emitted r2)) = 1%nat).
Proof.
  cbv zeta. unfold V1.transferTokens, V2.transferTokens, bind, call, ret. cbn.
  repeat step; repeat split; try reflexivity; try discriminate; cbn; try lia;
    intros HE;
    repeat (apply Exists_cons in HE as [HE | HE]; [exfalso; apply HE; reflexivity |]);
    inversion HE.
Qed.

Section Variant2Transactions.
Context {W : Type} (h : Host W).

Lemma transactions_loop2 (this : SolanaService) (sigs : list ConfirmedSignatureInfo) :
  forall (acc : list JsValue) (st : State W) (o : Outcome (list JsValue))
         (s : State W) (t : list Event),
    for_of sigs
      (fun sigInfo transactions =>
         tx <- call h (getTransaction (connection this) (signature sigInfo)
                         "confirmed" None) ;;
         match tx with
         | Some _ =>
             ret (transactions ++
                    [JObj [ ("signature", JStr (signature sigInfo));
                            ("timestamp",
                               JNum (js_mul (ToNumber_blockTime (blockTime sigInfo))
                                       (Number_of_Z 1000)));
                            ("status",
                               JStr (if truthy_err (err sigInfo)
                                     then "failed" else "confirmed"));
                            ("type", JStr "Unknown");
                            ("description", JStr "") ]])
         | None => ret transactions
         end)
      acc st
    = {| outcome := o; final := s; emitted := t |} ->
    Forall (fun v => v = None) (collect transaction_version t) /\
    collect signature_limit t = [] /\
    forall txs, o = Returned txs ->
      exists lookups : list (option TransactionResponse),
        List.length lookups = List.length sigs /\
        collect transaction_lookup t = combine (map signature sigs) lookups /\
        txs = acc ++ map V1.transaction_entry (kept sigs lookups).
Proof.
  induction sigs as [| sigInfo sigs IH]; intros acc st o s t; cbn [for_of].
  - intros [= <- <- <-]. repeat split; [constructor |].
    intros txs [= <-]. exists []. rewrite app_nil_r. repeat split.
  - unfold bind, call, ret. cbn.
    step.
    2:{ intros [= <- <- <-]. repeat split; [repeat constructor | discriminate]. }
    destruct r as [tx |]; cbn;
      match goal with
      | |- context [for_of sigs ?body ?acc' ?st'] =>
          destruct (for_of sigs body acc' st') as [o' s' t'] eqn:R
      end; intros [= <- <- <-]; apply IH in R; destruct R as (Hv & Hl & Hentries);
      cbn; rewrite Hl; (split; [constructor; [reflexivity | exact Hv] |]);
      (split; [reflexivity |]); intros txs ->;
      destruct (Hentries txs eq_refl) as (lookups & Hlen & Hlk & ->).
    + exists (Some tx :: lookups). unfold kept, V1.transaction_entry in *. cbn.
      rewrite Hlk, Hlen, <- app_assoc. repeat split.
    + exists (None :: lookups). unfold kept in *. cbn.
      rewrite Hlk, Hlen. repeat split.
Qed.

End Variant2Transactions.

(** X21.  The second variant's [getTransactions] shapes its result as the
    first does: called without a limit it asks for 10 signatures, and what
    it returns is the first variant's entry for each returned signature
    whose [getTransaction] came back non-null, in order.  It never passes a
    [maxSupportedTransactionVersion] to [getTransaction]. *)
Theorem variant2_getTransactions {W} (h : Host W) (this : SolanaService)
    (publicKey : JsValue) (st : State W) :
  let run := V2.getTransactions h this publicKey None st in
  Forall (fun n => n = 10%nat) (collect signature_limit (emitted run)) /\
  Forall (fun v => v = None) (collect transaction_version (emitted run)) /\
  forall txs, outcome run = Returned txs ->
    exists sigs lookups,
      collect signature_query (emitted run) = [(10%nat, sigs)] /\
      List.length lookups = List.length sigs /\
      collect transaction_lookup (emitted run) = combine (map signature sigs) lookups /\
      txs = map V1.transaction_entry (kept sigs lookups).
Proof.
  cbv zeta. unfold V2.getTransactions, bind, call, ret. cbn.
  step.
  2:{ repeat split; [constructor | constructor | discriminate]. }
  step.
  2:{ repeat split; [repeat constructor | constructor | discriminate]. }
  match goal with
  | |- context [for_of r0 ?body ?acc ?st'] =>
      destruct (for_of r0 body acc st') as [o s t] eqn:R
  end; cbn.
  apply (transactions_loop2 h this) in R. destruct R as (Hv & Hl & Hentries).
  rewrite Hl. split; [repeat constructor |]. split; [exact Hv |].
  intros txs ->. destruct (Hentries txs eq_refl) as (lookups & Hlen & Hlk & ->).
  exists r0, lookups.
  assert (Hq : collect signature_query t = []).
  { clear - Hl. induction t as [| [X c r] t IH]; [reflexivity |].
    cbn in Hl |- *. destruct c; cbn in *; try discriminate; auto. }
  rewrite Hq, Hlk. repeat split. exact Hlen.
Qed.

(** X22.  The second variant serves only with the secret key set: the
    constructor hands the variable to [JSON.parse] unguarded, which
    rejects the text of [undefined] and the empty text, and what it throws
    stops the loading of the module.  So on a server that has loaded,
    wallet-status never gives its ['SERVER_WALLET_SECRET_KEY not set.']
    answer.  It never reads the cluster either: it calls at most
    [JSON.parse] and [Keypair.fromSecretKey], and answers 200 with
    [{ connected: true, publicKey }] and no balance, or 500 with
    [{ connected: false, error }]. *)
Theorem variant2_wallet_status {W} (h : Host W) (w : W) (this : SolanaService)
    (req : Request) (st : State W) (res : Response) :
  (forall text w', text = "undefined" \/ text = "" ->
                   exists e, fst (exec h (JSON_parse text) w') = Thrown e) ->
  started2 h w = Some this ->
  endpoint req = (GET, "/api/wallet-status") ->
  outcome (V2.handle h this req st) = Returned (Some res) ->
  let evs := emitted (V2.handle h this req st) in
  truthy_env (SERVER_WALLET_SECRET_KEY (env h)) = true /\
  collect connection_request (emitted (V2.init h (fresh w)))
  = [(V2.RPC_ENDPOINT h, "confirmed", None)] /\
  collect balance_lookup evs = [] /\
  (List.length evs <= 2)%nat /\
  has_prop "balance" (body res) = false /\
  has_prop "message" (body res) = false /\
  ((exists kp, collect restored_keypair evs = [kp] /\
               res = res_json (JObj [("connected", JBool true);
                                     ("publicKey", JStr (toBase58 (kp_publicKey kp)))])) \/
   (exists e, Exists (fun ev => thrown_by ev = Some e) evs /\
              res = res_status_json 500
                      (JObj [("connected", JBool false); ("error", JStr (message e))]))).
Proof.
  intros Hparse Hstart E.
  assert (Hconn : collect connection_request (emitted (V2.init h (fresh w)))
                  = [(V2.RPC_ENDPOINT h, "confirmed", None)]).
  { unfold V2.init, V2.constructor, fresh, bind, call, ret. cbn.
    repeat step; reflexivity. }
  assert (K : truthy_env (SERVER_WALLET_SECRET_KEY (env h)) = true).
  { revert Hstart. unfold started2, V2.init, V2.constructor, fresh, bind, call, ret. cbn.
    step; [| discriminate].
    destruct (SERVER_WALLET_SECRET_KEY (env h)) as [text |] eqn:Ek.
    - destruct (String.eqb_spec text "") as [-> | Hne].
      + destruct (Hparse "" w0 (or_intror eq_refl)) as (e & He).
        destruct (exec h (JSON_parse "") w0) as [[x | e'] w1]; cbn in He |- *;
          [discriminate He | discriminate].
      + intros _. cbn.
        destruct (String.eqb_spec text ""); [contradiction | reflexivity].
    - destruct (Hparse "undefined" w0 (or_introl eq_refl)) as (e & He).
      destruct (exec h (JSON_parse "undefined") w0) as [[x | e'] w1]; cbn in He |- *;
        [discriminate He | discriminate]. }
  rewrite (handle2_registered h this req _ _ (V2.wallet_status h) E) by (cbn; tauto).
  cbv zeta. unfold V2.wallet_status. rewrite K.
  unfold try_catch, bind, call, ret; cbn.
  repeat step; intros [= <-]; cbn;
    (split; [reflexivity |]); (split; [exact Hconn |]); (split; [reflexivity |]);
    (split; [lia |]); (split; [reflexivity |]); (split; [reflexivity |]);
    first [ left; eexists; split; reflexivity
          | right; eexists; split; [| reflexivity]; auto using Exists_cons_hd, Exists_cons_tl ].
Qed.

(* ================================================================== *)
(** * These theorems at work on the concrete host *)

(** Start-up on the concrete host builds the concrete service. *)
Lemma init_builds_service_demo :
  solanaService (started Demo.host tt) = Some Demo.service /\
  exists conn secret kp text,
    SERVER_WALLET_SECRET_KEY (env Demo.host) = Some text /\ text <> "" /\
    emitted (V1.init Demo.host (fresh tt))
    = [ Ev (New_Connection (V1.RPC_ENDPOINT Demo.host) "confirmed" (Some 0%nat))
          (Returned conn);
        Ev (JSON_parse text) (Returned secret);
        Ev (Keypair_fromSecretKey secret) (Returned kp) ] /\
    Demo.service
    = {| connection := conn;
         program := new_Program (TRANSFER_HOOK_PROGRAM_ID Demo.host)
                      (new_AnchorProvider conn (new_Wallet kp) "confirmed") |}.
Proof.
  assert (S : solanaService (started Demo.host tt) = Some Demo.service)
    by (vm_compute; reflexivity).
  split; [exact S |].
  destruct (init_builds_service Demo.host tt) as (_ & _ & _ & H).
  exact (H Demo.service S).
Defined.

(** Without the key, after a create-token request, a transactions request
    is answered 500. *)
Lemma started_without_key_demo :
  truthy_env (SERVER_WALLET_SECRET_KEY (env Demo.keyless_host)) = false /\
  outcome (V1.handle Demo.keyless_host Demo.get_transactions
             (V1.serve Demo.keyless_host [Demo.post_create_token]
                (started Demo.keyless_host tt)))
  = Returned (Some (res_status_json 500
       (JObj [("success", JBool false);
              ("error", JStr "Backend service not initialized.")]))).
Proof.
  assert (K : truthy_env (SERVER_WALLET_SECRET_KEY (env Demo.keyless_host)) = false)
    by reflexivity.
  split; [exact K |].
  destruct (started_without_key Demo.keyless_host tt [Demo.post_create_token]
              Demo.get_transactions K) as (_ & _ & H & _).
  apply H. cbn. tauto.
Defined.

Lemma wallet_status_after_start_demo :
  exists res,
    outcome (V1.handle Demo.host Demo.get_wallet_status
               (V1.serve Demo.host [Demo.post_create_token] (started Demo.host tt)))
    = Returned (Some res) /\
    get_prop "message" (body res) = JUndefined.
Proof.
  eexists.
  assert (Hout : outcome (V1.handle Demo.host Demo.get_wallet_status
                            (V1.serve Demo.host [Demo.post_create_token]
                               (started Demo.host tt)))
                 = Returned (Some ?[res])) by (vm_compute; reflexivity).
  destruct (wallet_status_after_start Demo.host tt [Demo.post_create_token]
              Demo.get_wallet_status _ eq_refl Hout) as [Hm _].
  split; [exact Hout | exact Hm].
Defined.

Lemma program_info_after_start_demo :
  solanaService (started Demo.host tt) = Some Demo.service /\
  exists rpcEndpoint,
    rpcEndpoint = "https://api.devnet.solana.com" /\
    outcome (V1.handle Demo.host Demo.get_program_info
               (V1.serve Demo.host [] (started Demo.host tt)))
    = Returned (Some (res_json
        (JObj [("rpcEndpoint", JStr rpcEndpoint);
               ("transferHookProgramId",
                JStr (toBase58 (programId (program Demo.service))))]))).
Proof.
  assert (S : solanaService (started Demo.host tt) = Some Demo.service)
    by (vm_compute; reflexivity).
  split; [exact S |].
  destruct (program_info_after_start Demo.host tt Demo.service [] Demo.get_program_info
              S eq_refl) as (e & _ & _ & Hdev & _ & _ & Hout).
  exists e. split; [apply Hdev; left; reflexivity | exact Hout].
Defined.

Lemma failure_ends_the_request_demo :
  let ev := Ev (New_PublicKey (JStr "not-a-key"))
               (Thrown (new_Error "Invalid public key input")) in
  emitted (V1.handle Demo.host Demo.post_issue_badge_bad_key Demo.state) = [] ++ ev :: [] /\
  exists res,
    outcome (V1.handle Demo.host Demo.post_issue_badge_bad_key Demo.state)
    = Returned (Some res) /\ status res = 500%nat.
Proof.
  intros ev.
  assert (Hev : emitted (V1.handle Demo.host Demo.post_issue_badge_bad_key Demo.state)
                = [] ++ ev :: []) by (vm_compute; reflexivity).
  assert (Hthrown : thrown_by ev <> None) by discriminate.
  destruct (failure_ends_the_request Demo.host Demo.post_issue_badge_bad_key Demo.state
              [] [] ev Hev Hthrown) as (_ & _ & H).
  split; [exact Hev | exact H].
Defined.

Lemma issue_badge_binds_recipient_demo :
  exists mint recipient pda,
    collect constructed_key (emitted (V1.handle Demo.host Demo.post_issue_badge Demo.state))
    = [ (JStr (toBase58 Demo.a_mint), mint); (JStr (toBase58 Demo.an_owner), recipient) ] /\
    collect badge_accounts (emitted (V1.handle Demo.host Demo.post_issue_badge Demo.state))
    = [(kp_publicKey Demo.server_keypair, recipient, pda, SystemProgram_programId)].
Proof.
  assert (Hout : outcome (V1.handle Demo.host Demo.post_issue_badge Demo.state)
                 = Returned (Some (res_json (JObj [("success", JBool true)]))))
    by (vm_compute; reflexivity).
  destruct (issue_badge_binds_recipient Demo.host Demo.post_issue_badge Demo.service
              Demo.state _ eq_refl eq_refl Hout eq_refl)
    as (mint & recipient & pda & _ & Hk & _ & Hb & _).
  exists mint, recipient, pda. split; [exact Hk | exact Hb].
Defined.

Lemma create_token_fails_after_mint_demo :
  collect metas_init_failure
    (emitted (V1.handle Demo.hookless_host Demo.post_create_token Demo.state)) <> [] /\
  exists res kp tx,
    outcome (V1.handle Demo.hookless_host Demo.post_create_token Demo.state)
    = Returned (Some res) /\
    collect sent_transaction
      (emitted (V1.handle Demo.hookless_host Demo.post_create_token Demo.state))
    = [(tx, [kp])] /\
    collect confirmed_transaction
      (emitted (V1.handle Demo.hookless_host Demo.post_create_token Demo.state))
    = [tx] /\
    has_prop "mintAddress" (body res) = false.
Proof.
  assert (Hfail : collect metas_init_failure
                    (emitted (V1.handle Demo.hookless_host Demo.post_create_token
                                Demo.state)) <> [])
    by (vm_compute; discriminate).
  split; [exact Hfail |]. eexists.
  assert (Hout : outcome (V1.handle Demo.hookless_host Demo.post_create_token Demo.state)
                 = Returned (Some ?[res])) by (vm_compute; reflexivity).
  destruct (create_token_fails_after_mint Demo.hookless_host Demo.post_create_token
              Demo.service Demo.state _ eq_refl eq_refl Hout Hfail)
    as (e & kp & tx & _ & _ & Hc & Hs & _ & Hno).
  exists kp, tx. repeat split; assumption.
Defined.

Lemma transfer_between_associated_accounts_demo :
  let req := Demo.post_transfer (JNum (Number_of_Z 5)) in
  exists mint recipient source destination,
    collect associated_account (emitted (V1.handle Demo.host req Demo.state))
    = [ (Demo.server_keypair, mint, kp_publicKey Demo.server_keypair, source);
        (Demo.server_keypair, mint, recipient, destination) ] /\
    collect hook_transfer_accounts (emitted (V1.handle Demo.host req Demo.state))
    = [(address source, mint, address destination, kp_publicKey Demo.server_keypair)].
Proof.
  intros req.
  assert (Hout : outcome (V1.handle Demo.host req Demo.state)
                 = Returned (Some (res_json (JObj [("success", JBool true)]))))
    by (vm_compute; reflexivity).
  destruct (transfer_between_associated_accounts Demo.host req Demo.service Demo.state _
              eq_refl eq_refl Hout eq_refl)
    as (mint & recipient & source & destination & pda & _ & Ha & _ & Hh).
  exists mint, recipient, source, destination. split; [exact Ha | exact Hh].
Defined.

Lemma transfer_amount_is_not_validated_demo :
  get_prop "amount" (req_body Demo.post_transfer_without_amount) = JUndefined /\
  outcome (V1.handle Demo.host Demo.post_transfer_without_amount Demo.state)
  = Returned (Some (res_json (JObj [("success", JBool true)]))) /\
  collect hook_transfer_amount
    (emitted (V1.handle Demo.host Demo.post_transfer_without_amount Demo.state))
  = [(NaN, 9%nat)].
Proof.
  assert (Hout : outcome (V1.handle Demo.host Demo.post_transfer_without_amount Demo.state)
                 = Returned (Some (res_json (JObj [("success", JBool true)]))))
    by (vm_compute; reflexivity).
  destruct (transfer_amount_is_not_validated Demo.host Demo.post_transfer_without_amount
              Demo.service Demo.state _ eq_refl eq_refl Hout eq_refl)
    as (_ & Hmissing & _).
  split; [reflexivity |]. split; [exact Hout | exact (Hmissing eq_refl)].
Defined.

Lemma rejected_address_stops_the_request_demo :
  collect rejected_key
    (emitted (V1.handle Demo.host Demo.post_issue_badge_bad_key Demo.state)) <> [] /\
  Forall (fun ev => is_New_PublicKey ev = true)
    (emitted (V1.handle Demo.host Demo.post_issue_badge_bad_key Demo.state)).
Proof.
  assert (Hrej : collect rejected_key
                   (emitted (V1.handle Demo.host Demo.post_issue_badge_bad_key Demo.state))
                 <> []) by (vm_compute; discriminate).
  split; [exact Hrej |].
  destruct (rejected_address_stops_the_request Demo.host Demo.post_issue_badge_bad_key
              Demo.service Demo.state eq_refl (or_introl eq_refl) Hrej) as [H _].
  exact H.
Defined.

Lemma routes_read_five_properties_demo :
  req_body Demo.post_create_token <> req_body Demo.post_create_token_with_body /\
  V1.handle Demo.host Demo.post_create_token Demo.state
  = V1.handle Demo.host Demo.post_create_token_with_body Demo.state /\
  V1.app Demo.host Demo.post_create_token Demo.state
  = V1.app Demo.host Demo.post_create_token_with_body Demo.state.
Proof.
  split; [discriminate |].
  apply routes_read_five_properties.
  - reflexivity.
  - reflexivity.
  - discriminate.
  - intros k [<- | [<- | [<- | []]]]; reflexivity.
  - intros k [<- | [<- | []]]; reflexivity.
Defined.

Lemma variant2_create_token_demo :
  exists res mintKeypair mintLen,
    outcome (V2.handle Demo.host Demo.service Demo.post_create_token Demo.state)
    = Returned (Some res) /\
    collect mint_space
      (emitted (V2.handle Demo.host Demo.service Demo.post_create_token Demo.state))
    = [([ExtensionType_TransferHook], mintLen)] /\
    res = res_json (JObj [("success", JBool true);
                          ("mintAddress", JStr (toBase58 (kp_publicKey mintKeypair)))]).
Proof.
  eexists.
  assert (Hout : outcome (V2.handle Demo.host Demo.service Demo.post_create_token Demo.state)
                 = Returned (Some ?[res])) by (vm_compute; reflexivity).
  destruct (variant2_create_token Demo.host Demo.service Demo.post_create_token Demo.state
              _ eq_refl Hout eq_refl)
    as (kp & len & lamports & _ & _ & Hs & _ & _ & Hres).
  exists kp, len. repeat split; assumption.
Defined.

Lemma server_key_signs_transfers_demo :
  let req := Demo.post_transfer (JNum (Number_of_Z 5)) in
  exists kp tx,
    collect restored_keypair (emitted (V1.init Demo.host (fresh tt))) = [kp] /\
    collect sent_transaction
      (emitted (V1.handle Demo.host req (V1.serve Demo.host [] (started Demo.host tt))))
    = [(tx, [kp])].
Proof.
  intros req.
  assert (Hout : outcome (V1.handle Demo.host req
                            (V1.serve Demo.host [] (started Demo.host tt)))
                 = Returned (Some (res_json (JObj [("success", JBool true)]))))
    by (vm_compute; reflexivity).
  destruct (server_key_signs_transfers Demo.host tt [] req _ eq_refl Hout eq_refl)
    as (kp & tx & mint & recipient & source & destination & Hk & _ & _ & Hs).
  exists kp, tx. split; [exact Hk | exact Hs].
Defined.

Lemma transactions_entries_demo :
  exists res sigs entries,
    outcome (V1.handle Demo.host Demo.get_transactions Demo.state) = Returned (Some res) /\
    collect signature_query (emitted (V1.handle Demo.host Demo.get_transactions Demo.state))
    = [(10%nat, sigs)] /\
    body res = JObj [("success", JBool true); ("transactions", JArr entries)].
Proof.
  eexists.
  assert (Hout : outcome (V1.handle Demo.host Demo.get_transactions Demo.state)
                 = Returned (Some ?[res])) by (vm_compute; reflexivity).
  destruct (transactions_entries Demo.host Demo.get_transactions Demo.state _
              (or_introl eq_refl) Hout eq_refl)
    as (sigs & lookups & entries & Hq & Hb & _).
  exists sigs, entries. repeat split; assumption.
Defined.

Lemma getTransactions_honours_limit_demo :
  exists txs,
    outcome (V1.getTransactions Demo.host Demo.service (JStr (toBase58 Demo.an_owner))
               (Some 2%nat) Demo.state) = Returned txs /\
    (List.length txs <= 2)%nat.
Proof.
  eexists.
  assert (Hout : outcome (V1.getTransactions Demo.host Demo.service
                            (JStr (toBase58 Demo.an_owner)) (Some 2%nat) Demo.state)
                 = Returned ?[txs]) by (vm_compute; reflexivity).
  assert (Hsdk : Forall (fun q => (List.length (snd q) <= fst q)%nat)
                   (collect signature_query
                      (emitted (V1.getTransactions Demo.host Demo.service
                                  (JStr (toBase58 Demo.an_owner)) (Some 2%nat) Demo.state))))
    by (vm_compute; repeat constructor).
  destruct (getTransactions_honours_limit Demo.host Demo.service
              (JStr (toBase58 Demo.an_owner)) 2%nat Demo.state _ Hout Hsdk) as [_ Hlen].
  split; [exact Hout | exact Hlen].
Defined.

(** Two SOL are reported as 2. *)
Lemma server_wallet_balance_demo :
  outcome (V1.getServerWalletBalance Demo.host Demo.service Demo.state)
  = Returned (Number_of_Z 2).
Proof.
  destruct (server_wallet_balance Demo.host Demo.service Demo.state)
    as (r & _ & Hlookup & Hr).
  destruct r as [lamports | e].
  - destruct Hr as [_ Hexact]. apply (Hexact 2); [lia | reflexivity |].
    vm_compute in Hlookup. injection Hlookup as <-. vm_compute. reflexivity.
  - vm_compute in Hlookup. discriminate Hlookup.
Defined.

(** The second variant loads on the concrete host, whose key is set, and
    reports the wallet without a balance. *)
Lemma variant2_wallet_status_demo :
  exists res kp,
    started2 Demo.host tt = Some Demo.service2 /\
    outcome (V2.handle Demo.host Demo.service2 Demo.get_wallet_status Demo.state)
    = Returned (Some res) /\
    truthy_env (SERVER_WALLET_SECRET_KEY (env Demo.host)) = true /\
    has_prop "balance" (body res) = false /\
    res = res_json (JObj [("connected", JBool true);
                          ("publicKey", JStr (toBase58 (kp_publicKey kp)))]).
Proof.
  eexists.
  assert (Hstart : started2 Demo.host tt = Some Demo.service2) by (vm_compute; reflexivity).
  assert (Hout : outcome (V2.handle Demo.host Demo.service2 Demo.get_wallet_status
                            Demo.state)
                 = Returned (Some ?[reply])) by (vm_compute; reflexivity).
  assert (Hparse : forall (text : string) (w' : unit),
             text = "undefined" \/ text = "" ->
             exists e, fst (exec Demo.host (JSON_parse text) w') = Thrown e).
  { intros text w' [-> | ->]; eexists; reflexivity. }
  destruct (variant2_wallet_status Demo.host tt _ Demo.get_wallet_status Demo.state _
              Hparse Hstart eq_refl Hout) as (K & _ & _ & _ & Hno & _ & Hres).
  destruct Hres as [(kp & _ & Hres) | (e & _ & Hres)]; [| discriminate Hres].
  exists kp. repeat split; assumption.
Defined.
